(** * support_chat: helpdesk schedule, chat sessions, attachments.

    A shallow embedding of the scheduling and chat-session core of the
    Django application (chat/models.py, chat/views.py, chat/forms.py,
    chat/utils.py, chat/management/commands/cleanup_old_chats.py and
    accounts/views.py), with the database as an explicit state and every
    clock reading, random draw and request as an explicit input. *)

From Stdlib Require Import ZArith Lia Bool Sorting.Sorted.
From stdpp Require Import base option list strings pretty gmap.

Local Open Scope string_scope.
Local Open Scope list_scope.
Local Open Scope Z_scope.

(** ** Python values: [datetime.time], [datetime.date], [datetime.datetime] *)

Module Py.

(** [datetime.time]: naive time of day. *)
Record time := mk_time {
  hour : Z;
  minute : Z;
  second : Z;
  microsecond : Z
}.

(** [datetime.date]. *)
Record date := mk_date {
  year : Z;
  month : Z;
  day : Z
}.

(** [datetime.datetime], as its date and its time of day. *)
Record datetime := mk_datetime {
  dt_date : date;
  dt_time : time
}.

#[global] Instance time_eq_dec : EqDecision time.
Proof. solve_decision. Defined.
#[global] Instance date_eq_dec : EqDecision date.
Proof. solve_decision. Defined.
#[global] Instance datetime_eq_dec : EqDecision datetime.
Proof. solve_decision. Defined.

#[global] Instance date_countable : Countable date.
Proof.
  refine (inj_countable' (fun d => (year d, month d, day d))
            (fun t => mk_date t.1.1 t.1.2 t.2) _).
  by intros [].
Defined.

(** Lexicographic chaining of comparisons, as tuple comparison does. *)
Definition cmp_then (c d : comparison) : comparison :=
  match c with Eq => d | _ => c end.

(** [time._cmp]: compares (hour, minute, second, microsecond). *)
Definition time_cmp (a b : time) : comparison :=
  cmp_then (hour a ?= hour b)
    (cmp_then (minute a ?= minute b)
      (cmp_then (second a ?= second b) (microsecond a ?= microsecond b))).

(** [date._cmp]: compares (year, month, day). *)
Definition date_cmp (a b : date) : comparison :=
  cmp_then (year a ?= year b)
    (cmp_then (month a ?= month b) (day a ?= day b)).

(** [datetime._cmp]. *)
Definition datetime_cmp (a b : datetime) : comparison :=
  cmp_then (date_cmp (dt_date a) (dt_date b)) (time_cmp (dt_time a) (dt_time b)).

Definition is_lt (c : comparison) : bool := match c with Lt => true | _ => false end.
Definition is_le (c : comparison) : bool := match c with Gt => false | _ => true end.
Definition is_ge (c : comparison) : bool := match c with Lt => false | _ => true end.

(** [a < b], [a <= b], [a >= b] on times. *)
Definition time_lt (a b : time) : bool := is_lt (time_cmp a b).
Definition time_le (a b : time) : bool := is_le (time_cmp a b).
Definition time_ge (a b : time) : bool := is_ge (time_cmp a b).

Definition date_lt (a b : date) : bool := is_lt (date_cmp a b).
Definition datetime_lt (a b : datetime) : bool := is_lt (datetime_cmp a b).
Definition datetime_le (a b : datetime) : bool := is_le (datetime_cmp a b).

(** [_is_leap], [_days_before_year], [_days_before_month], [_ymd2ord] of
    CPython's datetime module, used by [date.weekday]. *)
Definition is_leap (y : Z) : bool :=
  (y mod 4 =? 0) && (negb (y mod 100 =? 0) || (y mod 400 =? 0)).

Definition days_before_year (y : Z) : Z :=
  let y' := y - 1 in y' * 365 + y' / 4 - y' / 100 + y' / 400.

Definition DAYS_BEFORE_MONTH : list Z :=
  [0; 0; 31; 59; 90; 120; 151; 181; 212; 243; 273; 304; 334].

(** [_DAYS_BEFORE_MONTH[m] + (m > 2 and leap)]. *)
Definition days_before_month_leap (leap : bool) (m : Z) : Z :=
  default 0 (DAYS_BEFORE_MONTH !! Z.to_nat m)
  + (if (2 <? m) && leap then 1 else 0).

Definition days_before_month (y m : Z) : Z :=
  days_before_month_leap (is_leap y) m.

Definition toordinal (d : date) : Z :=
  days_before_year (year d) + days_before_month (year d) (month d) + day d.

(** [date.weekday()]: 0 = Monday, ..., 6 = Sunday. *)
Definition weekday (d : date) : Z := (toordinal d + 6) mod 7.

(** One decimal digit, and a number zero-padded to two digits, as
    [strftime] writes hours, minutes, months and days. *)
Definition digit (n : Z) : Ascii.ascii := Ascii.ascii_of_nat (48 + Z.to_nat (n mod 10)).

Definition two_digits (n : Z) : string :=
  String (digit (n / 10)) (String (digit n) EmptyString).

(** [t.strftime('%I:%M %p')]: twelve-hour clock, zero-padded, AM or PM. *)
Definition strftime_I_M_p (t : time) : string :=
  let h12 := hour t mod 12 in
  two_digits (if h12 =? 0 then 12 else h12) +:+ ":" +:+ two_digits (minute t)
  +:+ " " +:+ (if hour t <? 12 then "AM" else "PM").

(** [dt.strftime('%Y%m%d%H%M%S')]; [%Y] is the year in decimal with no
    padding, the other fields are padded to two digits. *)
Definition strftime_YmdHMS (dt : datetime) : string :=
  pretty (year (dt_date dt)) +:+ two_digits (month (dt_date dt))
  +:+ two_digits (day (dt_date dt)) +:+ two_digits (hour (dt_time dt))
  +:+ two_digits (minute (dt_time dt)) +:+ two_digits (second (dt_time dt)).

End Py.

Export Py.

(** ** The schedule tables (chat/models.py) *)

(** A row of [HelpdeskSchedule]; the table is keyed by its unique
    [day_of_week] column. *)
Record HelpdeskSchedule := mk_schedule {
  is_active : bool;
  start_time : option time;
  end_time : option time
}.

(** A row of [ScheduleOverride]; the table is keyed by its unique [date]
    column. *)
Record ScheduleOverride := mk_override {
  ov_is_active : bool;
  ov_start_time : option time;
  ov_end_time : option time;
  ov_reason : string
}.

(** The two schedule tables of the database. *)
Record ScheduleDB := mk_schedule_db {
  schedules : gmap Z HelpdeskSchedule;
  overrides : gmap date ScheduleOverride
}.

Definition DAYS_OF_WEEK : list (Z * string) :=
  [(0, "Monday"); (1, "Tuesday"); (2, "Wednesday"); (3, "Thursday");
   (4, "Friday"); (5, "Saturday"); (6, "Sunday")].

(** [dict(pairs).get(d)] for a list of (key, label) pairs with distinct keys. *)
Fixpoint dict_get (pairs : list (Z * string)) (d : Z) : option string :=
  match pairs with
  | [] => None
  | (k, v) :: rest => if k =? d then Some v else dict_get rest d
  end.

(** [dict(DAYS_OF_WEEK).get(d)]. *)
Definition day_name_lookup (d : Z) : option string := dict_get DAYS_OF_WEEK d.

(** [get_day_of_week_display()]: the label of the choice, or the raw
    value when it is not one of the choices. *)
Definition get_day_of_week_display (d : Z) : string :=
  default (pretty d) (day_name_lookup d).

(** Validation outcome of [clean()]. *)
Inductive Validation :=
  | Valid
  | ValidationError (msg : string).

(** [HelpdeskSchedule.clean]; [save()] calls it before writing the row. *)
Definition HelpdeskSchedule_clean (s : HelpdeskSchedule) : Validation :=
  if is_active s then
    match start_time s, end_time s with
    | Some st, Some en =>
        if time_ge st en then ValidationError "Start time must be before end time."
        else Valid
    | _, _ => ValidationError "Active days must have both start and end times specified."
    end
  else Valid.

(** [HelpdeskSchedule.is_currently_available], with the reading of
    [timezone.localtime()] passed in as [now]. *)
Definition is_currently_available (db : ScheduleDB) (now : datetime) : bool * string :=
  let current_day := weekday (dt_date now) in
  let current_time := dt_time now in
  match schedules db !! current_day with
  | Some day_schedule =>
      if negb (is_active day_schedule) then
        (false, "Support is closed on " +:+ get_day_of_week_display current_day +:+ "s")
      else
        match start_time day_schedule, end_time day_schedule with
        | Some st, Some en =>
            if time_le st current_time && time_le current_time en then
              (true, "Support is currently available")
            else
              (false, "Support hours: " +:+ strftime_I_M_p st +:+ " - " +:+ strftime_I_M_p en)
        | _, _ => (true, "Support is available")
        end
  | None => (false, "Schedule not configured for this day")
  end.

(** [cls.objects.get(day_of_week=d, is_active=True)]; [None] stands for
    [DoesNotExist]. *)
Definition get_active_schedule (db : ScheduleDB) (d : Z) : option HelpdeskSchedule :=
  match schedules db !! d with
  | Some s => if is_active s then Some s else None
  | None => None
  end.

(** The first block of [get_next_available_time]: the remaining time
    today. *)
Definition next_available_today (db : ScheduleDB) (current_day : Z) (current_time : time)
  : option string :=
  match get_active_schedule db current_day with
  | Some today_schedule =>
      match start_time today_schedule, end_time today_schedule with
      | Some st, Some _ =>
          if time_lt current_time st then Some ("Today at " +:+ strftime_I_M_p st)
          else None
      | _, _ => None
      end
  | None => None
  end.

(** The body of the loop [for i in range(1, 8)] at offset [i]: [Some] is
    a [return], [None] falls through to the next iteration. *)
Definition next_available_at (db : ScheduleDB) (current_day i : Z) : option string :=
  let check_day := (current_day + i) mod 7 in
  match get_active_schedule db check_day with
  | Some schedule =>
      match start_time schedule with
      | Some st =>
          let day_name := default EmptyString (day_name_lookup check_day) in
          if i =? 1 then
            Some ("Tomorrow (" +:+ day_name +:+ ") at " +:+ strftime_I_M_p st)
          else
            Some (day_name +:+ " at " +:+ strftime_I_M_p st)
      | None => None
      end
  | None => None
  end.

(** The loop over the offsets, leaving at the first [return]. *)
Fixpoint next_available_scan (db : ScheduleDB) (current_day : Z) (offsets : list Z)
  : option string :=
  match offsets with
  | [] => None
  | i :: rest =>
      match next_available_at db current_day i with
      | Some r => Some r
      | None => next_available_scan db current_day rest
      end
  end.

(** [HelpdeskSchedule.get_next_available_time], with the reading of
    [timezone.localtime()] passed in as [now]. *)
Definition get_next_available_time (db : ScheduleDB) (now : datetime) : string :=
  let current_day := weekday (dt_date now) in
  let current_time := dt_time now in
  match next_available_today db current_day current_time with
  | Some r => r
  | None =>
      match next_available_scan db current_day (seqZ 1 7) with
      | Some r => r
      | None => "Schedule not available"
      end
  end.

(** [ScheduleOverride.get_override_for_date]. *)
Definition get_override_for_date (db : ScheduleDB) (d : date) : option ScheduleOverride :=
  overrides db !! d.

(** The availability part of the JSON answer of [schedule_status_api]. *)
Record ScheduleStatus := mk_status {
  st_is_available : bool;
  st_message : string;
  st_next_available : string;
  st_has_override : bool;
  st_override_reason : option string
}.

(** [schedule_status_api] (accounts/views.py). [utc_now] is the reading
    of [timezone.now()]; [local1], [local2], [local3] are the successive
    readings of [timezone.localtime()]. *)
Definition schedule_status_api (db : ScheduleDB) (utc_now local1 local2 local3 : datetime)
  : ScheduleStatus :=
  let today := dt_date utc_now in
  let override := get_override_for_date db today in
  let '(is_available, message) :=
    match override with
    | Some ov =>
        match ov_is_active ov, ov_start_time ov, ov_end_time ov with
        | true, Some st, Some en =>
            let current_time := dt_time local1 in
            (time_le st current_time && time_le current_time en,
             "Special hours today: " +:+ strftime_I_M_p st +:+ " - "
               +:+ strftime_I_M_p en +:+ " (" +:+ ov_reason ov +:+ ")")
        | _, _, _ =>
            (ov_is_active ov, "Special schedule today: " +:+ ov_reason ov)
        end
    | None => is_currently_available db local2
    end in
  let next_available := get_next_available_time db local3 in
  mk_status is_available message next_available
    (bool_decide (is_Some override)) (ov_reason <$> override).

(** ** Python strings

    A [str] is modelled by the byte string of its UTF-8 encoding; the
    whitespace and case operations below act on its ASCII characters, and
    [len] counts bytes. They are those of Python on ASCII text, which is
    what [ascii_text] below tells; the statements about cleaned texts are
    made for such texts. *)

Module Str.

Definition dquote : string := String (Ascii.ascii_of_nat 34) EmptyString.

(** Characters that [str.strip()] removes: tab, line feed, vertical tab,
    form feed, carriage return, the separators 28..31 and space. *)
Definition is_space (c : Ascii.ascii) : bool :=
  let n := Ascii.nat_of_ascii c in
  ((9 <=? n) && (n <=? 13) || (28 <=? n) && (n <=? 32))%nat.

Fixpoint lstrip (s : string) : string :=
  match s with
  | String c s' => if is_space c then lstrip s' else s
  | EmptyString => EmptyString
  end.

(** [s.rstrip()]: drop a character when it is a space and all that
    follows has been dropped. *)
Fixpoint rstrip (s : string) : string :=
  match s with
  | String c s' =>
      match rstrip s' with
      | EmptyString => if is_space c then EmptyString else String c EmptyString
      | r => String c r
      end
  | EmptyString => EmptyString
  end.

(** [s.strip()]. *)
Definition strip (s : string) : string := rstrip (lstrip s).

Definition lower_char (c : Ascii.ascii) : Ascii.ascii :=
  let n := Ascii.nat_of_ascii c in
  if ((65 <=? n) && (n <=? 90))%nat then Ascii.ascii_of_nat (n + 32) else c.

(** [s.lower()]. *)
Fixpoint lower (s : string) : string :=
  match s with
  | String c s' => String (lower_char c) (lower s')
  | EmptyString => EmptyString
  end.

(** [len(s)]. *)
Definition len (s : string) : Z := Z.of_nat (String.length s).

(** [x in xs] for a list of strings. *)
Definition str_in (x : string) (xs : list string) : bool :=
  bool_decide (x ∈ xs).

(** [s.replace(old, new)] for a non-empty [old]: left to right, without
    overlap. [skip] counts the characters of a match still to be passed. *)
Fixpoint replace_from (old new : string) (skip : nat) (s : string) : string :=
  match s with
  | EmptyString => EmptyString
  | String c s' =>
      match skip with
      | S k => replace_from old new k s'
      | O =>
          if String.prefix old s then
            new +:+ replace_from old new (String.length old - 1) s'
          else String c (replace_from old new 0 s')
      end
  end.

Definition replace (old new s : string) : string := replace_from old new 0 s.

Definition dot : Ascii.ascii := Ascii.ascii_of_nat 46.

(** The text after the last ['.'] of [s]; [None] when [s] has no dot. *)
Fixpoint after_last_dot (s : string) : option string :=
  match s with
  | EmptyString => None
  | String c s' =>
      match after_last_dot s' with
      | Some r => Some r
      | None => if Ascii.eqb c dot then Some s' else None
      end
  end.

(** [PurePath(name).suffix[1:]] for a bare file name: the text after the
    last dot, empty when there is no dot, when the only dot is the first
    character, or when the name ends in a dot. *)
Definition path_suffix (name : string) : string :=
  match name with
  | EmptyString => EmptyString
  | String _ rest =>
      match after_last_dot rest with
      | Some ext => ext
      | None => EmptyString
      end
  end.

End Str.

(** ASCII text without the null character: the texts on which the
    byte-wise [strip], [lower] and [len] are those of Python, and which
    the null-character validator of a form field lets through. *)
Definition ascii_text (s : string) : bool :=
  forallb (fun c => (0 <? Ascii.nat_of_ascii c)%nat && (Ascii.nat_of_ascii c <? 128)%nat)
          (String.list_ascii_of_string s).

(** ** Forms (chat/forms.py) *)

(** An uploaded file of [request.FILES]: its name and its size in bytes. *)
Record UploadedFile := mk_file {
  file_name : string;
  file_size_bytes : Z
}.

(** Outcome of a validation step that returns the cleaned value. *)
Inductive Cleaned (A : Type) :=
  | CleanOk (value : A)
  | CleanError (msg : string).
Arguments CleanOk {A} value.
Arguments CleanError {A} msg.

Definition cleaned_ok {A} (c : Cleaned A) : bool :=
  match c with CleanOk _ => true | CleanError _ => false end.

(** Django's [CharField.clean] for a required field, on ASCII text: the
    value is stripped, must not be empty, and must not exceed
    [max_length] (a limit other than 1, as all limits of the forms
    are). *)
Definition CharField_clean (max_length : option Z) (raw : string) : Cleaned string :=
  let value := Str.strip raw in
  if bool_decide (value = EmptyString) then CleanError "This field is required."
  else
    match max_length with
    | Some m =>
        if m <? Str.len value then
          CleanError ("Ensure this value has at most " +:+ pretty m
                      +:+ " characters (it has " +:+ pretty (Str.len value) +:+ ").")
        else CleanOk value
    | None => CleanOk value
    end.

Definition forbidden_names : list string :=
  ["system"; "admin"; "technician"; "bot"; "null"; "undefined"].

(** [ChatStartForm.clean_student_name], on ASCII text. *)
Definition clean_student_name (student_name : string) : Cleaned string :=
  let name := Str.strip student_name in
  if Str.len name <? 2 then CleanError "🚫 Name must be at least 2 characters long"
  else if Str.str_in (Str.lower name) forbidden_names then
    CleanError "🚫 Please choose a different name"
  else CleanOk name.

(** [ChatStartForm.clean_initial_message], on ASCII text. *)
Definition clean_initial_message (initial_message : string) : Cleaned string :=
  let message := Str.strip initial_message in
  if Str.len message <? 10 then
    CleanError "🌊 Please provide more details about what you need help with (at least 10 characters)"
  else if 1000 <? Str.len message then
    CleanError "🌀 Initial message too long (max 1000 characters)"
  else CleanOk message.

(** [ChatStartForm]: [is_valid()] and [cleaned_data], [None] when the
    form has errors. Each field is cleaned by its [CharField] and then by
    its [clean_<field>] method. *)
Definition ChatStartForm (post_student_name post_initial_message : string)
  : option (string * string) :=
  let name :=
    match CharField_clean (Some 100) post_student_name with
    | CleanOk v => clean_student_name v
    | CleanError e => CleanError e
    end in
  let message :=
    match CharField_clean None post_initial_message with
    | CleanOk v => clean_initial_message v
    | CleanError e => CleanError e
    end in
  match name, message with
  | CleanOk n, CleanOk m => Some (n, m)
  | _, _ => None
  end.

(** The emoticon table of [clean_content], in insertion order. *)
Definition emoji_replacements : list (string * string) :=
  [(":)", "🙂"); (":(", "🙁"); (":D", "😄"); (":P", "😛");
   (":o", "😮"); (":/", "🫤"); (":|", "😐"); (";)", "😉");
   ("<3", "❤️"); ("</3", "💔"); (":thumbsup:", "👍"); (":thumbsdown:", "👎")].

(** [ChatMessageForm.clean_content], on ASCII text. *)
Definition clean_content (content : string) : Cleaned string :=
  let content := Str.strip content in
  if bool_decide (content = EmptyString) then CleanError "🚫 Message cannot be empty"
  else if Str.len content <? 1 then CleanError "🌊 Please enter a message"
  else
    CleanOk (fold_left (fun acc p => Str.replace p.1 p.2 acc) emoji_replacements content).

(** The [allowed_extensions] of the [FileExtensionValidator]. In the
    source no comma separates ['xlsx'] from ['py'], so the two literals
    make the one entry ['xlsxpy']. *)
Definition allowed_extensions : list string :=
  ["png"; "jpg"; "jpeg"; "gif"; "bmp"; "webp";
   "doc"; "docx"; "odp"; "ods"; "odt"; "pdf"; "txt"; "rtf"; "xls"; "xlsxpy";
   "js"; "html"; "css"; "json"; "csv";
   "mp3"; "wav"; "mp4"; "avi"; "mov";
   "zip"; "7z"].

(** [FileExtensionValidator.__call__]. *)
Definition FileExtensionValidator (f : UploadedFile) : bool :=
  Str.str_in (Str.lower (Str.path_suffix (file_name f))) allowed_extensions.

(** Django's [FileField.clean] of one file followed by the field's
    validators: the file has a name, is not empty, and has an allowed
    extension. *)
Definition single_file_clean (f : UploadedFile) : bool :=
  negb (bool_decide (file_name f = EmptyString))
  && negb (file_size_bytes f =? 0)
  && FileExtensionValidator f.

(** [MultipleFileField.clean] on the list of uploaded files. *)
Definition MultipleFileField_clean (data : list UploadedFile) : bool :=
  forallb single_file_clean data.

Definition max_file_size : Z := 5 * 1024 * 1024.
Definition max_total_size : Z := 25 * 1024 * 1024.

(** The loop of [clean_attachments]: the running total, or the error of
    the first file that is too large. *)
Fixpoint sum_file_sizes (files : list UploadedFile) (total_size : Z) : Cleaned Z :=
  match files with
  | [] => CleanOk total_size
  | file :: rest =>
      if max_file_size <? file_size_bytes file then
        CleanError ("🚫 File " +:+ Str.dquote +:+ file_name file +:+ Str.dquote
                    +:+ " is too large. Maximum size is 5MB per file.")
      else sum_file_sizes rest (total_size + file_size_bytes file)
  end.

(** [ChatMessageForm.clean_attachments]. *)
Definition clean_attachments (files : list UploadedFile) : Cleaned (list UploadedFile) :=
  match files with
  | [] => CleanOk files
  | _ =>
      match sum_file_sizes files 0 with
      | CleanError e => CleanError e
      | CleanOk total_size =>
          if max_total_size <? total_size then
            CleanError "🚫 Total file size exceeds 25MB limit"
          else if 10 <? Z.of_nat (length files) then
            CleanError "🚫 Maximum 10 files per message"
          else CleanOk files
      end
  end.

(** [ChatMessageForm]: [is_valid()] and the cleaned content, [None] when
    the form has errors. [clean_attachments] runs only when the field's
    own cleaning has passed. *)
Definition ChatMessageForm (post_content : string) (files : list UploadedFile)
  : option string :=
  let content :=
    match CharField_clean (Some 2000) post_content with
    | CleanOk v => clean_content v
    | CleanError e => CleanError e
    end in
  let attachments_ok :=
    MultipleFileField_clean files && cleaned_ok (clean_attachments files) in
  match content with
  | CleanOk c => if attachments_ok then Some c else None
  | CleanError _ => None
  end.

(** ** The chat tables (chat/models.py) *)

Inductive ChatStatus := WAITING | ACTIVE | STUDENT_LEFT | CLOSED.

#[global] Instance ChatStatus_eq_dec : EqDecision ChatStatus.
Proof. solve_decision. Defined.

Inductive MessageType := text | emoji | system.

#[global] Instance MessageType_eq_dec : EqDecision MessageType.
Proof. solve_decision. Defined.

(** The scalar columns of a [ChatSession] row; the table is keyed by the
    unique [chat_id] column. *)
Record ChatSession := mk_session {
  student_name : string;
  initial_message : string;
  created_at : datetime;
  status : ChatStatus;
  student_session_key : string
}.

Record ChatMessage := mk_message {
  msg_id : Z;
  msg_chat : string;
  sender_name : string;
  sender_user : option Z;
  content : string;
  timestamp : datetime;
  is_from_student : bool;
  message_type : MessageType
}.

Record ChatAttachment := mk_attachment {
  att_chat : string;
  att_message : Z;
  original_filename : string;
  uploaded_at : datetime;
  uploaded_by_student : bool;
  file_size : Z;
  mime_type : string
}.

(** A user object as the views hold it: [pk] is [None] for an unsaved
    user. *)
Record User := mk_user {
  pk : option Z;
  full_name : string
}.

(** The database. [session_technicians] is the join table of the
    many-to-many field [ChatSession.technicians], a set of
    (chat_id, user pk) pairs. *)
Record DB := mk_db {
  sched : ScheduleDB;
  auth_users : gset Z;
  sessions : gmap string ChatSession;
  session_technicians : gset (string * Z);
  messages : list ChatMessage;
  next_message_id : Z;
  attachments : list ChatAttachment
}.

Definition set_sessions (f : gmap string ChatSession → gmap string ChatSession) (db : DB) : DB :=
  mk_db (sched db) (auth_users db) (f (sessions db)) (session_technicians db)
        (messages db) (next_message_id db) (attachments db).

Definition set_session_technicians (f : gset (string * Z) → gset (string * Z)) (db : DB) : DB :=
  mk_db (sched db) (auth_users db) (sessions db) (f (session_technicians db))
        (messages db) (next_message_id db) (attachments db).

Definition set_messages (f : list ChatMessage → list ChatMessage) (db : DB) : DB :=
  mk_db (sched db) (auth_users db) (sessions db) (session_technicians db)
        (f (messages db)) (next_message_id db) (attachments db).

Definition set_attachments (f : list ChatAttachment → list ChatAttachment) (db : DB) : DB :=
  mk_db (sched db) (auth_users db) (sessions db) (session_technicians db)
        (messages db) (next_message_id db) (f (attachments db)).

Definition set_status (st : ChatStatus) (c : ChatSession) : ChatSession :=
  mk_session (student_name c) (initial_message c) (created_at c) st (student_session_key c).

Definition set_student_session_key (k : string) (c : ChatSession) : ChatSession :=
  mk_session (student_name c) (initial_message c) (created_at c) (status c) k.

(** [self.save()] of a session instance: its columns are written to the
    row of its [chat_id]. *)
Definition save_session (chat_id : string) (self : ChatSession) (db : DB) : DB :=
  set_sessions (insert chat_id self) db.

(** [user in chat.technicians.all()]. *)
Definition is_technician (db : DB) (chat_id : string) (u : User) : bool :=
  match pk u with
  | Some k => bool_decide ((chat_id, k) ∈ session_technicians db)
  | None => false
  end.

(** The pks of [chat.technicians.all()]. *)
Definition technicians (db : DB) (chat_id : string) : gset Z :=
  set_map snd (filter (fun p => p.1 = chat_id) (session_technicians db)).

(** Exceptions that leave a view or a command. *)
Inductive Exn :=
  | DoesNotExist
  | ValueError
  | IntegrityError
  | AttributeError
  | OverflowError.

(** [ChatSession.add_technician]: [self] is the instance in memory, the
    join table and the saved row are in [db]. *)
Definition add_technician (db : DB) (chat_id : string) (self : ChatSession) (user : User)
  : Exn + (DB * ChatSession) :=
  match pk user with
  | Some k =>
      if bool_decide (k ∈ auth_users db) then
        if k =? 0 then inl ValueError
        else
          let db1 := set_session_technicians (union {[ (chat_id, k) ]}) db in
          if bool_decide (status self = WAITING) then
            let self' := set_status ACTIVE self in
            inr (save_session chat_id self' db1, self')
          else inr (db1, self)
      else inl DoesNotExist
  | None => inl DoesNotExist
  end.

(** [ChatMessage.objects.create(...)]: the row gets the next id and the
    clock reading [now] as its [timestamp]. *)
Definition create_message (chat_id sender : string) (sender_u : option Z)
    (body : string) (from_student : bool) (kind : MessageType) (now : datetime)
    (db : DB) : DB * ChatMessage :=
  let m := mk_message (next_message_id db) chat_id sender sender_u body now from_student kind in
  (mk_db (sched db) (auth_users db) (sessions db) (session_technicians db)
         (messages db ++ [m]) (next_message_id db + 1) (attachments db), m).

(** Insertion of a message among messages sorted by timestamp, after
    those with the same timestamp. *)
Fixpoint insert_by_timestamp (m : ChatMessage) (sorted : list ChatMessage) : list ChatMessage :=
  match sorted with
  | [] => [m]
  | x :: rest =>
      if datetime_le (timestamp x) (timestamp m) then x :: insert_by_timestamp m rest
      else m :: sorted
  end.

(** [queryset.order_by('timestamp')]; rows with equal timestamps stay in
    the order of their ids. *)
Definition order_by_timestamp (rows : list ChatMessage) : list ChatMessage :=
  fold_left (fun acc m => insert_by_timestamp m acc) rows [].

(** [chat.messages.all().order_by('timestamp')]. *)
Definition chat_messages (db : DB) (chat_id : string) : list ChatMessage :=
  order_by_timestamp (filter (fun m => msg_chat m = chat_id) (messages db)).

(** [chat.attachments.all()]. *)
Definition chat_attachments (db : DB) (chat_id : string) : list ChatAttachment :=
  filter (fun a => att_chat a = chat_id) (attachments db).

(** [chat.attachments.all().delete()]. *)
Definition delete_chat_attachments (chat_id : string) (db : DB) : DB :=
  set_attachments (filter (fun a => att_chat a ≠ chat_id)) db.

(** [chat.messages.all().delete()]: the messages of the chat go, and by
    [on_delete=CASCADE] the attachments that point to them. *)
Definition delete_chat_messages (chat_id : string) (db : DB) : DB :=
  let gone := msg_id <$> filter (fun m => msg_chat m = chat_id) (messages db) in
  set_messages (filter (fun m => msg_chat m ≠ chat_id))
    (set_attachments (filter (fun a => att_message a ∉ gone)) db).

(** [ChatSession.cleanup_files]: every attachment row of the chat is
    deleted; errors on single files are logged and skipped. *)
Definition cleanup_files (chat_id : string) (db : DB) : DB :=
  delete_chat_attachments chat_id db.

(** Django's deletion of a session row: the [pre_delete] receiver
    [cleanup_chat_files_before_delete] runs [cleanup_files], then the rows
    that point to the session go with it (messages, attachments, join
    table). *)
Definition collector_delete_session (chat_id : string) (db : DB) : DB :=
  let db1 := cleanup_files chat_id db in
  let db2 := delete_chat_messages chat_id db1 in
  let db3 := delete_chat_attachments chat_id db2 in
  let db4 := set_session_technicians (filter (fun p => p.1 ≠ chat_id)) db3 in
  set_sessions (delete chat_id) db4.

(** [ChatSession.delete]: [cleanup_files] first, then [super().delete()]. *)
Definition ChatSession_delete (chat_id : string) (db : DB) : DB :=
  collector_delete_session chat_id (cleanup_files chat_id db).

(** ** Requests and their environment *)

(** What a request reads from outside the database: the clock, the
    configured time zone, the random source, the session store and the
    MIME table. *)
Record Env := mk_env {
  timezone_now : nat → datetime;      (* k-th reading of the clock in the request, in UTC *)
  localtime : datetime → datetime;    (* the reading in the configured time zone *)
  random_draw : nat → nat;            (* k-th draw of the random source *)
  new_session_key : string;           (* key made by request.session.create() *)
  guess_type : string → option string (* mimetypes.guess_type(name)[0] *)
}.

Inductive Method := GET | POST.

#[global] Instance Method_eq_dec : EqDecision Method.
Proof. solve_decision. Defined.

Record Request := mk_request {
  method : Method;
  session_key : option string;    (* request.session.session_key *)
  user : option User;             (* request.user, None when anonymous *)
  post_action : string;           (* request.POST.get('action') *)
  post_student_name : string;
  post_initial_message : string;
  post_content : string;
  FILES : list UploadedFile       (* request.FILES.getlist('attachments') *)
}.

Inductive Response :=
  | Http404
  | Http405
  | Http500 (e : Exn)
  | Redirect (url_name : string)
  | RedirectChat (url_name chat_id : string)
  | Render (template : string) (listing : list ChatMessage)
  | JsonSuccess
  | JsonErrors
  | JsonDenied
  | JsonMessages (listing : list ChatMessage) (chat_status : ChatStatus) (chat_id : string).

(** [''.join(secrets.choice(allowed_chars) for i in range(length))]; the
    choice takes the character at the draw reduced modulo the length. *)
Definition get_random_string (env : Env) (length : nat) (allowed_chars : string) : string :=
  fold_right
    (fun k acc =>
       match String.get (random_draw env k mod String.length allowed_chars)%nat allowed_chars with
       | Some c => String c acc
       | None => acc
       end)
    EmptyString (seq 0 length).

(** [generate_chat_id]; [now] is the reading of [datetime.datetime.now()]. *)
Definition generate_chat_id (env : Env) (now : datetime) : string :=
  let timestamp := strftime_YmdHMS now in
  let random_suffix := get_random_string env 4 "ABCDEFGHIJKLMNOPQRSTUVWXYZ0123456789" in
  "CHAT-" +:+ timestamp +:+ "-" +:+ random_suffix.

(** The session key of the request, made first when there is none. *)
Definition ensure_session_key (env : Env) (request : Request) : string :=
  match session_key request with
  | Some k => if bool_decide (k = EmptyString) then new_session_key env else k
  | None => new_session_key env
  end.

(** ** Views (chat/views.py) *)

Definition SYSTEM_SENDER : string := "🤖 System".

(** [chat_landing]. Clock readings: 0 availability, 1 today's date,
    2 chat id, 3 [created_at], 4 and 5 the two first messages, 6 next
    availability, 7 the schedule message. *)
Definition chat_landing (env : Env) (request : Request) (db : DB) : Response * DB :=
  let key := ensure_session_key env request in
  let '(is_available, availability_message) :=
    is_currently_available (sched db) (localtime env (timezone_now env 0)) in
  let today := dt_date (timezone_now env 1) in
  let override := get_override_for_date (sched db) today in
  match method request with
  | POST =>
      match ChatStartForm (post_student_name request) (post_initial_message request) with
      | Some (name, first_message) =>
          let chat_id := generate_chat_id env (localtime env (timezone_now env 2)) in
          match sessions db !! chat_id with
          | Some _ => (Http500 IntegrityError, db)
          | None =>
              let chat := mk_session name first_message (timezone_now env 3) WAITING key in
              let db1 := save_session chat_id chat db in
              let system_message :=
                if is_available then
                  "💬 Chat started by " +:+ student_name chat +:+ ". Support is currently available!"
                else
                  "💬 Chat started by " +:+ student_name chat
                  +:+ ". Support is currently offline - a technician will respond when available."
                  +:+ match override with
                      | Some ov => " (Special schedule: " +:+ ov_reason ov +:+ ")"
                      | None => EmptyString
                      end in
              let db2 := (create_message chat_id SYSTEM_SENDER None system_message
                            false system (timezone_now env 4) db1).1 in
              let db3 := (create_message chat_id (student_name chat) None (initial_message chat)
                            true text (timezone_now env 5) db2).1 in
              let db4 :=
                if negb is_available then
                  let next_available :=
                    get_next_available_time (sched db) (localtime env (timezone_now env 6)) in
                  (create_message chat_id SYSTEM_SENDER None
                     ("ℹ️ Support hours: " +:+ availability_message
                      +:+ ". Next available: " +:+ next_available)
                     false system (timezone_now env 7) db3).1
                else db3 in
              (RedirectChat "chat:student_chat" chat_id, db4)
          end
      | None => (Render "chat/landing.html" [], db)
      end
  | GET => (Render "chat/landing.html" [], db)
  end.

(** The access check at the head of [student_chat]: whether access is
    granted, the session instance afterwards and the database
    afterwards. *)
Definition student_access (env : Env) (request : Request) (chat_id : string)
    (chat : ChatSession) (db : DB) : bool * ChatSession * DB :=
  let current_session := ensure_session_key env request in
  if bool_decide (student_session_key chat = current_session) then (true, chat, db)
  else if bool_decide (student_session_key chat = EmptyString)
          && bool_decide (method request = GET) then
    let chat' := set_student_session_key current_session chat in
    (true, chat', save_session chat_id chat' db)
  else (false, chat, db).

(** [ChatAttachment.objects.create(...)] for each uploaded file; the
    [k]-th file takes the clock reading [first + k]. *)
Fixpoint create_attachments (env : Env) (chat_id : string) (message : ChatMessage)
    (by_student : bool) (files : list UploadedFile) (first : nat) (db : DB) : DB :=
  match files with
  | [] => db
  | file :: rest =>
      let a := mk_attachment chat_id (msg_id message) (file_name file)
                 (timezone_now env first) by_student (file_size_bytes file)
                 (default "application/octet-stream" (guess_type env (file_name file))) in
      create_attachments env chat_id message by_student rest (S first)
        (set_attachments (fun l => (l ++ [a])%list) db)
  end.

(** [student_chat]. Clock readings: 0 availability, 1 the message, 2..
    the attachments, then the offline notice. *)
Definition student_chat (env : Env) (request : Request) (chat_id : string) (db : DB)
  : Response * DB :=
  match sessions db !! chat_id with
  | None => (Http404, db)
  | Some chat0 =>
      let '(access_granted, chat, db) := student_access env request chat_id chat0 db in
      if negb access_granted then (Redirect "chat:landing", db)
      else
        let '(is_available, availability_message) :=
          is_currently_available (sched db) (localtime env (timezone_now env 0)) in
        let page db := (Render "chat/student_chat.html" (chat_messages db chat_id), db) in
        match method request with
        | POST =>
            if bool_decide (post_action request = "send_message") then
              match ChatMessageForm (post_content request) (FILES request) with
              | Some cleaned_content =>
                  if bool_decide (status chat ≠ STUDENT_LEFT) then
                    let '(db1, message) :=
                      create_message chat_id (student_name chat) None cleaned_content
                        true text (timezone_now env 1) db in
                    let db2 := create_attachments env chat_id message true (FILES request) 2 db1 in
                    let db3 :=
                      if negb is_available && bool_decide (status chat = WAITING) then
                        (create_message chat_id SYSTEM_SENDER None
                           ("📝 Your message has been received. " +:+ availability_message)
                           false system (timezone_now env (2 + length (FILES request))) db2).1
                      else db2 in
                    (JsonSuccess, db3)
                  else page db
              | None => page db
              end
            else if bool_decide (post_action request = "leave_chat") then
              let chat' := set_status STUDENT_LEFT chat in
              let db1 := save_session chat_id chat' db in
              let db2 := (create_message chat_id SYSTEM_SENDER None
                            ("👋 " +:+ student_name chat' +:+ " has left the chat")
                            false system (timezone_now env 1) db1).1 in
              (Redirect "chat:landing", db2)
            else page db
        | GET => page db
        end
  end.

(** The announcement written by [join_chat]. *)
Definition join_announcement (chat_id : string) (u : User) (now : datetime) (db : DB) : DB :=
  (create_message chat_id ("🔧 " +:+ full_name u) (pk u)
     ("🔧 " +:+ full_name u +:+ " has joined the chat") false system now db).1.

(** [join_chat], behind [login_required]. *)
Definition join_chat (env : Env) (request : Request) (chat_id : string) (db : DB)
  : Response * DB :=
  match user request with
  | None => (Redirect "login", db)
  | Some u =>
      match sessions db !! chat_id with
      | None => (Http404, db)
      | Some chat =>
          match status chat with
          | WAITING =>
              match add_technician db chat_id chat u with
              | inl e => (Http500 e, db)
              | inr (db1, _) =>
                  (RedirectChat "chat:technician_chat" chat_id,
                   join_announcement chat_id u (timezone_now env 0) db1)
              end
          | ACTIVE =>
              if is_technician db chat_id u then
                (RedirectChat "chat:technician_chat" chat_id, db)
              else
                match pk u with
                | Some k =>
                    let db1 := set_session_technicians (union {[ (chat_id, k) ]}) db in
                    (RedirectChat "chat:technician_chat" chat_id,
                     join_announcement chat_id u (timezone_now env 0) db1)
                | None => (Http500 ValueError, db)
                end
          | _ => (Redirect "chat:technician_dashboard", db)
          end
      end
  end.

(** The [close_chat] action of [technician_chat], step by step: the
    status is saved as [CLOSED], the attachments are deleted, then the
    messages, then the session. *)
Definition close_chat_mark (chat_id : string) (chat : ChatSession) (db : DB) : DB :=
  save_session chat_id (set_status CLOSED chat) db.

Definition close_chat (chat_id : string) (chat : ChatSession) (db : DB) : DB :=
  let db1 := close_chat_mark chat_id chat db in
  let db2 := delete_chat_attachments chat_id db1 in
  let db3 := delete_chat_messages chat_id db2 in
  ChatSession_delete chat_id db3.

(** [technician_chat], behind [login_required]. Clock readings: 0 the
    message, 1.. the attachments. *)
Definition technician_chat (env : Env) (request : Request) (chat_id : string) (db : DB)
  : Response * DB :=
  match user request with
  | None => (Redirect "login", db)
  | Some u =>
      match sessions db !! chat_id with
      | None => (Http404, db)
      | Some chat =>
          if negb (is_technician db chat_id u) then
            (Redirect "chat:technician_dashboard", db)
          else
            let page := (Render "chat/technician_chat.html" (chat_messages db chat_id), db) in
            match method request with
            | POST =>
                if bool_decide (post_action request = "send_message") then
                  match ChatMessageForm (post_content request) (FILES request) with
                  | Some cleaned_content =>
                      if bool_decide (status chat = ACTIVE) then
                        let '(db1, message) :=
                          create_message chat_id (full_name u) (pk u) cleaned_content
                            false text (timezone_now env 0) db in
                        (JsonSuccess,
                         create_attachments env chat_id message false (FILES request) 1 db1)
                      else (JsonErrors, db)
                  | None => (JsonErrors, db)
                  end
                else if bool_decide (post_action request = "close_chat") then
                  (Redirect "chat:technician_dashboard", close_chat chat_id chat db)
                else page
            | GET => page
            end
      end
  end.

(** [chat_messages_api], restricted to [GET]. *)
Definition chat_messages_api (request : Request) (chat_id : string) (db : DB)
  : Response * DB :=
  match method request with
  | POST => (Http405, db)
  | GET =>
      match sessions db !! chat_id with
      | None => (Http404, db)
      | Some chat =>
          let is_student :=
            bool_decide (Some (student_session_key chat) = session_key request) in
          let is_tech :=
            match user request with
            | Some u => is_technician db chat_id u
            | None => false
            end in
          if negb (is_student || is_tech) then (JsonDenied, db)
          else (JsonMessages (chat_messages db chat_id) (status chat) chat_id, db)
      end
  end.

(** [validate_chat_access] (chat/utils.py). *)
Definition validate_chat_access (request : Request) (chat_id : string)
    (chat : ChatSession) (db : DB) : bool :=
  match user request with
  | None => bool_decide (Some (student_session_key chat) = session_key request)
  | Some u => is_technician db chat_id u
  end.

(** ** The management command cleanup_old_chats *)

(** Python objects reached by attribute access in the command. *)
Inductive PyValue :=
  | PyStatus (s : ChatStatus)
  | PyEnumClass (members : list (string * ChatStatus))
  | PyModelClass (attributes : list string)
  | PyMember.

(** [getattr(obj, name)]; [None] stands for [AttributeError]. *)
Definition getattr (obj : PyValue) (name : string) : option PyValue :=
  match obj with
  | PyEnumClass members =>
      (fun p => PyStatus p.2.2) <$> list_find (fun p => bool_decide (p.1 = name)) members
  | PyModelClass attributes =>
      if bool_decide (name ∈ attributes) then Some PyMember else None
  | _ => None
  end.

(** The module-level class [ChatStatus] of chat/models.py. *)
Definition ChatStatus_class : PyValue :=
  PyEnumClass [("WAITING", WAITING); ("ACTIVE", ACTIVE);
               ("STUDENT_LEFT", STUDENT_LEFT); ("CLOSED", CLOSED)].

(** The class [ChatSession] of chat/models.py: its columns, its manager
    and reverse relations, and the properties and methods of its body.
    [ChatStatus] is defined beside it in the module, not inside it. *)
Definition ChatSession_class : PyValue :=
  PyModelClass
    ["chat_id"; "student_name"; "initial_message"; "created_at"; "status";
     "technicians"; "student_session_key"; "Meta"; "__str__"; "is_active";
     "needs_technician"; "add_technician"; "cleanup_files";
     "_cleanup_empty_directories"; "delete"; "objects"; "DoesNotExist";
     "MultipleObjectsReturned"; "messages"; "attachments"; "id"; "pk"; "save"].

(** CPython's [_ord2ymd], the inverse of [toordinal]. *)
Definition ord2ymd (n0 : Z) : date :=
  let n := n0 - 1 in
  let n400 := n / 146097 in
  let n := n mod 146097 in
  let n100 := n / 36524 in
  let n := n mod 36524 in
  let n4 := n / 1461 in
  let n := n mod 1461 in
  let n1 := n / 365 in
  let n := n mod 365 in
  let y := n400 * 400 + 1 + n100 * 100 + n4 * 4 + n1 in
  if (n1 =? 4) || (n100 =? 4) then mk_date (y - 1) 12 31
  else
    let leapyear := (n1 =? 3) && (negb (n4 =? 24) || (n100 =? 3)) in
    let m := Z.shiftr (n + 50) 5 in
    let preceding := days_before_month_leap leapyear m in
    if n <? preceding then
      mk_date y (m - 1) (n - days_before_month_leap leapyear (m - 1) + 1)
    else mk_date y m (n - preceding + 1).

(** [now - timedelta(days=days)]; [None] stands for [OverflowError]. *)
Definition minus_days (now : datetime) (days : Z) : option datetime :=
  let ordinal := toordinal (dt_date now) - days in
  if (999999999 <? Z.abs days) || (ordinal <? 1) || (3652059 <? ordinal) then None
  else Some (mk_datetime (ord2ymd ordinal) (dt_time now)).

(** Decimal writing of [n] on [width] digits. *)
Fixpoint zero_padded (width : nat) (n : Z) : string :=
  match width with
  | O => EmptyString
  | S w => zero_padded w (n / 10) +:+ String (digit n) EmptyString
  end.

(** [str(dt)] for an aware datetime in UTC. *)
Definition str_datetime (dt : datetime) : string :=
  zero_padded 4 (year (dt_date dt)) +:+ "-" +:+ two_digits (month (dt_date dt))
  +:+ "-" +:+ two_digits (day (dt_date dt)) +:+ " " +:+ two_digits (hour (dt_time dt))
  +:+ ":" +:+ two_digits (minute (dt_time dt)) +:+ ":" +:+ two_digits (second (dt_time dt))
  +:+ (if microsecond (dt_time dt) =? 0 then EmptyString
       else "." +:+ zero_padded 6 (microsecond (dt_time dt)))
  +:+ "+00:00".

(** [ChatSession.objects.filter(status=st, created_at__lt=cutoff)]. *)
Definition old_chats_query (st : ChatStatus) (cutoff : datetime) (db : DB)
  : list (string * ChatSession) :=
  filter (fun p => status p.2 = st ∧ datetime_lt (created_at p.2) cutoff = true)
         (map_to_list (sessions db)).

(** [queryset.delete()] on sessions: each row goes with what points to it. *)
Definition delete_sessions (ids : list string) (db : DB) : DB :=
  fold_left (fun acc chat_id => collector_delete_session chat_id acc) ids db.

(** [Command.handle] of cleanup_old_chats: the lines written to stdout,
    or the exception raised, and the database afterwards. *)
Definition handle (env : Env) (days : Z) (dry_run : bool) (db : DB)
  : (Exn + list string) * DB :=
  match minus_days (timezone_now env 0) days with
  | None => (inl OverflowError, db)
  | Some cutoff_date =>
      match getattr ChatSession_class "ChatStatus" ≫= (fun c => getattr c "CLOSED") with
      | Some (PyStatus closed) =>
          let old_chats := old_chats_query closed cutoff_date db in
          let count := Z.of_nat (length old_chats) in
          if dry_run then
            (inr (("🔍 DRY RUN: Would delete " +:+ pretty count
                    +:+ " closed chats older than " +:+ pretty days +:+ " days")
                  :: map (fun p => "  - " +:+ p.1 +:+ " (" +:+ student_name p.2 +:+ ") - "
                                   +:+ str_datetime (created_at p.2))
                         (take 10 old_chats)
                  ++ (if 10 <? count then ["  ... and " +:+ pretty (count - 10) +:+ " more"]
                      else []))%list,
             db)
          else
            (inr ["✅ Successfully deleted " +:+ pretty count +:+ " old closed chats"],
             delete_sessions (map fst old_chats) db)
      | _ => (inl AttributeError, db)
      end
  end.

(** ** Operations of the application *)

(** One request to a view, or one run of the cleanup command. *)
Inductive Operation :=
  | OpChatLanding (request : Request)
  | OpStudentChat (request : Request) (chat_id : string)
  | OpJoinChat (request : Request) (chat_id : string)
  | OpTechnicianChat (request : Request) (chat_id : string)
  | OpChatMessagesApi (request : Request) (chat_id : string)
  | OpCleanupOldChats (days : Z) (dry_run : bool).

(** The database after an operation. *)
Definition run (env : Env) (op : Operation) (db : DB) : DB :=
  match op with
  | OpChatLanding request => (chat_landing env request db).2
  | OpStudentChat request chat_id => (student_chat env request chat_id db).2
  | OpJoinChat request chat_id => (join_chat env request chat_id db).2
  | OpTechnicianChat request chat_id => (technician_chat env request chat_id db).2
  | OpChatMessagesApi request chat_id => (chat_messages_api request chat_id db).2
  | OpCleanupOldChats days dry_run => (handle env days dry_run db).2
  end.

(** A sequence of operations, each with the environment it runs in. *)
Definition run_all (ops : list (Env * Operation)) (db : DB) : DB :=
  fold_left (fun acc eo => run eo.1 eo.2 acc) ops db.

(** ** The shape of a chat id *)






(** ** Notions used by the statements *)




(** The token of the caller of a view: the session key of the request,
    or, for a request without one, the key that [request.session.create()]
    makes. *)
Definition caller_token (env : Env) (request : Request) (token : string) : Prop :=
  (session_key request = Some token ∧ token ≠ EmptyString)
  ∨ ((session_key request = None ∨ session_key request = Some EmptyString)
     ∧ token = new_session_key env).

(** A saved user: it has a pk, the pk is a row of the user table, and it
    is not 0 (ids are assigned from 1). *)
Definition persisted (db : DB) (u : User) (k : Z) : Prop :=
  pk u = Some k ∧ k ∈ auth_users db ∧ k ≠ 0.

(** Between two states of the database, every session that is in both
    and had a non-empty student key has kept it. *)
Definition keeps_student_keys (db db' : DB) : Prop :=
  ∀ chat_id c c',
    sessions db !! chat_id = Some c → student_session_key c ≠ EmptyString →
    sessions db' !! chat_id = Some c' →
    student_session_key c' = student_session_key c.

(** The session [chat_id] has a row after each operation of the
    sequence. *)
Fixpoint present_throughout (chat_id : string) (ops : list (Env * Operation)) (db : DB)
  : Prop :=
  match ops with
  | [] => True
  | eo :: rest =>
      is_Some (sessions (run eo.1 eo.2 db) !! chat_id)
      ∧ present_throughout chat_id rest (run eo.1 eo.2 db)
  end.

(** Ascending order of timestamps between consecutive messages. *)
Definition timestamp_le (a b : ChatMessage) : Prop :=
  datetime_le (timestamp a) (timestamp b) = true.

(** The rows of the message table that belong to a chat, in the order
    of their creation. *)
Definition chat_rows (db : DB) (chat_id : string) : list ChatMessage :=
  filter (fun m => msg_chat m = chat_id) (messages db).

(** The sum of the sizes of the files. *)
Definition total_bytes (files : list UploadedFile) : Z :=
  foldr (fun f acc => file_size_bytes f + acc) 0 files.

(** The error of [clean_attachments] for a file that is too large. *)
Definition too_large_error (f : UploadedFile) : string :=
  "🚫 File " +:+ Str.dquote +:+ file_name f +:+ Str.dquote
  +:+ " is too large. Maximum size is 5MB per file.".

(** ** Sample data *)

Module Sample.

Definition t0900 : time := mk_time 9 0 0 0.
Definition t1000 : time := mk_time 10 0 0 0.
Definition t1700 : time := mk_time 17 0 0 0.
Definition t0800 : time := mk_time 8 0 0 0.

(** Monday 22 December 2025 and Thursday 25 December 2025. *)
Definition monday : date := mk_date 2025 12 22.
Definition christmas : date := mk_date 2025 12 25.

Definition open_9_to_5 : HelpdeskSchedule := mk_schedule true (Some t0900) (Some t1700).

(** The weekly table with Monday open from 09:00 to 17:00. *)
Definition weekly_monday : gmap Z HelpdeskSchedule := {[ 0 := open_9_to_5 ]}.

Definition holiday : ScheduleOverride := mk_override false None None "Holiday".

(** Monday open from 09:00 to 17:00 and an override that closes Monday
    22 December 2025. *)
Definition holiday_db : ScheduleDB := mk_schedule_db weekly_monday {[ monday := holiday ]}.

Definition monday_at (t : time) : datetime := mk_datetime monday t.

(** Sunday 21 December 2025. *)
Definition sunday_at (t : time) : datetime := mk_datetime (mk_date 2025 12 21) t.

Definition no_schedule : ScheduleDB := mk_schedule_db ∅ ∅.


(** A clock that ticks one second per reading from Monday 09:30:00 UTC,
    in a time zone equal to UTC. *)
Definition env : Env :=
  mk_env (fun k => mk_datetime monday (mk_time 9 30 (Z.of_nat k) 0))
         (fun dt => dt) (fun k => k) "k3y0000000000000000000000000abcd"
         (fun _ => None).

Definition alice : User := mk_user (Some 7) "Alice Tech".

Definition alice_joins : Request :=
  mk_request GET None (Some alice) EmptyString EmptyString EmptyString EmptyString [].

Definition alice_closes : Request :=
  mk_request POST None (Some alice) "close_chat" EmptyString EmptyString EmptyString [].

Definition anonymous_get : Request :=
  mk_request GET None None EmptyString EmptyString EmptyString EmptyString [].

Definition start_request : Request :=
  mk_request POST (Some "stu0000000000000000000000000000key") None EmptyString
             "Robin" "My assignment will not upload" EmptyString [].


Definition waiting_chat : ChatSession :=
  mk_session "Robin" "My assignment will not upload"
             (mk_datetime (mk_date 2025 12 1) t0900) WAITING
             "stu0000000000000000000000000000key".

(** One waiting chat with its two first messages and no technician. *)
Definition one_chat_db : DB :=
  mk_db holiday_db {[ 7 ]} {[ "CHAT-20251201090000-AB12" := waiting_chat ]} ∅
        [ mk_message 1 "CHAT-20251201090000-AB12" SYSTEM_SENDER None "started"
            (mk_datetime (mk_date 2025 12 1) t0900) false system;
          mk_message 2 "CHAT-20251201090000-AB12" "Robin" None
            "My assignment will not upload"
            (mk_datetime (mk_date 2025 12 1) t0900) true text ]
        3
        [ mk_attachment "CHAT-20251201090000-AB12" 2 "shot.png"
            (mk_datetime (mk_date 2025 12 1) t0900) true 1024 "image/png" ].

(** [n] files named [name] of [size] bytes each. *)
Definition files_of (n : nat) (name : string) (size : Z) : list UploadedFile :=
  replicate n (mk_file name size).

Definition MiB : Z := 1024 * 1024.

Definition closed_chat : ChatSession :=
  mk_session "Sam" "The quiz page shows an error"
             (mk_datetime (mk_date 2025 1 6) t0900) CLOSED
             "sam0000000000000000000000000000key".

(** One chat with status [CLOSED], created on 6 January 2025. *)
Definition closed_chat_db : DB :=
  mk_db holiday_db {[ 7 ]} {[ "CHAT-20250106090000-ZZ99" := closed_chat ]} ∅ [] 1 [].

(** A chat whose student key is not set yet. *)
Definition unbound_chat : ChatSession :=
  mk_session "Robin" "My assignment will not upload"
             (mk_datetime (mk_date 2025 12 1) t0900) WAITING EmptyString.

Definition unbound_chat_db : DB :=
  mk_db holiday_db {[ 7 ]} {[ "CHAT-20251201090000-AB12" := unbound_chat ]} ∅ [] 1 [].

(** The student of [one_chat_db] posts a message with [files]. *)
Definition student_sends (files : list UploadedFile) : Request :=
  mk_request POST (Some "stu0000000000000000000000000000key") None "send_message"
             EmptyString EmptyString "Here are my files" files.

(** Ten files that reach every limit at once: four of 5 MiB, four of
    1 MiB and two of half a MiB, 25 MiB together. *)
Definition boundary_files : list UploadedFile :=
  files_of 4 "big.pdf" (5 * MiB) ++ files_of 4 "mid.png" MiB
  ++ files_of 2 "small.txt" (512 * 1024).

End Sample.


(** ** Writing the weekly schedule (chat/models.py, accounts/forms.py) *)

(** An exception raised while the schedule is written. *)
Inductive Raised :=
  | RaisedValidationError (msg : string)
  | RaisedValueError.

(** [HelpdeskSchedule.save]: [clean()] first, then the row is written
    under its [day_of_week]. *)
Definition HelpdeskSchedule_save (day : Z) (row : HelpdeskSchedule) (db : ScheduleDB)
  : Raised + ScheduleDB :=
  match HelpdeskSchedule_clean row with
  | Valid => inr (mk_schedule_db (<[day := row]> (schedules db)) (overrides db))
  | ValidationError msg => inl (RaisedValidationError msg)
  end.

(** [HelpdeskSchedule.objects.get_or_create(day_of_week=day, defaults=...)]:
    the row, whether it was created, and the database afterwards. *)
Definition get_or_create (day : Z) (defaults : HelpdeskSchedule) (db : ScheduleDB)
  : Raised + (HelpdeskSchedule * bool * ScheduleDB) :=
  match schedules db !! day with
  | Some row => inr (row, false, db)
  | None =>
      match HelpdeskSchedule_save day defaults db with
      | inr db' => inr (defaults, true, db')
      | inl e => inl e
      end
  end.

(** The table [default_schedules] of [initialize_default_schedule]. *)
Definition default_schedules : list (Z * HelpdeskSchedule) :=
  [(0, mk_schedule true (Some (mk_time 9 0 0 0)) (Some (mk_time 17 0 0 0)));
   (1, mk_schedule true (Some (mk_time 9 0 0 0)) (Some (mk_time 17 0 0 0)));
   (2, mk_schedule true (Some (mk_time 9 0 0 0)) (Some (mk_time 17 0 0 0)));
   (3, mk_schedule true (Some (mk_time 9 0 0 0)) (Some (mk_time 17 0 0 0)));
   (4, mk_schedule true (Some (mk_time 9 0 0 0)) (Some (mk_time 17 0 0 0)));
   (5, mk_schedule false None None);
   (6, mk_schedule false None None)].

(** The loop of [initialize_default_schedule] over a table of defaults. *)
Fixpoint initialize_from (table : list (Z * HelpdeskSchedule)) (db : ScheduleDB)
  : Raised + ScheduleDB :=
  match table with
  | [] => inr db
  | (day, row) :: rest =>
      match get_or_create day row db with
      | inr (_, _, db') => initialize_from rest db'
      | inl e => inl e
      end
  end.

(** [HelpdeskSchedule.initialize_default_schedule]. *)
Definition initialize_default_schedule (db : ScheduleDB) : Raised + ScheduleDB :=
  initialize_from default_schedules db.

(** The dictionary [preset_configs] of [BulkScheduleForm.apply_preset]. *)
Definition preset_configs : list (string * HelpdeskSchedule) :=
  [("business_hours", mk_schedule true (Some (mk_time 9 0 0 0)) (Some (mk_time 16 30 0 0)));
   ("extended_hours", mk_schedule true (Some (mk_time 9 0 0 0)) (Some (mk_time 18 0 0 0)));
   ("weekend_support", mk_schedule true (Some (mk_time 10 0 0 0)) (Some (mk_time 15 0 0 0)));
   ("finals_week", mk_schedule true (Some (mk_time 9 0 0 0)) (Some (mk_time 19 0 0 0)));
   ("all_closed", mk_schedule false None None)].

(** [preset_configs.get(preset, {})]; [None] stands for the empty
    dictionary. *)
Fixpoint preset_lookup (table : list (string * HelpdeskSchedule)) (preset : string)
  : option HelpdeskSchedule :=
  match table with
  | [] => None
  | (name, config) :: rest =>
      if bool_decide (name = preset) then Some config else preset_lookup rest preset
  end.

(** The field defaults of the model [HelpdeskSchedule]. *)
Definition HelpdeskSchedule_defaults : HelpdeskSchedule := mk_schedule false None None.

(** The values that the field [apply_to_days] accepts, each with the
    integer [int(value)]. *)
Definition day_choices : list (string * Z) :=
  [("0", 0); ("1", 1); ("2", 2); ("3", 3); ("4", 4); ("5", 5); ("6", 6)].

Fixpoint day_choice_in (table : list (string * Z)) (s : string) : option Z :=
  match table with
  | [] => None
  | (name, d) :: rest => if bool_decide (name = s) then Some d else day_choice_in rest s
  end.

(** [int(day_num_str)] on the values of the field; [None] stands for
    [ValueError]. *)
Definition day_choice (s : string) : option Z := day_choice_in day_choices s.

(** The loop of [apply_preset] over the selected days. *)
Fixpoint apply_preset_days (config : option HelpdeskSchedule) (days : list string)
    (updated_count : Z) (db : ScheduleDB) : Raised + (Z * ScheduleDB) :=
  match days with
  | [] => inr (updated_count, db)
  | day_num_str :: rest =>
      match day_choice day_num_str with
      | None => inl RaisedValueError
      | Some day_num =>
          match get_or_create day_num (default HelpdeskSchedule_defaults config) db with
          | inl e => inl e
          | inr (schedule, created, db1) =>
              if created then apply_preset_days config rest (updated_count + 1) db1
              else
                match HelpdeskSchedule_save day_num (default schedule config) db1 with
                | inl e => inl e
                | inr db2 => apply_preset_days config rest (updated_count + 1) db2
                end
          end
      end
  end.

(** [BulkScheduleForm.apply_preset] on the cleaned data of the form. *)
Definition apply_preset (preset : string) (days : list string) (db : ScheduleDB)
  : Raised + (Z * ScheduleDB) :=
  if bool_decide (preset = EmptyString) || bool_decide (days = []) then inr (0, db)
  else apply_preset_days (preset_lookup preset_configs preset) days 0 db.

(** ** Overrides (chat/models.py, accounts/forms.py, accounts/views.py) *)

(** [ScheduleOverride.clean]. *)
Definition ScheduleOverride_clean (o : ScheduleOverride) : Validation :=
  if ov_is_active o
     && (negb (bool_decide (is_Some (ov_start_time o)))
         || negb (bool_decide (is_Some (ov_end_time o)))) then
    ValidationError "Active override days must have both start and end times."
  else
    match ov_start_time o, ov_end_time o with
    | Some st, Some en =>
        if time_ge st en then ValidationError "Start time must be before end time."
        else Valid
    | _, _ => Valid
    end.

(** The values of the fields of [ScheduleOverrideForm] once parsed; a
    date that is missing is [None]. *)
Record OverrideData := mk_override_data {
  od_date : option date;
  od_is_active : bool;
  od_start_time : option time;
  od_end_time : option time;
  od_reason : string
}.

(** [ScheduleOverrideForm.clean_date]; [today] is [datetime.date.today()]. *)
Definition clean_date (today d : date) : Validation :=
  if date_lt d today then ValidationError "Cannot create overrides for past dates."
  else Valid.

(** [ScheduleOverrideForm.clean]. *)
Definition ScheduleOverrideForm_clean (data : OverrideData) : Validation :=
  if od_is_active data then
    match od_start_time data with
    | None => ValidationError "Start time is required when override is active."
    | Some st =>
        match od_end_time data with
        | None => ValidationError "End time is required when override is active."
        | Some en =>
            if time_ge st en then ValidationError "End time must be after start time."
            else Valid
        end
    end
  else Valid.

Definition is_valid (v : Validation) : bool :=
  match v with Valid => true | ValidationError _ => false end.

(** [ScheduleOverrideForm.is_valid()] and the instance it builds: the
    fields are cleaned ([reason] is required and has at most 200
    characters), then [clean_date], the form's [clean], the model's
    [clean], and the uniqueness of the date. *)
Definition ScheduleOverrideForm (today : date) (data : OverrideData) (db : ScheduleDB)
  : option (date * ScheduleOverride) :=
  match od_date data, CharField_clean (Some 200) (od_reason data) with
  | Some d, CleanOk reason =>
      let instance :=
        mk_override (od_is_active data) (od_start_time data) (od_end_time data) reason in
      if is_valid (clean_date today d)
         && is_valid (ScheduleOverrideForm_clean data)
         && is_valid (ScheduleOverride_clean instance)
         && negb (bool_decide (is_Some (overrides db !! d)))
      then Some (d, instance) else None
  | _, _ => None
  end.

(** A staff account: the user and its [user_type]. *)
Record Account := mk_account {
  account_user : User;
  user_type : string
}.

(** [is_system_manager] (accounts/views.py). *)
Definition is_system_manager (u : option Account) : bool :=
  match u with
  | Some a => bool_decide (user_type a = "MGR")
  | None => false
  end.

(** Insertion of an override among overrides sorted by date. *)
Fixpoint insert_by_date (x : date * ScheduleOverride) (sorted : list (date * ScheduleOverride))
  : list (date * ScheduleOverride) :=
  match sorted with
  | [] => [x]
  | y :: rest =>
      if is_le (date_cmp y.1 x.1) then y :: insert_by_date x rest else x :: sorted
  end.

(** [queryset.order_by('date')]. *)
Definition order_by_date (rows : list (date * ScheduleOverride))
  : list (date * ScheduleOverride) :=
  fold_left (fun acc x => insert_by_date x acc) rows [].

(** What the views of accounts/views.py answer. *)
Inductive ManagerResponse :=
  | ToLogin
  | RedirectTo (url_name : string)
  | ServerFault (e : Raised)
  | OverridesPage (upcoming past : list (date * ScheduleOverride))
  | SchedulePage (rows : list (Z * HelpdeskSchedule))
                 (upcoming : list (date * ScheduleOverride))
                 (is_available : bool) (message next_available : string).

(** [manage_schedule_overrides], behind [login_required] and
    [user_passes_test(is_system_manager)]. [today] is the date of
    [datetime.date.today()], [utc_today] that of [timezone.now()]. *)
Definition manage_schedule_overrides (today utc_today : date) (who : option Account)
    (how : Method) (data : OverrideData) (db : ScheduleDB) : ManagerResponse * ScheduleDB :=
  if negb (is_system_manager who) then (ToLogin, db)
  else
    let page db :=
      (OverridesPage
         (order_by_date
            (filter (fun p => date_lt p.1 utc_today = false) (map_to_list (overrides db))))
         (take 10
            (reverse
               (order_by_date
                  (filter (fun p => date_lt p.1 utc_today = true) (map_to_list (overrides db)))))),
       db) in
    match how with
    | POST =>
        match ScheduleOverrideForm today data db with
        | Some (d, override) =>
            (RedirectTo "manage_schedule_overrides",
             mk_schedule_db (schedules db) (<[d := override]> (overrides db)))
        | None => page db
        end
    | GET => page db
    end.

(** ** The management command init_schedule *)

Record InitOptions := mk_init_options {
  opt_force : bool;
  opt_business_hours : bool;
  opt_extended_hours : bool;
  opt_finals_week : bool
}.

Definition newline : string := String (Ascii.ascii_of_nat 10) EmptyString.

(** The hours chosen by the options, with the line that announces them;
    the active days are Monday to Friday in every case. *)
Definition init_schedule_choice (options : InitOptions) : time * time * list Z * string :=
  if opt_extended_hours options then
    (mk_time 9 0 0 0, mk_time 18 0 0 0, [0; 1; 2; 3; 4],
     "🕐 Creating extended hours schedule...")
  else if opt_finals_week options then
    (mk_time 9 0 0 0, mk_time 19 0 0 0, [0; 1; 2; 3; 4],
     "📚 Creating finals week schedule...")
  else
    (mk_time 9 0 0 0, mk_time 16 30 0 0, [0; 1; 2; 3; 4],
     "🏢 Creating business hours schedule...").

(** The state of the loop of [handle]: the database, the two counters
    and the lines written so far. *)
Record InitLoop := mk_init_loop {
  il_db : ScheduleDB;
  il_created : Z;
  il_updated : Z;
  il_lines : list string
}.

(** One iteration of [for day in range(7)]. *)
Definition init_schedule_day (options : InitOptions) (start_t end_t : time)
    (active_days : list Z) (day : Z) (st : InitLoop) : Raised + InitLoop :=
  let active := bool_decide (day ∈ active_days) in
  let row := mk_schedule active (if active then Some start_t else None)
                         (if active then Some end_t else None) in
  let day_name := default EmptyString (day_name_lookup day) in
  match get_or_create day row (il_db st) with
  | inl e => inl e
  | inr (_, created, db1) =>
      if created then
        inr (mk_init_loop db1 (il_created st + 1) (il_updated st)
               (il_lines st ++
                [if active then
                   "  ✅ " +:+ day_name +:+ ": " +:+ strftime_I_M_p start_t +:+ " - "
                   +:+ strftime_I_M_p end_t
                 else "  ❌ " +:+ day_name +:+ ": Closed"]))
      else if opt_force options then
        match HelpdeskSchedule_save day row db1 with
        | inl e => inl e
        | inr db2 =>
            inr (mk_init_loop db2 (il_created st) (il_updated st + 1)
                   (il_lines st ++
                    [if active then
                       "  🔄 " +:+ day_name +:+ ": " +:+ strftime_I_M_p start_t +:+ " - "
                       +:+ strftime_I_M_p end_t +:+ " (updated)"
                     else "  🔄 " +:+ day_name +:+ ": Closed (updated)"]))
        end
      else inr (mk_init_loop db1 (il_created st) (il_updated st) (il_lines st))
  end.

Fixpoint init_schedule_loop (options : InitOptions) (start_t end_t : time)
    (active_days : list Z) (days : list Z) (st : InitLoop) : Raised + InitLoop :=
  match days with
  | [] => inr st
  | day :: rest =>
      match init_schedule_day options start_t end_t active_days day st with
      | inl e => inl e
      | inr st' => init_schedule_loop options start_t end_t active_days rest st'
      end
  end.

(** [Command.handle] of init_schedule: the lines written to stdout and
    the database afterwards. [now1] and [now2] are the readings of
    [timezone.localtime()] for the closing status lines. *)
Definition init_schedule_handle (options : InitOptions) (now1 now2 : datetime)
    (db : ScheduleDB) : Raised + (list string * ScheduleDB) :=
  let existing_count := Z.of_nat (size (schedules db)) in
  if (0 <? existing_count) && negb (opt_force options) then
    inr (["📅 Schedule already exists (" +:+ pretty existing_count
          +:+ " days configured). Use --force to reinitialize."], db)
  else
    let '(start_t, end_t, active_days, banner) := init_schedule_choice options in
    match init_schedule_loop options start_t end_t active_days (seqZ 0 7)
            (mk_init_loop db 0 0 [banner]) with
    | inl e => inl e
    | inr st =>
        let summary :=
          (if 0 <? il_created st
           then ["✅ Created schedule for " +:+ pretty (il_created st) +:+ " day(s)"]
           else [])
          ++ (if 0 <? il_updated st
              then ["🔄 Updated schedule for " +:+ pretty (il_updated st) +:+ " day(s)"]
              else [])
          ++ (if (il_created st =? 0) && (il_updated st =? 0)
              then ["⚠️ No changes made. Use --force to overwrite existing schedule."]
              else []) in
        let '(is_available, message) := is_currently_available (il_db st) now1 in
        let status_lines :=
          (newline +:+ "📊 Current Schedule Status:")
          :: (if is_available then ["🟢 " +:+ message]
              else ["🔴 " +:+ message;
                    "   Next available: " +:+ get_next_available_time (il_db st) now2]) in
        inr (il_lines st ++ summary ++ status_lines, il_db st)
    end.

(** ** The schedule page (accounts/views.py) *)

(** Insertion of a row among rows sorted by [day_of_week]. *)
Fixpoint insert_by_day (x : Z * HelpdeskSchedule) (sorted : list (Z * HelpdeskSchedule))
  : list (Z * HelpdeskSchedule) :=
  match sorted with
  | [] => [x]
  | y :: rest => if y.1 <=? x.1 then y :: insert_by_day x rest else x :: sorted
  end.

(** [HelpdeskSchedule.objects.all().order_by('day_of_week')]. *)
Definition order_by_day (rows : list (Z * HelpdeskSchedule)) : list (Z * HelpdeskSchedule) :=
  fold_left (fun acc x => insert_by_day x acc) rows [].

(** [BulkScheduleForm.is_valid()]: the preset is empty or one of the
    choices, and every selected day is one of the choices. *)
Definition BulkScheduleForm (preset : string) (days : list string) : bool :=
  (bool_decide (preset = EmptyString)
   || bool_decide (is_Some (preset_lookup preset_configs preset)))
  && forallb (fun d => bool_decide (is_Some (day_choice d))) days.

(** [manage_schedule], behind [login_required] and
    [user_passes_test(is_system_manager)]. [bulk_action] tells whether
    the key ['bulk_action'] is in [request.POST]. *)
Definition manage_schedule (utc_today : date) (now1 now2 : datetime) (who : option Account)
    (how : Method) (bulk_action : bool) (preset : string) (days : list string)
    (db : ScheduleDB) : ManagerResponse * ScheduleDB :=
  if negb (is_system_manager who) then (ToLogin, db)
  else
    match initialize_default_schedule db with
    | inl e => (ServerFault e, db)
    | inr db1 =>
        let page :=
          let '(is_available, message) := is_currently_available db1 now1 in
          (SchedulePage
             (order_by_day (map_to_list (schedules db1)))
             (take 5
                (order_by_date
                   (filter (fun p => date_lt p.1 utc_today = false)
                           (map_to_list (overrides db1)))))
             is_available message (get_next_available_time db1 now2),
           db1) in
        if bool_decide (how = POST) && bulk_action then
          if BulkScheduleForm preset days then
            match apply_preset preset days db1 with
            | inl e => (ServerFault e, db1)
            | inr (_, db2) => (RedirectTo "manage_schedule", db2)
            end
          else page
        else page
    end.

(** ** One day of the schedule (accounts/forms.py, accounts/views.py) *)

(** The values of the fields of [HelpdeskScheduleForm] once parsed; a
    [day_of_week] that is missing or not an integer is [None]. *)
Record DayData := mk_day_data {
  dd_day_of_week : option Z;
  dd_is_active : bool;
  dd_start_time : option time;
  dd_end_time : option time
}.

(** [HelpdeskScheduleForm.clean]. *)
Definition HelpdeskScheduleForm_clean (data : DayData) : Validation :=
  if dd_is_active data then
    match dd_start_time data with
    | None => ValidationError "Start time is required when day is active."
    | Some st =>
        match dd_end_time data with
        | None => ValidationError "End time is required when day is active."
        | Some en =>
            if time_ge st en then ValidationError "End time must be after start time."
            else Valid
        end
    end
  else Valid.

(** [HelpdeskScheduleForm.is_valid()] for the instance of [url_day], and
    the day and the columns that the instance gets: [day_of_week] is a
    field of the form, it must be one of the choices, and no other row
    may have it; then the form's [clean] and the model's [clean]. *)
Definition HelpdeskScheduleForm (url_day : Z) (data : DayData) (db : ScheduleDB)
  : option (Z * HelpdeskSchedule) :=
  match dd_day_of_week data with
  | Some posted_day =>
      let instance :=
        mk_schedule (dd_is_active data) (dd_start_time data) (dd_end_time data) in
      if bool_decide (is_Some (day_name_lookup posted_day))
         && is_valid (HelpdeskScheduleForm_clean data)
         && is_valid (HelpdeskSchedule_clean instance)
         && (bool_decide (posted_day = url_day)
             || negb (bool_decide (is_Some (schedules db !! posted_day))))
      then Some (posted_day, instance) else None
  | None => None
  end.

(** What [update_day_schedule] answers. *)
Inductive DayResponse :=
  | DayToLogin
  | DayPostRequired
  | DayServerFault (e : Raised)
  | DayUpdated (day_name : string) (row : HelpdeskSchedule)
  | DayRejected.

(** [update_day_schedule], behind [login_required] and
    [user_passes_test(is_system_manager)]. The instance is the row of
    [url_day], or a new one; [schedule.save()] writes it under the day
    that the form has given it. *)
Definition update_day_schedule (who : option Account) (how : Method) (url_day : Z)
    (data : DayData) (db : ScheduleDB) : DayResponse * ScheduleDB :=
  if negb (is_system_manager who) then (DayToLogin, db)
  else
    match how with
    | GET => (DayPostRequired, db)
    | POST =>
        match HelpdeskScheduleForm url_day data db with
        | Some (day, row) =>
            match HelpdeskSchedule_save day row
                    (mk_schedule_db (delete url_day (schedules db)) (overrides db)) with
            | inl e => (DayServerFault e, db)
            | inr db' => (DayUpdated (get_day_of_week_display day) row, db')
            end
        | None => (DayRejected, db)
        end
    end.

(** ** Permissions and icons (chat/utils.py) *)

(** [ChatPermissions.can_close_chat]. *)
Definition can_close_chat (db : DB) (chat_id : string) (u : option User) : bool :=
  match u with
  | Some who => is_technician db chat_id who
  | None => false
  end.

(** [chat.status == chat.ChatStatus.ACTIVE] on a session instance: the
    attribute [ChatStatus] is looked up on the class [ChatSession]. *)
Definition status_is_active_attribute (chat : ChatSession) : Exn + bool :=
  match getattr ChatSession_class "ChatStatus" with
  | Some cls =>
      match getattr cls "ACTIVE" with
      | Some (PyStatus st) => inr (bool_decide (status chat = st))
      | _ => inl AttributeError
      end
  | None => inl AttributeError
  end.

(** [ChatPermissions.can_send_message]. *)
Definition can_send_message (db : DB) (chat_id : string) (chat : ChatSession)
    (u : option User) (is_student : bool) : Exn + bool :=
  if is_student then status_is_active_attribute chat
  else
    match u with
    | Some who =>
        if is_technician db chat_id who then status_is_active_attribute chat
        else inr false
    | None => inr false
    end.

(** [s.rstrip('/')]. *)
Fixpoint rstrip_slash (s : string) : string :=
  match s with
  | String c s' =>
      match rstrip_slash s' with
      | EmptyString =>
          if Ascii.eqb c (Ascii.ascii_of_nat 47) then EmptyString else String c EmptyString
      | r => String c r
      end
  | EmptyString => EmptyString
  end.

(** The dictionary [icon_map] of [get_file_icon], in insertion order. *)
Definition icon_map : list (string * string) :=
  [("image/", "bi-image");
   ("video/", "bi-camera-video");
   ("audio/", "bi-music-note");
   ("application/pdf", "bi-file-earmark-pdf");
   ("application/msword", "bi-file-earmark-word");
   ("application/vnd.openxmlformats-officedocument.wordprocessingml.document",
    "bi-file-earmark-word");
   ("application/vnd.ms-excel", "bi-file-earmark-excel");
   ("application/vnd.openxmlformats-officedocument.spreadsheetml.sheet",
    "bi-file-earmark-excel");
   ("application/zip", "bi-file-earmark-zip");
   ("text/", "bi-file-earmark-text")].

(** The loop of [get_file_icon] over the entries of the dictionary. *)
Fixpoint icon_for (entries : list (string * string)) (mime : string) : string :=
  match entries with
  | [] => "bi-file-earmark"
  | (mime_prefix, icon) :: rest =>
      if String.prefix mime_prefix mime || bool_decide (mime = rstrip_slash mime_prefix)
      then icon else icon_for rest mime
  end.

(** [get_file_icon]; the MIME table is the one of the environment. *)
Definition get_file_icon (env : Env) (filename : string) : string :=
  match guess_type env filename with
  | None => "bi-file-earmark"
  | Some mime =>
      if bool_decide (mime = EmptyString) then "bi-file-earmark"
      else icon_for icon_map mime
  end.

(** ** Batch cleanup (chat/signals.py) *)

(** The loop of [cleanup_old_chat_files]: for each chat the files on
    disk are counted and the chat is deleted. [isfile] tells which
    attachments have their file on disk. *)
Fixpoint cleanup_chats (isfile : ChatAttachment → bool) (ids : list string)
    (total_cleaned : Z) (db : DB) : Z * DB :=
  match ids with
  | [] => (total_cleaned, db)
  | chat_id :: rest =>
      let cleaned_count :=
        Z.of_nat (length (List.filter isfile (chat_attachments db chat_id))) in
      cleanup_chats isfile rest (total_cleaned + cleaned_count)
        (ChatSession_delete chat_id (cleanup_files chat_id db))
  end.

(** [cleanup_old_chat_files]: every exception of the body is caught and
    answered by 0. *)
Definition cleanup_old_chat_files (env : Env) (isfile : ChatAttachment → bool)
    (days_old : Z) (db : DB) : Z * DB :=
  match minus_days (timezone_now env 0) days_old with
  | None => (0, db)
  | Some cutoff_date =>
      match getattr ChatSession_class "ChatStatus" with
      | Some cls =>
          match getattr cls "CLOSED" with
          | Some (PyStatus closed) =>
              cleanup_chats isfile (map fst (old_chats_query closed cutoff_date db)) 0 db
          | _ => (0, db)
          end
      | None => (0, db)
      end
  end.

(** ** The dashboard (chat/views.py) *)

(** Insertion of a session among sessions sorted by [created_at],
    latest first. *)
Fixpoint insert_by_created (x : string * ChatSession) (sorted : list (string * ChatSession))
  : list (string * ChatSession) :=
  match sorted with
  | [] => [x]
  | y :: rest =>
      if datetime_le (created_at x.2) (created_at y.2) then y :: insert_by_created x rest
      else x :: sorted
  end.

(** [queryset.order_by('-created_at')]. *)
Definition order_by_created_desc (rows : list (string * ChatSession))
  : list (string * ChatSession) :=
  fold_left (fun acc x => insert_by_created x acc) rows [].

Record Dashboard := mk_dashboard {
  waiting_chats : list (string * ChatSession);
  active_chats : list (string * ChatSession);
  total_waiting : nat;
  total_active : nat;
  user_active : nat;
  dash_is_available : bool;
  dash_message : string;
  dash_next_available : string
}.

(** [technician_dashboard], behind [login_required]; [None] is the
    redirection to the login page. *)
Definition technician_dashboard (env : Env) (request : Request) (db : DB) : option Dashboard :=
  match user request with
  | None => None
  | Some who =>
      let waiting :=
        order_by_created_desc
          (filter (fun p => status p.2 = WAITING) (map_to_list (sessions db))) in
      let active :=
        order_by_created_desc
          (filter (fun p => status p.2 = ACTIVE ∧ is_technician db p.1 who = true)
                  (map_to_list (sessions db))) in
      let '(is_available, availability_message) :=
        is_currently_available (sched db) (localtime env (timezone_now env 0)) in
      Some (mk_dashboard waiting active (length waiting)
              (length (filter (fun p => status p.2 = ACTIVE) (map_to_list (sessions db))))
              (length active) is_available availability_message
              (get_next_available_time (sched db) (localtime env (timezone_now env 1))))
  end.

(** ** Notions used by the further statements *)

(** Every row of the weekly table passes [HelpdeskSchedule.clean], as
    every row written by [save()] does. *)
Definition valid_table (db : ScheduleDB) : Prop :=
  ∀ d row, schedules db !! d = Some row → HelpdeskSchedule_clean row = Valid.

(** The time of day lies in the window, bounds included. *)
Definition in_window (st en t : time) : bool := time_le st t && time_le t en.

(** The row, if any, that the table of defaults gives to a day. *)
Definition default_row (d : Z) : option HelpdeskSchedule :=
  (list_to_map default_schedules : gmap Z HelpdeskSchedule) !! d.

(** The writes that the views make on behalf of one chat, and their
    sequences. None of them removes a row. *)
Inductive Grow (chat_id : string) : DB → DB → Prop :=
  | grow_nothing db : Grow chat_id db db
  | grow_new_session db c :
      sessions db !! chat_id = None → status c = WAITING →
      Grow chat_id db (save_session chat_id c db)
  | grow_bind_key db c k :
      sessions db !! chat_id = Some c → student_session_key c = EmptyString →
      Grow chat_id db (save_session chat_id (set_student_session_key k c) db)
  | grow_status db c st :
      sessions db !! chat_id = Some c →
      (status c = WAITING ∧ st = ACTIVE) ∨ st = STUDENT_LEFT →
      Grow chat_id db (save_session chat_id (set_status st c) db)
  | grow_message db sender sender_u body from_student kind now :
      is_Some (sessions db !! chat_id) →
      Grow chat_id db
        (create_message chat_id sender sender_u body from_student kind now db).1
  | grow_attachment db m name uploaded by_student size mime :
      m ∈ messages db → msg_chat m = chat_id →
      Grow chat_id db
        (set_attachments
           (fun l => (l ++ [mk_attachment chat_id (msg_id m) name uploaded by_student
                              size mime])%list) db)
  | grow_technician db k :
      is_Some (sessions db !! chat_id) →
      Grow chat_id db (set_session_technicians (union {[ (chat_id, k) ]}) db)
  | grow_then db1 db2 db3 :
      Grow chat_id db1 db2 → Grow chat_id db2 db3 → Grow chat_id db1 db3.

(** What one operation does to the database: writes for one chat, or
    the closing of one chat. *)
Definition Effect (chat_id : string) (db db' : DB) : Prop :=
  Grow chat_id db db'
  ∨ ∃ chat, sessions db !! chat_id = Some chat ∧ db' = close_chat chat_id chat db.

(** The steps of the status of a session that stays in the table. *)
Definition status_step (old new : ChatStatus) : Prop :=
  new = old ∨ (old = WAITING ∧ new = ACTIVE) ∨ new = STUDENT_LEFT.

(** The rows of the chat tables point to each other as the foreign keys
    and the views have it: each message, attachment and technician link
    belongs to a session of the table, message ids are distinct and below
    the next id, and each attachment hangs on a message of its own
    chat. *)
Definition consistent (db : DB) : Prop :=
  (∀ m, m ∈ messages db →
        is_Some (sessions db !! msg_chat m) ∧ msg_id m < next_message_id db)
  ∧ NoDup (msg_id <$> messages db)
  ∧ (∀ a, a ∈ attachments db →
          ∃ m, m ∈ messages db ∧ msg_id m = att_message a ∧ msg_chat m = att_chat a)
  ∧ (∀ chat_id k, (chat_id, k) ∈ session_technicians db →
                  is_Some (sessions db !! chat_id)).

(** The chat that the URL of an operation names. *)
Definition targets (op : Operation) (chat_id : string) : Prop :=
  match op with
  | OpStudentChat _ c | OpJoinChat _ c | OpTechnicianChat _ c | OpChatMessagesApi _ c =>
      c = chat_id
  | OpChatLanding _ | OpCleanupOldChats _ _ => False
  end.

(** Descending order of creation time between consecutive sessions. *)
Definition latest_first (a b : string * ChatSession) : Prop :=
  datetime_le (created_at b.2) (created_at a.2) = true.

(** A request whose texts and file names are ASCII text. *)
Definition ascii_request (request : Request) : bool :=
  ascii_text (post_student_name request) && ascii_text (post_initial_message request)
  && ascii_text (post_content request)
  && forallb (fun f => ascii_text (file_name f)) (FILES request).

(** An operation whose request, if it has one, is such. *)
Definition ascii_operation (op : Operation) : bool :=
  match op with
  | OpChatLanding request | OpStudentChat request _ | OpJoinChat request _
  | OpTechnicianChat request _ | OpChatMessagesApi request _ => ascii_request request
  | OpCleanupOldChats _ _ => true
  end.

(** More sample data. *)
Module Fixture.

Definition manager : option Account := Some (mk_account (mk_user (Some 1) "Morgan Lee") "MGR").

Definition wednesday : date := mk_date 2025 12 24.

Definition at_ (d : date) (h m : Z) : datetime := mk_datetime d (mk_time h m 0 0).

Definition closed_christmas : OverrideData :=
  mk_override_data (Some Sample.christmas) false None None " Winter break ".

End Fixture.

(** ** Proof steps *)

(** Two strings differ at one of their first three characters. *)
Ltac strings_differ Heq :=
  first [ apply (f_equal (String.get 0)) in Heq; by cbv in Heq
        | apply (f_equal (String.get 1)) in Heq; by cbv in Heq
        | apply (f_equal (String.get 2)) in Heq; by cbv in Heq ].

(** The cases of a membership in a list written out. *)
Ltac day_name_cases Hname :=
  repeat (apply elem_of_cons in Hname as [->|Hname]); [..|by apply elem_of_nil in Hname].

(** A branch that leaves the database as it is. *)
Ltac unchanged := let H := fresh in intros H; by destruct H.

(** * Properties *)

(** ** Comparisons of times *)

Section TimeOrder.

Lemma cmp_then_refl c d : c = Eq → d = Eq → cmp_then c d = Eq.
Proof. by intros -> ->. Qed.

Lemma time_cmp_refl t : time_cmp t t = Eq.
Proof. unfold time_cmp. by rewrite !Z.compare_refl. Qed.

Lemma cmp_then_opp c d : CompOpp (cmp_then c d) = cmp_then (CompOpp c) (CompOpp d).
Proof. by destruct c. Qed.

Lemma time_cmp_antisym a b : time_cmp b a = CompOpp (time_cmp a b).
Proof.
  unfold time_cmp. rewrite !cmp_then_opp.
  by rewrite <- !Z.compare_antisym.
Qed.

Lemma time_le_refl t : time_le t t = true.
Proof. unfold time_le. by rewrite time_cmp_refl. Qed.

Lemma time_lt_le a b : time_lt a b = true → time_le a b = true.
Proof. unfold time_lt, time_le. by destruct (time_cmp a b). Qed.

Lemma time_lt_not_le a b : time_lt a b = true → time_le b a = false.
Proof.
  unfold time_lt, time_le. rewrite (time_cmp_antisym a b).
  by destruct (time_cmp a b).
Qed.

Lemma time_ge_false_lt a b : time_ge a b = false → time_lt a b = true.
Proof. unfold time_ge, time_lt. by destruct (time_cmp a b). Qed.

End TimeOrder.

(** A row that [save()] accepts and that is active has both times, the
    start strictly before the end. *)
Lemma HelpdeskSchedule_clean_active s :
  HelpdeskSchedule_clean s = Valid → is_active s = true →
  ∃ st en, start_time s = Some st ∧ end_time s = Some en ∧ time_lt st en = true.
Proof.
  unfold HelpdeskSchedule_clean. intros Hc Ha. rewrite Ha in Hc.
  destruct (start_time s) as [st|], (end_time s) as [en|]; try discriminate.
  destruct (time_ge st en) eqn:Hge; [discriminate|].
  exists st, en. eauto using time_ge_false_lt.
Qed.

(** ** The weekly window *)

(** With an active entry that has both times, the answer is open exactly
    inside the window. *)
Lemma is_currently_available_window db now s st en :
  schedules db !! weekday (dt_date now) = Some s →
  is_active s = true → start_time s = Some st → end_time s = Some en →
  (is_currently_available db now).1
  = time_le st (dt_time now) && time_le (dt_time now) en.
Proof.
  intros Hs Ha Hst Hen. unfold is_currently_available.
  rewrite Hs, Ha, Hst, Hen. simpl.
  by destruct (time_le st (dt_time now) && time_le (dt_time now) en).
Qed.

(** C7. For an active weekly entry with both times set, whose start does
    not come after its end (every saved row passes [clean], which asks for
    more), [is_currently_available] answers open at a time of day equal to
    the end time, open at a time of day equal to the start time, and closed
    at every time of day strictly after the end time. *)
Theorem C7_window_inclusive db now s st en :
  schedules db !! weekday (dt_date now) = Some s →
  is_active s = true → start_time s = Some st → end_time s = Some en →
  time_le st en = true →
  (dt_time now = en → (is_currently_available db now).1 = true)
  ∧ (dt_time now = st → (is_currently_available db now).1 = true)
  ∧ (time_lt en (dt_time now) = true → (is_currently_available db now).1 = false).
Proof.
  intros Hs Ha Hst Hen Hle.
  rewrite (is_currently_available_window db now s st en) by done.
  repeat split.
  - intros ->. by rewrite Hle, time_le_refl.
  - intros ->. by rewrite Hle, time_le_refl.
  - intros Hlt. rewrite (time_lt_not_le _ _ Hlt). apply andb_false_r.
Qed.

Lemma C7_window_inclusive_witness :
  (is_currently_available Sample.holiday_db (Sample.monday_at Sample.t1700)).1 = true.
Proof.
  refine (proj1 (C7_window_inclusive Sample.holiday_db (Sample.monday_at Sample.t1700)
                   Sample.open_9_to_5 Sample.t0900 Sample.t1700 _ _ _ _ _) _);
    by vm_compute.
Defined.

(** ** Date overrides *)

(** [is_currently_available] reads the weekly table only. *)
Lemma is_currently_available_ignores_overrides weekly ov1 ov2 now :
  is_currently_available (mk_schedule_db weekly ov1) now
  = is_currently_available (mk_schedule_db weekly ov2) now.
Proof. reflexivity. Qed.

(** The sibling path: in [schedule_status_api] an override for the date
    read from the clock decides the answer. A closed override answers
    closed and carries its reason; an open one with both times answers
    open exactly inside its window. *)
Lemma schedule_status_api_override_wins db utc_now local1 local2 local3 ov :
  overrides db !! dt_date utc_now = Some ov →
  let r := schedule_status_api db utc_now local1 local2 local3 in
  (ov_is_active ov = false →
     st_is_available r = false
     ∧ st_message r = "Special schedule today: " +:+ ov_reason ov
     ∧ st_override_reason r = Some (ov_reason ov))
  ∧ (∀ st en, ov_is_active ov = true → ov_start_time ov = Some st →
       ov_end_time ov = Some en →
       st_is_available r = time_le st (dt_time local1) && time_le (dt_time local1) en).
Proof.
  intros Hov. unfold schedule_status_api, get_override_for_date. rewrite Hov.
  split.
  - intros Hc. rewrite Hc. by simpl.
  - intros st en Ha Hst Hen. rewrite Ha, Hst, Hen. by simpl.
Qed.

(** The override is looked up at the date of the UTC reading, the window
    is compared with the local time of day. *)
Lemma schedule_status_api_reads_utc_date db utc_now utc_now' local1 local2 local3 :
  dt_date utc_now = dt_date utc_now' →
  schedule_status_api db utc_now local1 local2 local3
  = schedule_status_api db utc_now' local1 local2 local3.
Proof. unfold schedule_status_api. by intros ->. Qed.

(** C1. On Monday 22 December 2025 at 10:00, with the weekly entry for
    Monday open from 09:00 to 17:00 and an override for that date closed
    for the reason Holiday, [is_currently_available] answers open from the
    weekly entry, while [schedule_status_api] on the same tables answers
    closed with the reason of the override. *)
Theorem C1_is_currently_available_misses_override :
  let now := Sample.monday_at Sample.t1000 in
  is_currently_available Sample.holiday_db now = (true, "Support is currently available")
  ∧ st_is_available (schedule_status_api Sample.holiday_db now now now now) = false
  ∧ st_message (schedule_status_api Sample.holiday_db now now now now)
    = "Special schedule today: Holiday".
Proof. by vm_compute. Qed.

(** ** The next opening *)

Lemma next_available_at_inactive db d i :
  get_active_schedule db ((d + i) mod 7) = None → next_available_at db d i = None.
Proof. unfold next_available_at. by intros ->. Qed.



Lemma next_available_scan_none db d offsets :
  (∀ j, j ∈ offsets → next_available_at db d j = None) →
  next_available_scan db d offsets = None.
Proof.
  induction offsets as [|j offsets IH]; intros Hb; [done|].
  simpl. rewrite (Hb j) by left. apply IH. intros k Hk. apply Hb. by right.
Qed.


(** The model's lookup of an active row, through the rows. *)
Lemma get_active_schedule_Some db d s :
  get_active_schedule db d = Some s ↔ schedules db !! d = Some s ∧ is_active s = true.
Proof.
  unfold get_active_schedule. destruct (schedules db !! d) as [row|]; [|by split; [|intros []]].
  destruct (is_active row) eqn:Ha.
  - split; [by intros [= <-]|by intros [[= <-] _]].
  - split; [done|]. intros [[= <-] ?]. congruence.
Qed.





(** An active entry without a start time is passed over by the scan. *)
Lemma next_available_at_without_start db d i s :
  get_active_schedule db ((d + i) mod 7) = Some s → start_time s = None →
  next_available_at db d i = None.
Proof. unfold next_available_at. by intros -> ->. Qed.

(** The day looked up by the scan always has a name. *)
Lemma day_name_lookup_mod d : is_Some (day_name_lookup (d mod 7)).
Proof.
  assert (0 ≤ d mod 7 < 7) as Hr by (apply Z.mod_pos_bound; lia).
  assert (d mod 7 = 0 ∨ d mod 7 = 1 ∨ d mod 7 = 2 ∨ d mod 7 = 3 ∨ d mod 7 = 4
          ∨ d mod 7 = 5 ∨ d mod 7 = 6) as Hcases by lia.
  destruct Hcases as [->|[->|[->|[->|[->|[->| ->]]]]]]; by eexists.
Qed.

(** ** Joining a chat *)

(** The technicians of a chat after a row is added to the join table. *)
Lemma technicians_add db chat_id k :
  technicians (set_session_technicians (union {[ (chat_id, k) ]}) db) chat_id
  = {[ k ]} ∪ technicians db chat_id.
Proof.
  unfold technicians. simpl. apply set_eq. intros x.
  rewrite elem_of_union, !elem_of_map, elem_of_singleton. split.
  - intros [[c y] [-> [Hc Hin]%elem_of_filter]]. simpl in *. subst c.
    apply elem_of_union in Hin as [Hin%elem_of_singleton|Hin].
    + left. by inversion Hin.
    + right. exists (chat_id, y). split; [done|]. by apply elem_of_filter.
  - intros [->|[[c y] [-> [Hc Hin]%elem_of_filter]]].
    + exists (chat_id, k). split; [done|]. apply elem_of_filter. set_solver.
    + exists (c, y). split; [done|]. apply elem_of_filter. set_solver.
Qed.

(** A value occurs once in the elements of a set that holds it. *)
Lemma occurs_once_in_elements (s : gset Z) k :
  k ∈ s → length (filter (fun x => x = k) (elements s)) = 1%nat.
Proof.
  intros Hin. apply elem_of_elements in Hin.
  pose proof (NoDup_elements s) as Hnd.
  induction Hnd as [|x l Hx Hnd IH]; [by apply elem_of_nil in Hin|].
  rewrite filter_cons. apply elem_of_cons in Hin as [->|Hin].
  - rewrite decide_True by done. simpl. f_equal.
    clear IH. induction l as [|y l IHl]; [done|].
    rewrite filter_cons. apply not_elem_of_cons in Hx as [Hne Hx].
    rewrite decide_False by done. inversion Hnd; subst. by apply IHl.
  - rewrite decide_False by (intros ->; done). by apply IH.
Qed.

(** One call of [add_technician] for a saved user. *)
Lemma add_technician_once db chat_id self u k :
  persisted db u k →
  ∃ db1,
    add_technician db chat_id self u
    = inr (db1, if bool_decide (status self = WAITING) then set_status ACTIVE self else self)
    ∧ session_technicians db1 = {[ (chat_id, k) ]} ∪ session_technicians db
    ∧ auth_users db1 = auth_users db
    ∧ sessions db1
      = if bool_decide (status self = WAITING)
        then <[chat_id := set_status ACTIVE self]> (sessions db) else sessions db.
Proof.
  intros (Hpk & Hin & Hne). unfold add_technician. rewrite Hpk.
  rewrite bool_decide_eq_true_2 by done.
  destruct (Z.eqb_spec k 0) as [|_]; [done|].
  destruct (bool_decide (status self = WAITING)); eexists; by repeat split.
Qed.

(** C3. For a session instance loaded from its row and a saved user,
    [add_technician] succeeds twice in a row; the second call changes
    neither the database nor the instance; afterwards the user is among
    the technicians of the chat, exactly once, and the technicians are
    the former ones and this user; the status, in the instance and in the
    row, is [ACTIVE] if it was [WAITING] and is the former status
    otherwise. *)
Theorem C3_add_technician_idempotent db chat_id self u k :
  persisted db u k →
  sessions db !! chat_id = Some self →
  ∃ db1 self1,
    add_technician db chat_id self u = inr (db1, self1)
    ∧ add_technician db1 chat_id self1 u = inr (db1, self1)
    ∧ technicians db1 chat_id = {[ k ]} ∪ technicians db chat_id
    ∧ length (filter (fun x => x = k) (elements (technicians db1 chat_id))) = 1%nat
    ∧ (technicians db chat_id = ∅ → size (technicians db1 chat_id) = 1%nat)
    ∧ status self1 = (if bool_decide (status self = WAITING) then ACTIVE else status self)
    ∧ sessions db1 !! chat_id = Some self1.
Proof.
  intros Hu Hrow.
  destruct (add_technician_once db chat_id self u k Hu) as (db1 & Hadd & Htech & Husers & Hsess).
  set (self1 := if bool_decide (status self = WAITING) then set_status ACTIVE self else self) in *.
  assert (status self1 ≠ WAITING) as Hnw.
  { unfold self1. case_bool_decide; [done|]. done. }
  assert (technicians db1 chat_id = {[ k ]} ∪ technicians db chat_id) as Ht.
  { rewrite <- technicians_add. unfold technicians. simpl. by rewrite Htech. }
  exists db1, self1. split; [done|]. split; [|split; [done|split; [|split; [|split]]]].
  - destruct Hu as (Hpk & Hin & Hne). unfold add_technician.
    rewrite Hpk, bool_decide_eq_true_2 by (by rewrite Husers).
    destruct (Z.eqb_spec k 0) as [|_]; [done|].
    rewrite bool_decide_eq_false_2 by done.
    do 2 f_equal. destruct db1; unfold set_session_technicians; simpl in *. f_equal.
    rewrite Htech. apply set_eq. intros x. rewrite !elem_of_union. tauto.
  - apply occurs_once_in_elements. rewrite Ht. apply elem_of_union_l. by apply elem_of_singleton.
  - intros Hempty. rewrite Ht, Hempty, union_empty_r_L. apply size_singleton.
  - unfold self1. by case_bool_decide.
  - rewrite Hsess. unfold self1. case_bool_decide.
    + apply lookup_insert_eq.
    + done.
Qed.

Lemma C3_add_technician_idempotent_witness :
  ∃ db1 self1,
    add_technician Sample.one_chat_db "CHAT-20251201090000-AB12" Sample.waiting_chat Sample.alice
    = inr (db1, self1)
    ∧ add_technician db1 "CHAT-20251201090000-AB12" self1 Sample.alice = inr (db1, self1)
    ∧ size (technicians db1 "CHAT-20251201090000-AB12") = 1%nat
    ∧ status self1 = ACTIVE.
Proof.
  destruct (C3_add_technician_idempotent Sample.one_chat_db "CHAT-20251201090000-AB12"
              Sample.waiting_chat Sample.alice 7)
    as (db1 & self1 & H1 & H2 & _ & _ & H5 & H6 & _).
  - split; [reflexivity | split; [by vm_compute | lia]].
  - by vm_compute.
  - exists db1, self1. repeat split; [done | done | | done].
    apply H5. by vm_compute.
Defined.

(** Joining twice through [join_chat]: once the first join of a waiting
    chat has succeeded, a second join by the same user changes nothing. *)
Lemma join_chat_again env env' request chat_id db chat u k :
  user request = Some u → persisted db u k →
  sessions db !! chat_id = Some chat → status chat = WAITING →
  let db1 := (join_chat env request chat_id db).2 in
  (status <$> sessions db1 !! chat_id) = Some ACTIVE
  ∧ is_technician db1 chat_id u = true
  ∧ join_chat env' request chat_id db1 = (RedirectChat "chat:technician_chat" chat_id, db1).
Proof.
  intros Hu Hp Hrow Hstatus db1.
  destruct (add_technician_once db chat_id chat u k Hp) as (dba & Hadd & Htech & _ & Hsess).
  rewrite bool_decide_eq_true_2 in Hadd, Hsess by done.
  assert (sessions db1 !! chat_id = Some (set_status ACTIVE chat)) as Hrow1.
  { unfold db1, join_chat. rewrite Hu, Hrow, Hstatus, Hadd. simpl.
    rewrite Hsess. apply lookup_insert_eq. }
  assert (is_technician db1 chat_id u = true) as Htech1.
  { unfold db1, join_chat. rewrite Hu, Hrow, Hstatus, Hadd. unfold is_technician. simpl.
    destruct Hp as (-> & _). apply bool_decide_eq_true_2. rewrite Htech.
    apply elem_of_union_l. by apply elem_of_singleton. }
  split; [by rewrite Hrow1|]. split; [done|].
  unfold join_chat at 1. rewrite Hu, Hrow1. simpl. by rewrite Htech1.
Qed.

(** ** Closing a chat *)

(** No row kept by a filter on the opposite condition passes the
    condition. *)
Lemma filter_opposite_nil {A} (P : A → Prop) `{∀ x, Decision (P x)} (l : list A) :
  filter P (filter (fun x => ¬ P x) l) = [].
Proof.
  induction l as [|x l IH]; [done|].
  rewrite (filter_cons (fun x => ¬ P x)). destruct (decide (¬ P x)) as [Hn|Hp]; [|done].
  rewrite filter_cons. by rewrite decide_False.
Qed.

(** Filtering keeps the absence of rows that pass a condition. *)
Lemma filter_nil_filter {A} (P Q : A → Prop) `{∀ x, Decision (P x)} `{∀ x, Decision (Q x)}
    (l : list A) :
  filter P l = [] → filter P (filter Q l) = [].
Proof.
  induction l as [|x l IH]; [done|].
  rewrite filter_cons. destruct (decide (P x)) as [Hp|Hn]; [done|]. intros Hl.
  rewrite (filter_cons Q). destruct (decide (Q x)); [|by apply IH].
  rewrite filter_cons, decide_False by done. by apply IH.
Qed.

Lemma chat_attachments_deleted chat_id db :
  chat_attachments (delete_chat_attachments chat_id db) chat_id = [].
Proof. unfold chat_attachments. simpl. apply filter_opposite_nil. Qed.

Lemma chat_rows_deleted chat_id db :
  filter (fun m => msg_chat m = chat_id) (messages (delete_chat_messages chat_id db)) = [].
Proof. simpl. apply filter_opposite_nil. Qed.

(** The database after [ChatSession.delete]: nothing of the chat is left. *)
Lemma ChatSession_delete_purges chat_id db :
  let db' := ChatSession_delete chat_id db in
  sessions db' !! chat_id = None
  ∧ filter (fun m => msg_chat m = chat_id) (messages db') = []
  ∧ chat_attachments db' chat_id = []
  ∧ technicians db' chat_id = ∅.
Proof.
  simpl. split; [|split; [|split]].
  - simpl. apply lookup_delete_eq.
  - simpl. apply filter_opposite_nil.
  - unfold chat_attachments. simpl. apply filter_opposite_nil.
  - unfold technicians. simpl. apply set_eq. intros x.
    rewrite elem_of_map. split; [|by intros ?%not_elem_of_empty].
    intros [[c y] [-> [Hc [Hne _]%elem_of_filter]%elem_of_filter]]. done.
Qed.

(** A chat id without a session row: every view that looks the chat up
    answers not found and leaves the database as it is. *)
Lemma views_not_found chat_id db :
  sessions db !! chat_id = None →
  (∀ env request, student_chat env request chat_id db = (Http404, db))
  ∧ (∀ request, method request = GET →
       chat_messages_api request chat_id db = (Http404, db))
  ∧ (∀ env request, is_Some (user request) →
       join_chat env request chat_id db = (Http404, db)
       ∧ technician_chat env request chat_id db = (Http404, db)).
Proof.
  intros Hnone. split; [|split].
  - intros env request. unfold student_chat. by rewrite Hnone.
  - intros request Hget. unfold chat_messages_api. by rewrite Hget, Hnone.
  - intros env request [u Hu]. unfold join_chat, technician_chat. by rewrite Hu, Hnone.
Qed.

(** C4. The [close_chat] action of [technician_chat], sent by a
    technician of the chat, saves the status [CLOSED], then deletes the
    attachments of the chat, then its messages, then the session row with
    all that points to it. Afterwards the chat has no attachment, no
    message, no technician and no row, and [student_chat],
    [chat_messages_api], [join_chat] and [technician_chat] answer not
    found for its id without changing the database. *)
Theorem C4_close_chat_purges env request chat_id db chat u :
  user request = Some u →
  sessions db !! chat_id = Some chat →
  is_technician db chat_id u = true →
  method request = POST →
  post_action request = "close_chat" →
  let db1 := close_chat_mark chat_id chat db in
  let db2 := delete_chat_attachments chat_id db1 in
  let db3 := delete_chat_messages chat_id db2 in
  let db4 := ChatSession_delete chat_id db3 in
  technician_chat env request chat_id db = (Redirect "chat:technician_dashboard", db4)
  ∧ (chat_attachments db2 chat_id = []
     ∧ status <$> sessions db2 !! chat_id = Some CLOSED)
  ∧ (filter (fun m => msg_chat m = chat_id) (messages db3) = []
     ∧ chat_attachments db3 chat_id = []
     ∧ status <$> sessions db3 !! chat_id = Some CLOSED)
  ∧ (sessions db4 !! chat_id = None
     ∧ filter (fun m => msg_chat m = chat_id) (messages db4) = []
     ∧ chat_attachments db4 chat_id = []
     ∧ technicians db4 chat_id = ∅)
  ∧ (∀ env' request', student_chat env' request' chat_id db4 = (Http404, db4))
  ∧ (∀ request', method request' = GET →
       chat_messages_api request' chat_id db4 = (Http404, db4))
  ∧ (∀ env' request', is_Some (user request') →
       join_chat env' request' chat_id db4 = (Http404, db4)
       ∧ technician_chat env' request' chat_id db4 = (Http404, db4)).
Proof.
  intros Hu Hrow Htech Hpost Haction db1 db2 db3 db4.
  pose proof (ChatSession_delete_purges chat_id db3) as Hpurged.
  split; [|split; [|split; [|split; [done|]]]].
  - unfold technician_chat. rewrite Hu, Hrow, Htech, Hpost, Haction. done.
  - split; [apply chat_attachments_deleted|].
    unfold db2, db1, close_chat_mark. simpl. by rewrite lookup_insert_eq.
  - split; [apply chat_rows_deleted|]. split.
    + unfold db3, delete_chat_messages, chat_attachments. simpl.
      apply (filter_nil_filter (fun a => att_chat a = chat_id)).
      apply filter_opposite_nil.
    + unfold db3, db2, db1, close_chat_mark. simpl. by rewrite lookup_insert_eq.
  - apply views_not_found, Hpurged.
Qed.

Lemma C4_close_chat_purges_witness :
  let chat_id := "CHAT-20251201090000-AB12" in
  let joined := run Sample.env (OpJoinChat Sample.alice_joins chat_id) Sample.one_chat_db in
  let closed := (technician_chat Sample.env Sample.alice_closes chat_id joined).2 in
  sessions closed !! chat_id = None
  ∧ chat_messages_api Sample.anonymous_get chat_id closed = (Http404, closed).
Proof.
  intros chat_id joined closed.
  assert (user Sample.alice_closes = Some Sample.alice) as H1 by reflexivity.
  assert (sessions joined !! chat_id = Some (set_status ACTIVE Sample.waiting_chat)) as H2
    by (vm_compute; reflexivity).
  assert (is_technician joined chat_id Sample.alice = true) as H3 by (vm_compute; reflexivity).
  assert (method Sample.alice_closes = POST) as H4 by reflexivity.
  assert (post_action Sample.alice_closes = "close_chat") as H5 by reflexivity.
  destruct (C4_close_chat_purges Sample.env Sample.alice_closes chat_id joined
              (set_status ACTIVE Sample.waiting_chat) Sample.alice H1 H2 H3 H4 H5)
    as (Hrun & _ & _ & (Hrow & _) & _ & Hapi & _).
  unfold closed. rewrite Hrun. split; [exact Hrow|]. by apply Hapi.
Defined.

(** ** Attachment limits *)

Lemma sum_file_sizes_ok files acc :
  Forall (fun f => file_size_bytes f ≤ max_file_size) files →
  sum_file_sizes files acc = CleanOk (acc + total_bytes files).
Proof.
  intros Hall. revert acc. induction Hall as [|f files Hf _ IH]; intros acc; simpl.
  - f_equal. lia.
  - destruct (Z.ltb_spec max_file_size (file_size_bytes f)); [lia|].
    rewrite IH. f_equal. lia.
Qed.

Lemma sum_file_sizes_too_large files acc :
  Exists (fun f => max_file_size < file_size_bytes f) files →
  ∃ f, f ∈ files ∧ max_file_size < file_size_bytes f
       ∧ sum_file_sizes files acc = CleanError (too_large_error f).
Proof.
  revert acc. induction files as [|g files IH]; intros acc Hex; [by inversion Hex|].
  simpl. destruct (Z.ltb_spec max_file_size (file_size_bytes g)) as [Hg|Hg].
  - exists g. split; [left|done].
  - inversion Hex as [? ? Hbad|? ? Hrest]; subst; [lia|].
    destruct (IH (acc + file_size_bytes g) Hrest) as (f & Hin & Hf & Hsum).
    exists f. split; [by right|done].
Qed.

(** What [clean_attachments] accepts: no file at all, or files each of
    at most 5 MiB, of at most 25 MiB together, and at most 10 of them. *)
Lemma clean_attachments_accepts files :
  clean_attachments files = CleanOk files
  ↔ files = []
    ∨ (Forall (fun f => file_size_bytes f ≤ max_file_size) files
       ∧ total_bytes files ≤ max_total_size
       ∧ Z.of_nat (length files) ≤ 10).
Proof.
  destruct files as [|f0 rest]; [by split; [left|]|].
  set (files := f0 :: rest). unfold clean_attachments. fold files.
  destruct (decide (Forall (fun f => file_size_bytes f ≤ max_file_size) files)) as [Hall|Hnot].
  - rewrite (sum_file_sizes_ok files 0 Hall). rewrite Z.add_0_l.
    destruct (Z.ltb_spec max_total_size (total_bytes files)).
    { split; [done|]. intros [?|(_ & ? & _)]; [done|lia]. }
    destruct (Z.ltb_spec 10 (Z.of_nat (length files))).
    { split; [done|]. intros [?|(_ & _ & ?)]; [done|lia]. }
    split; [|done]. intros _. right. repeat split; [done|lia|lia].
  - assert (Exists (fun f => max_file_size < file_size_bytes f) files) as Hex.
    { apply not_Forall_Exists in Hnot; [|apply _].
      eapply Exists_impl; [exact Hnot|]. simpl. intros; lia. }
    destruct (sum_file_sizes_too_large files 0 Hex) as (f & _ & _ & ->).
    split; [done|]. intros [?|(? & _)]; done.
Qed.

Lemma clean_attachments_ok_or_error files :
  cleaned_ok (clean_attachments files) = true → clean_attachments files = CleanOk files.
Proof.
  unfold clean_attachments. destruct files as [|f0 rest]; [done|].
  destruct (sum_file_sizes _ _); [|done].
  destruct (_ <? _); [done|]. by destruct (_ <? _).
Qed.

Lemma total_bytes_replicate_like files size :
  Forall (fun f => file_size_bytes f = size) files →
  total_bytes files = Z.of_nat (length files) * size.
Proof.
  induction 1 as [|f files Hf _ IH]; simpl; [lia|]. rewrite IH, Hf. lia.
Qed.

(** The form is rejected as soon as [clean_attachments] fails. *)
Lemma ChatMessageForm_rejects content files :
  cleaned_ok (clean_attachments files) = false → ChatMessageForm content files = None.
Proof.
  unfold ChatMessageForm. intros ->. rewrite andb_false_r.
  by destruct (match CharField_clean _ _ with CleanOk v => _ | CleanError e => _ end).
Qed.

(** On a [POST], the access check of [student_chat] writes nothing. *)
Lemma student_access_post env request chat_id chat db :
  method request = POST →
  student_access env request chat_id chat db
  = (bool_decide (student_session_key chat = ensure_session_key env request), chat, db).
Proof.
  intros Hpost. unfold student_access. rewrite Hpost.
  case_bool_decide; [done|]. by rewrite andb_false_r.
Qed.

Lemma create_attachments_rows env chat_id message by_student files first db :
  let db' := create_attachments env chat_id message by_student files first db in
  messages db' = messages db
  ∧ sessions db' = sessions db
  ∧ next_message_id db' = next_message_id db
  ∧ length (attachments db') = (length (attachments db) + length files)%nat
  ∧ Forall (fun a => a ∈ attachments db ∨ att_message a = msg_id message) (attachments db').
Proof.
  revert first db. induction files as [|f files IH]; intros first db; simpl.
  - repeat split; [lia|]. apply Forall_forall. auto.
  - match goal with
    | |- context [create_attachments _ _ _ _ _ (S first) ?d] =>
        destruct (IH (S first) d) as (Hm & Hs & Hn & Hl & Ha)
    end.
    simpl in *. repeat split; [done|done|done| |].
    + rewrite Hl, length_app. simpl. lia.
    + eapply Forall_impl; [exact Ha|]. simpl.
      intros a [[Hin|Hin%list_elem_of_singleton]%elem_of_app|Hmsg]; [by left| |by right].
      subst a. by right.
Qed.

(** C5. (1) A message form whose [clean_attachments] fails makes
    [student_chat] and [technician_chat] answer something other than
    success and write nothing, neither message nor attachment. (2) Eleven
    files fail. (3) Ten files of 2 MiB each pass [clean_attachments], and
    a valid form with ASCII text and file names sent by the student of the
    chat is answered with success, one message and one attachment per file
    being written. (4) Ten files of 3 MiB each fail on the total size,
    with the error text of the total. (5) Files among which one is larger
    than 5 MiB fail on the size of such a file, with the error text that
    names it. *)
Theorem C5_attachment_limits :
  (∀ env request chat_id db,
     method request = POST → post_action request = "send_message" →
     cleaned_ok (clean_attachments (FILES request)) = false →
     (student_chat env request chat_id db).2 = db
     ∧ (student_chat env request chat_id db).1 ≠ JsonSuccess
     ∧ (technician_chat env request chat_id db).2 = db
     ∧ (technician_chat env request chat_id db).1 ≠ JsonSuccess)
  ∧ (∀ files, length files = 11%nat → cleaned_ok (clean_attachments files) = false)
  ∧ (∀ files, length files = 10%nat →
       Forall (fun f => file_size_bytes f = 2 * 1024 * 1024) files →
       clean_attachments files = CleanOk files)
  ∧ (∀ env request chat_id db chat cleaned_content,
       ascii_request request = true →
       sessions db !! chat_id = Some chat →
       student_session_key chat = ensure_session_key env request →
       status chat ≠ STUDENT_LEFT →
       method request = POST → post_action request = "send_message" →
       ChatMessageForm (post_content request) (FILES request) = Some cleaned_content →
       let db' := (student_chat env request chat_id db).2 in
       (student_chat env request chat_id db).1 = JsonSuccess
       ∧ (∃ m notice, messages db' = messages db ++ m :: notice
            ∧ msg_chat m = chat_id ∧ content m = cleaned_content
            ∧ is_from_student m = true)
       ∧ length (attachments db') = (length (attachments db) + length (FILES request))%nat)
  ∧ (∀ files, length files = 10%nat →
       Forall (fun f => file_size_bytes f = 3 * 1024 * 1024) files →
       clean_attachments files = CleanError "🚫 Total file size exceeds 25MB limit")
  ∧ (∀ files, Exists (fun f => 5 * 1024 * 1024 < file_size_bytes f) files →
       ∃ f, f ∈ files ∧ 5 * 1024 * 1024 < file_size_bytes f
            ∧ clean_attachments files = CleanError (too_large_error f)).
Proof.
  split; [|split; [|split; [|split; [|split]]]].
  - intros env request chat_id db Hpost Haction Hbad.
    pose proof (ChatMessageForm_rejects (post_content request) _ Hbad) as Hform.
    unfold student_chat, technician_chat.
    destruct (sessions db !! chat_id) as [chat|]; [|by destruct (user request)].
    rewrite (student_access_post _ _ _ _ _ Hpost), Hpost, Haction, Hform. simpl.
    split; [|split].
    + destruct (bool_decide (student_session_key chat = _)); simpl; [|done].
      by destruct (is_currently_available _ _).
    + destruct (bool_decide (student_session_key chat = _)); simpl; [|done].
      by destruct (is_currently_available _ _).
    + destruct (user request) as [u|]; [|done].
      by destruct (is_technician db chat_id u).
  - intros files Hlen.
    destruct (clean_attachments files) as [v|] eqn:Hc; [|done].
    assert (clean_attachments files = CleanOk files) as Hok.
    { apply clean_attachments_ok_or_error. by rewrite Hc. }
    apply clean_attachments_accepts in Hok as [->|(_ & _ & ?)]; [done|lia].
  - intros files Hlen Hall. apply clean_attachments_accepts. right.
    rewrite (total_bytes_replicate_like files _ Hall), Hlen.
    repeat split; [|unfold max_total_size; lia|lia].
    eapply Forall_impl; [exact Hall|]. simpl. unfold max_file_size. lia.
  - intros env request chat_id db chat c _ Hrow Hkey Hstatus Hpost Haction Hform db'.
    unfold db', student_chat. rewrite Hrow.
    rewrite (student_access_post _ _ _ _ _ Hpost), bool_decide_eq_true_2 by done.
    simpl. destruct (is_currently_available _ _) as [available notice].
    rewrite Hpost, Haction, Hform. simpl.
    rewrite bool_decide_eq_true_2 by done. simpl.
    match goal with
    | |- context [create_attachments ?e ?c ?m ?b ?f ?k ?d] =>
        destruct (create_attachments_rows e c m b f k d) as (Hm & _ & _ & Hl & _);
        set (db2 := create_attachments e c m b f k d) in *
    end.
    simpl in Hm, Hl.
    split; [done|]. split.
    + destruct (negb available && bool_decide (status chat = WAITING)); simpl.
      * eexists _, [_]. rewrite Hm, <- app_assoc. by repeat split.
      * eexists _, []. rewrite Hm. by repeat split.
    + by destruct (negb available && bool_decide (status chat = WAITING)).
  - intros files Hlen Hall. unfold clean_attachments.
    destruct files as [|f0 rest]; [done|].
    rewrite sum_file_sizes_ok.
    + rewrite (total_bytes_replicate_like _ _ Hall), Hlen. done.
    + eapply Forall_impl; [exact Hall|]. simpl. unfold max_file_size. lia.
  - intros files Hex. unfold clean_attachments.
    destruct files as [|f0 rest]; [by inversion Hex|].
    destruct (sum_file_sizes_too_large (f0 :: rest) 0 Hex) as (f & Hin & Hf & ->).
    by exists f.
Qed.

Lemma C5_attachment_limits_witness :
  let chat_id := "CHAT-20251201090000-AB12" in
  (student_chat Sample.env (Sample.student_sends (Sample.files_of 11 "a.png" 1024))
     chat_id Sample.one_chat_db).2 = Sample.one_chat_db
  ∧ cleaned_ok (clean_attachments (Sample.files_of 11 "a.png" 1024)) = false
  ∧ clean_attachments (Sample.files_of 10 "a.png" (2 * 1024 * 1024))
    = CleanOk (Sample.files_of 10 "a.png" (2 * 1024 * 1024))
  ∧ (student_chat Sample.env
       (Sample.student_sends (Sample.files_of 10 "a.png" (2 * 1024 * 1024)))
       chat_id Sample.one_chat_db).1 = JsonSuccess
  ∧ clean_attachments (Sample.files_of 10 "a.png" (3 * 1024 * 1024))
    = CleanError "🚫 Total file size exceeds 25MB limit"
  ∧ ∃ f, clean_attachments [mk_file "a.png" 1024; mk_file "b.png" (5 * 1024 * 1024 + 1)]
         = CleanError (too_large_error f).
Proof.
  intros chat_id.
  destruct C5_attachment_limits as (Hatomic & Heleven & Htwo & Hsend & Hthree & Hlarge).
  split; [|split; [|split; [|split; [|split]]]].
  - apply Hatomic; reflexivity.
  - apply Heleven. reflexivity.
  - apply Htwo; [reflexivity|]. unfold Sample.files_of. simpl. repeat constructor.
  - eapply (Hsend Sample.env _ chat_id Sample.one_chat_db Sample.waiting_chat);
      [reflexivity | by vm_compute | reflexivity | discriminate | reflexivity | reflexivity
       | by vm_compute].
  - apply Hthree; [reflexivity|]. unfold Sample.files_of. simpl. repeat constructor.
  - destruct (Hlarge [mk_file "a.png" 1024; mk_file "b.png" (5 * 1024 * 1024 + 1)])
      as (f & _ & _ & Hf).
    + apply Exists_cons_tl, Exists_cons_hd. simpl. lia.
    + by exists f.
Defined.

(** C10. The three limits of [clean_attachments] are compared strictly,
    so the limits themselves pass: (1) a single file of exactly
    5 * 1024 * 1024 bytes; (2) files within the size limit whose sizes add
    up to exactly 25 * 1024 * 1024 bytes, when they are at most ten;
    (3) exactly ten files within the size limits; and in general (4) any
    files each of at most 5 MiB, of at most 25 MiB together and at most
    ten in number. One byte or one file more fails (5). *)
Theorem C10_limits_inclusive :
  (∀ f, file_size_bytes f = 5 * 1024 * 1024 → clean_attachments [f] = CleanOk [f])
  ∧ (∀ files, Forall (fun f => file_size_bytes f ≤ 5 * 1024 * 1024) files →
       total_bytes files = 25 * 1024 * 1024 → Z.of_nat (length files) ≤ 10 →
       clean_attachments files = CleanOk files)
  ∧ (∀ files, length files = 10%nat →
       Forall (fun f => file_size_bytes f ≤ 5 * 1024 * 1024) files →
       total_bytes files ≤ 25 * 1024 * 1024 →
       clean_attachments files = CleanOk files)
  ∧ (∀ files, Forall (fun f => file_size_bytes f ≤ 5 * 1024 * 1024) files →
       total_bytes files ≤ 25 * 1024 * 1024 → Z.of_nat (length files) ≤ 10 →
       clean_attachments files = CleanOk files)
  ∧ (∀ f, file_size_bytes f = 5 * 1024 * 1024 + 1 →
       cleaned_ok (clean_attachments [f]) = false)
    ∧ (∀ files, files ≠ [] → total_bytes files = 25 * 1024 * 1024 + 1 →
         cleaned_ok (clean_attachments files) = false)
    ∧ (∀ files, length files = 11%nat → cleaned_ok (clean_attachments files) = false).
Proof.
  assert (∀ files, Forall (fun f => file_size_bytes f ≤ 5 * 1024 * 1024) files →
       total_bytes files ≤ 25 * 1024 * 1024 → Z.of_nat (length files) ≤ 10 →
       clean_attachments files = CleanOk files) as Hgeneral.
  { intros files Hall Htotal Hlen. apply clean_attachments_accepts. right. by repeat split. }
  assert (∀ files, files ≠ [] →
            ¬ (Forall (fun f => file_size_bytes f ≤ max_file_size) files
               ∧ total_bytes files ≤ max_total_size
               ∧ Z.of_nat (length files) ≤ 10) →
            cleaned_ok (clean_attachments files) = false) as Hfails.
  { intros files Hne Hnot.
    destruct (cleaned_ok (clean_attachments files)) eqn:Hc; [|done].
    apply clean_attachments_ok_or_error, clean_attachments_accepts in Hc as [?|?]; done. }
  split; [|split; [|split; [|split; [|split; [|split]]]]].
  - intros f Hf. apply Hgeneral; simpl; [|lia|lia]. constructor; [lia|constructor].
  - intros files Hall Htotal Hlen. apply Hgeneral; [done|lia|done].
  - intros files Hlen Hall Htotal. apply Hgeneral; [done|done|lia].
  - exact Hgeneral.
  - intros f Hf. apply Hfails; [done|]. intros (Hall & _). inversion Hall; subst.
    unfold max_file_size in *. lia.
  - intros files Hne Htotal. apply Hfails; [done|]. intros (_ & Hle & _).
    unfold max_total_size in *. lia.
  - intros files Hlen. apply Hfails; [by destruct files|]. intros (_ & _ & ?). lia.
Qed.

Lemma C10_limits_inclusive_witness :
  clean_attachments [mk_file "exact.pdf" (5 * 1024 * 1024)]
  = CleanOk [mk_file "exact.pdf" (5 * 1024 * 1024)]
  ∧ length Sample.boundary_files = 10%nat
  ∧ total_bytes Sample.boundary_files = 25 * 1024 * 1024
  ∧ clean_attachments Sample.boundary_files = CleanOk Sample.boundary_files
  ∧ cleaned_ok (clean_attachments [mk_file "over.pdf" (5 * 1024 * 1024 + 1)]) = false.
Proof.
  destruct C10_limits_inclusive as (Hfile & Htotal & Hten & _ & Hover & _ & _).
  split; [by apply Hfile|]. split; [reflexivity|]. split; [reflexivity|].
  split; [|by apply Hover].
  apply Htotal; [|reflexivity|by vm_compute].
  unfold Sample.boundary_files, Sample.files_of, Sample.MiB. simpl.
  repeat constructor; simpl; lia.
Defined.

(** ** Student access *)

Lemma keeps_student_keys_same db db' :
  sessions db' = sessions db → keeps_student_keys db db'.
Proof. intros Heq chat_id c c' Hc _. rewrite Heq, Hc. by intros [= ->]. Qed.

(** Saving a row whose key is the former one when that was not empty. *)
Lemma keeps_student_keys_save db db' chat_id old new :
  sessions db !! chat_id = Some old →
  (student_session_key old ≠ EmptyString →
   student_session_key new = student_session_key old) →
  sessions db' = <[chat_id := new]> (sessions db) →
  keeps_student_keys db db'.
Proof.
  intros Hold Hkey Heq cid c c' Hc Hne. rewrite Heq.
  destruct (decide (chat_id = cid)) as [->|Hdiff].
  - rewrite lookup_insert_eq. intros [= <-]. rewrite Hold in Hc.
    injection Hc as <-. auto.
  - rewrite lookup_insert_ne, Hc by done. by intros [= ->].
Qed.

Lemma keeps_student_keys_fresh db db' chat_id new :
  sessions db !! chat_id = None →
  sessions db' = <[chat_id := new]> (sessions db) →
  keeps_student_keys db db'.
Proof.
  intros Hnone Heq cid c c' Hc Hne. rewrite Heq.
  destruct (decide (chat_id = cid)) as [->|Hdiff]; [congruence|].
  rewrite lookup_insert_ne, Hc by done. by intros [= ->].
Qed.

Lemma keeps_student_keys_delete db db' chat_id :
  sessions db' = delete chat_id (sessions db) → keeps_student_keys db db'.
Proof.
  intros Heq cid c c' Hc Hne. rewrite Heq.
  destruct (decide (chat_id = cid)) as [->|Hdiff].
  - by rewrite lookup_delete_eq.
  - rewrite lookup_delete_ne, Hc by done. by intros [= ->].
Qed.

Lemma chat_landing_keeps env request db :
  keeps_student_keys db (chat_landing env request db).2.
Proof.
  unfold chat_landing.
  destruct (is_currently_available _ _) as [available notice].
  destruct (method request); [by apply keeps_student_keys_same|].
  destruct (ChatStartForm _ _) as [[name first_message]|];
    [|by apply keeps_student_keys_same].
  destruct (sessions db !! generate_chat_id _ _) eqn:Hfree;
    [by apply keeps_student_keys_same|].
  eapply keeps_student_keys_fresh; [exact Hfree|].
  by destruct available.
Qed.

Lemma student_chat_keeps env request chat_id db :
  keeps_student_keys db (student_chat env request chat_id db).2.
Proof.
  unfold student_chat.
  destruct (sessions db !! chat_id) as [chat0|] eqn:Hrow;
    [|by apply keeps_student_keys_same].
  destruct (method request) eqn:Hmethod.
  - unfold student_access. rewrite Hmethod.
    destruct (bool_decide (student_session_key chat0 = _)); simpl.
    { destruct (is_currently_available _ _). by apply keeps_student_keys_same. }
    rewrite andb_true_r. case_bool_decide as Hempty; simpl.
    + destruct (is_currently_available _ _). simpl.
      eapply keeps_student_keys_save; [exact Hrow| |done]. by intros [].
    + by apply keeps_student_keys_same.
  - rewrite (student_access_post _ _ _ _ _ Hmethod).
    destruct (bool_decide (student_session_key chat0 = _)); simpl;
      [|by apply keeps_student_keys_same].
    destruct (is_currently_available _ _) as [available notice].
    case_bool_decide.
    + destruct (ChatMessageForm _ _) as [cleaned_content|];
        [|by apply keeps_student_keys_same].
      case_bool_decide; [|by apply keeps_student_keys_same].
      simpl. apply keeps_student_keys_same.
      match goal with
      | |- context [create_attachments ?e ?c ?m ?b ?f ?k ?d] =>
          destruct (create_attachments_rows e c m b f k d) as (_ & Hs & _)
      end.
      by destruct (negb available && _).
    + case_bool_decide; [|by apply keeps_student_keys_same].
      simpl. by eapply (keeps_student_keys_save _ _ chat_id chat0 (set_status STUDENT_LEFT chat0)).
Qed.

Lemma join_chat_keeps env request chat_id db :
  keeps_student_keys db (join_chat env request chat_id db).2.
Proof.
  unfold join_chat.
  destruct (user request) as [u|]; [|by apply keeps_student_keys_same].
  destruct (sessions db !! chat_id) as [chat|] eqn:Hrow;
    [|by apply keeps_student_keys_same].
  destruct (status chat) eqn:Hstatus; try by apply keeps_student_keys_same.
  - unfold add_technician. rewrite Hstatus.
    destruct (pk u) as [k|]; [|by apply keeps_student_keys_same].
    destruct (bool_decide (k ∈ auth_users db)); [|by apply keeps_student_keys_same].
    destruct (k =? 0); [by apply keeps_student_keys_same|].
    simpl. by eapply (keeps_student_keys_save _ _ chat_id chat (set_status ACTIVE chat)).
  - destruct (is_technician db chat_id u); [by apply keeps_student_keys_same|].
    destruct (pk u); by apply keeps_student_keys_same.
Qed.

Lemma technician_chat_keeps env request chat_id db :
  keeps_student_keys db (technician_chat env request chat_id db).2.
Proof.
  unfold technician_chat.
  destruct (user request) as [u|]; [|by apply keeps_student_keys_same].
  destruct (sessions db !! chat_id) as [chat|] eqn:Hrow;
    [|by apply keeps_student_keys_same].
  destruct (is_technician db chat_id u); [|by apply keeps_student_keys_same].
  simpl. destruct (method request); [by apply keeps_student_keys_same|].
  case_bool_decide.
  - destruct (ChatMessageForm _ _); [|by apply keeps_student_keys_same].
    case_bool_decide; [|by apply keeps_student_keys_same].
    simpl. apply keeps_student_keys_same.
    match goal with
    | |- context [create_attachments ?e ?c ?m ?b ?f ?k ?d] =>
        destruct (create_attachments_rows e c m b f k d) as (_ & Hs & _)
    end.
    done.
  - case_bool_decide; [|by apply keeps_student_keys_same].
    simpl. intros cid c c' Hc Hne. simpl.
    destruct (decide (chat_id = cid)) as [->|Hdiff].
    + by rewrite lookup_delete_eq.
    + rewrite lookup_delete_ne, lookup_insert_ne, Hc by done. by intros [= ->].
Qed.

(** The cleanup command stops at the attribute [ChatSession.ChatStatus],
    or before it at the date arithmetic, and writes nothing. *)
Lemma handle_raises env days dry_run db :
  handle env days dry_run db = (inl AttributeError, db)
  ∨ handle env days dry_run db = (inl OverflowError, db).
Proof. unfold handle. destruct (minus_days _ _); [by left|by right]. Qed.

(** No operation changes a non-empty student key. *)
Lemma run_keeps_student_keys env op db : keeps_student_keys db (run env op db).
Proof.
  destruct op as [request|request chat_id|request chat_id|request chat_id
                  |request chat_id|days dry_run]; simpl.
  - apply chat_landing_keeps.
  - apply student_chat_keeps.
  - apply join_chat_keeps.
  - apply technician_chat_keeps.
  - apply keeps_student_keys_same. unfold chat_messages_api.
    destruct (method request); [|done].
    destruct (sessions db !! chat_id); [|done]. by destruct (negb _).
  - apply keeps_student_keys_same.
    by destruct (handle_raises env days dry_run db) as [-> | ->].
Qed.

(** The read-only paths compare the keys and bind nothing: for an
    anonymous caller [validate_chat_access] holds exactly when the stored
    key is the key of the request. *)
Lemma validate_chat_access_anonymous request chat_id chat db :
  user request = None →
  (validate_chat_access request chat_id chat db = true
   ↔ session_key request = Some (student_session_key chat)).
Proof.
  intros Hanon. unfold validate_chat_access. rewrite Hanon.
  rewrite bool_decide_eq_true. split; by intros ->.
Qed.

(** The three outcomes of the access check. *)
Lemma student_access_cases env request chat_id chat db :
  let token := ensure_session_key env request in
  (student_session_key chat = token
   ∧ student_access env request chat_id chat db = (true, chat, db))
  ∨ (student_session_key chat ≠ token
     ∧ student_session_key chat = EmptyString ∧ method request = GET
     ∧ student_access env request chat_id chat db
       = (true, set_student_session_key token chat,
          save_session chat_id (set_student_session_key token chat) db))
  ∨ (student_session_key chat ≠ token
     ∧ ¬ (student_session_key chat = EmptyString ∧ method request = GET)
     ∧ student_access env request chat_id chat db = (false, chat, db)).
Proof.
  intros token. unfold student_access. fold token.
  case_bool_decide as Heq; [by left|]. right.
  case_bool_decide as Hempty; simpl.
  - case_bool_decide as Hget; [by left|]. right. split; [done|]. split; [|done].
    by intros [_ ?].
  - right. split; [done|]. split; [|done]. by intros [? _].
Qed.

(** The token of the caller is the key that the views compare. *)
Lemma caller_token_ensure env request token :
  caller_token env request token ↔ token = ensure_session_key env request.
Proof.
  unfold caller_token, ensure_session_key.
  destruct (session_key request) as [k|].
  - case_bool_decide as Hk.
    + subst k. split.
      * intros [[[= <-] ?]|[_ ->]]; done.
      * intros ->. right. auto.
    + split.
      * intros [[[= <-] _]|[[?|[= ?]] _]]; done.
      * intros ->. by left.
  - split.
    + intros [[? _]|[_ ->]]; done.
    + intros ->. right. auto.
Qed.

(** The read of the messages by a caller who is not logged in. *)
Lemma chat_messages_api_anonymous request chat_id chat db :
  sessions db !! chat_id = Some chat → method request = GET → user request = None →
  (chat_messages_api request chat_id db).2 = db
  ∧ ((chat_messages_api request chat_id db).1 ≠ JsonDenied
     ↔ session_key request = Some (student_session_key chat)).
Proof.
  intros Hrow Hget Hanon. unfold chat_messages_api. rewrite Hget, Hrow, Hanon.
  rewrite orb_false_r. case_bool_decide as Hkey; simpl.
  - split; [done|]. split; [done|]. by intros _.
  - split; [done|]. split; [done|]. intros Heq. by destruct Hkey.
Qed.

(** C6. With [token] the token of the caller, the session key of the
    request or the key made for a request that has none: (1) the access
    check of [student_chat] grants access exactly when the stored key
    equals the token, or the stored key is empty and the request is a
    [GET]; (2) when the stored key differs from the token and access is
    granted, the token is saved as the key of the session; (3) in every
    other case nothing is written; (4) a refused caller is redirected and
    the database is unchanged. (5) The checks of the read paths,
    [validate_chat_access] and [chat_messages_api], for a caller who is
    not logged in, grant access exactly when the stored key is the
    session key of the request, and write nothing. (6) No operation
    changes a non-empty stored key, and so none does along any sequence
    of operations during which the session exists. *)
Theorem C6_student_access :
  (∀ env request chat_id chat db token,
     caller_token env request token →
     let r := student_access env request chat_id chat db in
     (r.1.1 = true ↔
        student_session_key chat = token
        ∨ (student_session_key chat = EmptyString ∧ method request = GET))
     ∧ (r.1.1 = true → student_session_key r.1.2 = token)
     ∧ (r.1.1 = true → student_session_key chat ≠ token →
          r.1.2 = set_student_session_key token chat
          ∧ r.2 = save_session chat_id r.1.2 db
          ∧ sessions r.2 !! chat_id = Some r.1.2)
     ∧ (r.1.1 = false ∨ student_session_key chat = token → r.1.2 = chat ∧ r.2 = db)
     ∧ (sessions db !! chat_id = Some chat → r.1.1 = false →
          student_chat env request chat_id db = (Redirect "chat:landing", db)))
  ∧ (∀ request chat_id chat db,
       user request = None →
       (validate_chat_access request chat_id chat db = true
        ↔ session_key request = Some (student_session_key chat))
       ∧ (sessions db !! chat_id = Some chat → method request = GET →
          (chat_messages_api request chat_id db).2 = db
          ∧ ((chat_messages_api request chat_id db).1 ≠ JsonDenied
             ↔ session_key request = Some (student_session_key chat))))
  ∧ (∀ env op db, keeps_student_keys db (run env op db))
  ∧ (∀ ops db chat_id c c',
       sessions db !! chat_id = Some c → student_session_key c ≠ EmptyString →
       present_throughout chat_id ops db →
       sessions (run_all ops db) !! chat_id = Some c' →
       student_session_key c' = student_session_key c).
Proof.
  split; [|split; [|split; [apply run_keeps_student_keys|]]].
  - intros env request chat_id chat db token Htoken r.
    apply caller_token_ensure in Htoken. subst token.
    set (token := ensure_session_key env request).
    destruct (student_access_cases env request chat_id chat db)
      as [(Heq & Hr)|[(Hne & Hempty & Hget & Hr)|(Hne & Hnot & Hr)]];
      fold token in Heq || fold token in Hne; fold token in Hr.
    + unfold r. rewrite Hr. simpl.
      split; [split; [by left|done]|].
      split; [done|]. split; [done|]. split; [done|]. by intros _ [=].
    + unfold r. rewrite Hr. simpl.
      split; [split; [by right|done]|].
      split; [done|]. split.
      { intros _ _. split; [done|]. split; [done|]. by rewrite lookup_insert_eq. }
      split; [by intros [[=]|]|]. by intros _ [=].
    + unfold r. rewrite Hr. simpl.
      split; [split; [done|by intros [|]]|].
      split; [done|]. split; [done|]. split; [done|].
      intros Hrow _. unfold student_chat. by rewrite Hrow, Hr.
  - intros request chat_id chat db Hanon. split.
    + by apply validate_chat_access_anonymous.
    + intros Hrow Hget. by apply chat_messages_api_anonymous.
  - induction ops as [|[env op] ops IH]; intros db chat_id c c' Hc Hne Hpresent; simpl.
    + rewrite Hc. by intros [= ->].
    + simpl in Hpresent. destruct Hpresent as [[c1 Hc1] Hrest]. intros Hend.
      pose proof (run_keeps_student_keys env op db chat_id c c1 Hc Hne Hc1) as Hstep.
      rewrite <- Hstep. apply (IH (run env op db) chat_id c1 c'); try done.
      by rewrite Hstep.
Qed.

Lemma C6_student_access_witness :
  let chat_id := "CHAT-20251201090000-AB12" in
  let visit := mk_request GET (Some "stu0000000000000000000000000000key") None EmptyString
                 EmptyString EmptyString EmptyString [] in
  let r := student_access Sample.env visit chat_id
             Sample.unbound_chat Sample.unbound_chat_db in
  (r.1.1 = true
   ∧ student_session_key r.1.2 = "stu0000000000000000000000000000key"
   ∧ sessions r.2 !! chat_id = Some r.1.2)
  ∧ student_session_key
      <$> sessions (run_all [(Sample.env, OpJoinChat Sample.alice_joins chat_id);
                             (Sample.env, OpStudentChat (Sample.student_sends []) chat_id)]
                      Sample.one_chat_db) !! chat_id
    = Some "stu0000000000000000000000000000key".
Proof.
  intros chat_id visit r.
  destruct C6_student_access as (Haccess & _ & _ & Htrace). split.
  - destruct (Haccess Sample.env visit chat_id Sample.unbound_chat Sample.unbound_chat_db
                "stu0000000000000000000000000000key")
      as (Hgrant & Hkey & Hbind & _).
    { left. split; [reflexivity|discriminate]. }
    assert (r.1.1 = true) as Hgranted by (apply Hgrant; right; by split).
    split; [exact Hgranted|]. split; [by apply Hkey|].
    apply Hbind; [exact Hgranted|discriminate].
  - destruct (sessions _ !! chat_id) as [c'|] eqn:Hc'; [|by vm_compute in Hc'].
    simpl. f_equal.
    apply (Htrace [(Sample.env, OpJoinChat Sample.alice_joins chat_id);
                   (Sample.env, OpStudentChat (Sample.student_sends []) chat_id)]
             Sample.one_chat_db chat_id Sample.waiting_chat c');
      [by vm_compute | discriminate | | exact Hc'].
    split; [eexists; by vm_compute|]. split; [eexists; by vm_compute|]. exact I.
Defined.

(** On a chat whose student key is not set, a first [GET] with a session
    key is granted and bound by [student_chat], while
    [validate_chat_access] and [chat_messages_api] refuse the same
    request and bind nothing. *)
Lemma C6_read_paths_refuse_unset_key :
  let chat_id := "CHAT-20251201090000-AB12" in
  let visit := mk_request GET (Some "stu0000000000000000000000000000key") None EmptyString
                 EmptyString EmptyString EmptyString [] in
  student_session_key Sample.unbound_chat = EmptyString
  ∧ method visit = GET
  ∧ (student_access Sample.env visit chat_id Sample.unbound_chat
       Sample.unbound_chat_db).1.1 = true
  ∧ validate_chat_access visit chat_id Sample.unbound_chat Sample.unbound_chat_db = false
  ∧ chat_messages_api visit chat_id Sample.unbound_chat_db
    = (JsonDenied, Sample.unbound_chat_db).
Proof. by vm_compute. Qed.

(** ** The cleanup command *)

(** C9. With one chat of status [CLOSED] created on 6 January 2025 and
    the clock on 22 December 2025, [handle] with [days = 7] raises
    [AttributeError] and leaves the database as it was, with and without
    [dry_run], although that chat is closed and older than the cutoff. *)
Theorem C9_cleanup_raises_on_closed_status :
  handle Sample.env 7 false Sample.closed_chat_db
  = (inl AttributeError, Sample.closed_chat_db)
  ∧ handle Sample.env 7 true Sample.closed_chat_db
    = (inl AttributeError, Sample.closed_chat_db)
  ∧ minus_days (timezone_now Sample.env 0) 7
    = Some (mk_datetime (mk_date 2025 12 15) (mk_time 9 30 0 0))
  ∧ fst <$> old_chats_query CLOSED (mk_datetime (mk_date 2025 12 15) (mk_time 9 30 0 0))
              Sample.closed_chat_db
    = ["CHAT-20250106090000-ZZ99"].
Proof. repeat split; by vm_compute. Qed.

(** ** Starting a chat *)

Section DatetimeOrder.

Lemma date_cmp_antisym a b : date_cmp b a = CompOpp (date_cmp a b).
Proof.
  unfold date_cmp. rewrite !cmp_then_opp. by rewrite <- !Z.compare_antisym.
Qed.

Lemma datetime_cmp_antisym a b : datetime_cmp b a = CompOpp (datetime_cmp a b).
Proof.
  unfold datetime_cmp. by rewrite cmp_then_opp, <- date_cmp_antisym, <- time_cmp_antisym.
Qed.

(** The order of timestamps is total. *)
Lemma datetime_le_total a b : datetime_le a b = false → datetime_le b a = true.
Proof.
  unfold datetime_le. rewrite (datetime_cmp_antisym a b).
  by destruct (datetime_cmp a b).
Qed.

End DatetimeOrder.

Section OrderBy.

Lemma insert_by_timestamp_head m l :
  ∀ x, HdRel timestamp_le x l → timestamp_le x m → HdRel timestamp_le x (insert_by_timestamp m l).
Proof.
  intros x Hhd Hxm. destruct l as [|y l]; simpl; [by constructor|].
  destruct (datetime_le (timestamp y) (timestamp m)); constructor; [|done].
  by inversion Hhd.
Qed.

Lemma insert_by_timestamp_sorted m l :
  Sorted timestamp_le l → Sorted timestamp_le (insert_by_timestamp m l).
Proof.
  induction 1 as [|x l Hs IH Hhd]; simpl; [by repeat constructor|].
  destruct (datetime_le (timestamp x) (timestamp m)) eqn:Hle.
  - constructor; [done|]. by apply insert_by_timestamp_head.
  - constructor; [by constructor|]. constructor. by apply datetime_le_total.
Qed.

Lemma insert_by_timestamp_perm m l : insert_by_timestamp m l ≡ₚ m :: l.
Proof.
  induction l as [|x l IH]; simpl; [done|].
  destruct (datetime_le (timestamp x) (timestamp m)); [|done].
  rewrite IH. apply Permutation_swap.
Qed.

Lemma fold_insert_sorted rows acc :
  Sorted timestamp_le acc →
  Sorted timestamp_le (fold_left (fun acc m => insert_by_timestamp m acc) rows acc).
Proof.
  revert acc. induction rows as [|m rows IH]; intros acc Hacc; [done|].
  simpl. by apply IH, insert_by_timestamp_sorted.
Qed.

Lemma fold_insert_perm rows acc :
  fold_left (fun acc m => insert_by_timestamp m acc) rows acc ≡ₚ acc ++ rows.
Proof.
  revert acc. induction rows as [|m rows IH]; intros acc; simpl.
  - by rewrite app_nil_r.
  - rewrite IH, insert_by_timestamp_perm. simpl. apply Permutation_middle.
Qed.

(** [order_by('timestamp')] lists the same rows in ascending order of
    timestamp. *)
Lemma order_by_timestamp_sorted rows : Sorted timestamp_le (order_by_timestamp rows).
Proof. apply fold_insert_sorted. constructor. Qed.

Lemma order_by_timestamp_perm rows : order_by_timestamp rows ≡ₚ rows.
Proof. unfold order_by_timestamp. by rewrite fold_insert_perm. Qed.

End OrderBy.

Section ChatId.











End ChatId.





(** * Further properties *)

(** ** Availability on saved tables *)

Lemma weekday_range d : 0 ≤ weekday d < 7.
Proof. unfold weekday. apply Z.mod_pos_bound. lia. Qed.

Lemma weekday_cases d :
  weekday d = 0 ∨ weekday d = 1 ∨ weekday d = 2 ∨ weekday d = 3 ∨ weekday d = 4
  ∨ weekday d = 5 ∨ weekday d = 6.
Proof. pose proof (weekday_range d). lia. Qed.

(** X1. On a table whose rows all pass [clean], [is_currently_available]
    answers open exactly when the weekday has a row that is active and
    whose window, bounds included, holds the time of day: the answer
    without time restrictions is never given. *)
Theorem available_iff_in_window db now :
  valid_table db →
  ((is_currently_available db now).1 = true
   ↔ ∃ row st en,
       schedules db !! weekday (dt_date now) = Some row ∧ is_active row = true
       ∧ start_time row = Some st ∧ end_time row = Some en
       ∧ in_window st en (dt_time now) = true)
  ∧ (is_currently_available db now).2 ≠ "Support is available".
Proof.
  intros Hvalid. unfold is_currently_available.
  destruct (schedules db !! weekday (dt_date now)) as [row|] eqn:Hrow.
  - destruct (is_active row) eqn:Hactive; simpl.
    + destruct (HelpdeskSchedule_clean_active row (Hvalid _ _ Hrow) Hactive)
        as (st & en & Hst & Hen & Hlt).
      rewrite Hst, Hen. fold (in_window st en (dt_time now)).
      destruct (in_window st en (dt_time now)) eqn:Hin; simpl.
      * split; [|done]. split; [|done]. intros _. by exists row, st, en.
      * split.
        { split; [done|]. intros (r & s & e & [= <-] & _ & Hs & He & Hw). congruence. }
        generalize (strftime_I_M_p st) (strftime_I_M_p en). intros a b Heq.
        apply (f_equal (String.get 8)) in Heq. by cbv in Heq.
    + split.
      * split; [done|]. intros (r & s & e & [= <-] & Ha & _). congruence.
      * generalize (get_day_of_week_display (weekday (dt_date now))). intros a Heq.
        apply (f_equal (String.get 11)) in Heq. by cbv in Heq.
  - simpl. split; [split; [done|]|done]. by intros (r & s & e & [=] & _).
Qed.

Lemma available_iff_in_window_witness :
  (is_currently_available Sample.holiday_db (Sample.monday_at Sample.t1000)).1 = true.
Proof.
  assert (valid_table Sample.holiday_db) as Hvalid.
  { intros d row Hrow. unfold Sample.holiday_db, Sample.weekly_monday in Hrow. simpl in Hrow.
    apply lookup_singleton_Some in Hrow as [_ <-]. reflexivity. }
  apply (proj1 (available_iff_in_window Sample.holiday_db
                  (Sample.monday_at Sample.t1000) Hvalid)).
  exists Sample.open_9_to_5, Sample.t0900, Sample.t1700. repeat split; by vm_compute.
Defined.

(** ** What the next opening says about the present *)

(** With no active row for its weekday the answer is closed. *)
Lemma closed_without_active_row db now :
  get_active_schedule db (weekday (dt_date now)) = None →
  (is_currently_available db now).1 = false.
Proof.
  unfold get_active_schedule, is_currently_available.
  destruct (schedules db !! weekday (dt_date now)) as [row|]; [|done].
  by destruct (is_active row).
Qed.

Lemma next_available_scan_Some db d offsets r :
  next_available_scan db d offsets = Some r →
  ∃ i, i ∈ offsets ∧ next_available_at db d i = Some r.
Proof.
  induction offsets as [|j offsets IH]; [done|]. simpl.
  destruct (next_available_at db d j) as [r'|] eqn:Hj.
  - intros [= <-]. exists j. split; [left|done].
  - intros (i & Hi & Hr)%IH. exists i. split; [by right|done].
Qed.

Lemma next_available_scan_None db d offsets :
  next_available_scan db d offsets = None →
  ∀ i, i ∈ offsets → next_available_at db d i = None.
Proof.
  induction offsets as [|j offsets IH]; [by intros _ i ?%elem_of_nil|]. simpl.
  destruct (next_available_at db d j) as [r'|] eqn:Hj; [done|].
  intros Hrest i [->|Hi]%elem_of_cons; [done|]. by apply IH.
Qed.

(** Two strings that differ at one of their first three characters. *)
(** What an iteration of the scan returns: a day name, with or without
    the prefix for tomorrow. *)
Lemma next_available_at_shape db d i r :
  next_available_at db d i = Some r →
  ∃ name x,
    name ∈ ["Monday"; "Tuesday"; "Wednesday"; "Thursday"; "Friday"; "Saturday"; "Sunday"]
    ∧ (r = "Tomorrow (" +:+ name +:+ ") at " +:+ x ∨ r = name +:+ " at " +:+ x).
Proof.
  unfold next_available_at.
  destruct (get_active_schedule db ((d + i) mod 7)) as [s|]; [|done].
  destruct (start_time s) as [st|]; [|done].
  assert (0 ≤ (d + i) mod 7 < 7) as Hr by (apply Z.mod_pos_bound; lia).
  assert ((d + i) mod 7 = 0 ∨ (d + i) mod 7 = 1 ∨ (d + i) mod 7 = 2 ∨ (d + i) mod 7 = 3
          ∨ (d + i) mod 7 = 4 ∨ (d + i) mod 7 = 5 ∨ (d + i) mod 7 = 6) as Hcases by lia.
  simpl.
  destruct Hcases as [->|[->|[->|[->|[->|[->| ->]]]]]]; simpl;
    (destruct (i =? 1); intros [= <-]; eexists _, _; (split; [|by eauto]);
     by repeat constructor).
Qed.

(** Every weekday is met by one of the offsets 1..7. *)
Lemma offsets_cover d w : 0 ≤ w < 7 → ∃ i, 1 ≤ i ≤ 7 ∧ (d + i) mod 7 = w.
Proof.
  intros Hw. pose proof (Z.mod_pos_bound (w - d) 7 ltac:(lia)) as Hi.
  assert ((d + (w - d) mod 7) mod 7 = w) as Hsum.
  { rewrite Zplus_mod_idemp_r. replace (d + (w - d)) with w by lia. by apply Z.mod_small. }
  destruct (decide ((w - d) mod 7 = 0)) as [H0|Hn].
  - exists 7. split; [lia|]. rewrite H0, Z.add_0_r in Hsum.
    replace (d + 7) with (d + 1 * 7) by lia. by rewrite Z_mod_plus_full.
  - exists ((w - d) mod 7). split; [lia|done].
Qed.

(** X2. On a table whose rows all pass [clean],
    [get_next_available_time] answers that the schedule is not available
    exactly when no weekday has an active row, and then
    [is_currently_available] answers closed at every instant. *)
Theorem sentinel_iff_never_open db now :
  valid_table db →
  (get_next_available_time db now = "Schedule not available"
   ↔ ∀ d, 0 ≤ d < 7 → get_active_schedule db d = None)
  ∧ (get_next_available_time db now = "Schedule not available" →
     ∀ now', (is_currently_available db now').1 = false).
Proof.
  intros Hvalid.
  assert (get_next_available_time db now = "Schedule not available"
          → ∀ d, 0 ≤ d < 7 → get_active_schedule db d = None) as Hforward.
  { unfold get_next_available_time.
    destruct (next_available_today _ _ _) as [r|] eqn:Htoday.
    { unfold next_available_today in Htoday.
      destruct (get_active_schedule db _) as [s|]; [|done].
      destruct (start_time s) as [st|]; [|done]. destruct (end_time s); [|done].
      destruct (time_lt _ _); [|done]. injection Htoday as <-.
      generalize (strftime_I_M_p st). intros x Heq.
      apply (f_equal (String.get 0)) in Heq. by cbv in Heq. }
    destruct (next_available_scan _ _ _) as [r|] eqn:Hscan.
    { apply next_available_scan_Some in Hscan as (i & _ & Hat).
      apply next_available_at_shape in Hat as (name & x & Hname & [-> | ->]);
        day_name_cases Hname; intros Heq; strings_differ Heq. }
    intros _ d Hd.
    destruct (offsets_cover (weekday (dt_date now)) d Hd) as (i & Hi & Hmod).
    pose proof (next_available_scan_None _ _ _ Hscan i) as Hat.
    rewrite elem_of_seqZ in Hat. specialize (Hat ltac:(lia)).
    unfold next_available_at in Hat. rewrite Hmod in Hat.
    destruct (get_active_schedule db d) as [s|] eqn:Hs; [|done].
    apply get_active_schedule_Some in Hs as [Hrow Hactive].
    destruct (HelpdeskSchedule_clean_active s (Hvalid _ _ Hrow) Hactive)
      as (st & en & Hst & _). rewrite Hst in Hat. by destruct (i =? 1). }
  split; [split; [exact Hforward|]|].
  - intros Hnone. unfold get_next_available_time, next_available_today.
    rewrite (Hnone _ (weekday_range _)).
    rewrite next_available_scan_none; [done|].
    intros j Hj. apply next_available_at_inactive, Hnone, Z.mod_pos_bound. lia.
  - intros Hsentinel now'. apply closed_without_active_row, Hforward; [done|].
    apply weekday_range.
Qed.

Lemma sentinel_iff_never_open_witness :
  (is_currently_available Sample.no_schedule (Sample.sunday_at Sample.t0900)).1 = false.
Proof.
  apply (proj2 (sentinel_iff_never_open Sample.no_schedule (Sample.monday_at Sample.t1000)
                  ltac:(intros d row Hrow; simpl in Hrow; by rewrite lookup_empty in Hrow))).
  reflexivity.
Defined.

(** X3. Whenever [get_next_available_time] announces an opening later
    today, [is_currently_available] answers closed at the same instant. *)
Theorem today_announced_means_closed db now x :
  get_next_available_time db now = "Today at " +:+ x →
  (is_currently_available db now).1 = false.
Proof.
  unfold get_next_available_time.
  destruct (next_available_today _ _ _) as [r|] eqn:Htoday.
  - intros _. unfold next_available_today in Htoday.
    destruct (get_active_schedule db _) as [s|] eqn:Hs; [|done].
    apply get_active_schedule_Some in Hs as [Hrow Hactive].
    destruct (start_time s) as [st|] eqn:Hst; [|done].
    destruct (end_time s) as [en|] eqn:Hen; [|done].
    destruct (time_lt _ _) eqn:Hlt; [|done].
    rewrite (is_currently_available_window db now s st en) by done.
    by rewrite (time_lt_not_le _ _ Hlt).
  - destruct (next_available_scan _ _ _) as [r|] eqn:Hscan.
    + apply next_available_scan_Some in Hscan as (i & _ & Hat).
      apply next_available_at_shape in Hat as (name & y & Hname & [-> | ->]);
        day_name_cases Hname; intros Heq; strings_differ Heq.
    + intros Heq. apply (f_equal (String.get 0)) in Heq. by cbv in Heq.
Qed.

Lemma today_announced_means_closed_witness :
  (is_currently_available Sample.holiday_db (Sample.monday_at Sample.t0800)).1 = false.
Proof.
  apply (today_announced_means_closed Sample.holiday_db (Sample.monday_at Sample.t0800)
           "09:00 AM").
  by vm_compute.
Defined.

(** ** Filling and presetting the weekly table *)

Lemma get_or_create_existing day defaults db row :
  schedules db !! day = Some row → get_or_create day defaults db = inr (row, false, db).
Proof. unfold get_or_create. by intros ->. Qed.

Lemma get_or_create_missing day defaults db :
  schedules db !! day = None → HelpdeskSchedule_clean defaults = Valid →
  get_or_create day defaults db
  = inr (defaults, true, mk_schedule_db (<[day := defaults]> (schedules db)) (overrides db)).
Proof. unfold get_or_create, HelpdeskSchedule_save. by intros -> ->. Qed.

(** Filling from a table of rows that pass [clean] never fails, keeps
    every row of the database and adds the first row of the table for
    each missing day. *)
Lemma initialize_from_union table db :
  Forall (fun p => HelpdeskSchedule_clean p.2 = Valid) table →
  ∃ db', initialize_from table db = inr db'
         ∧ overrides db' = overrides db
         ∧ schedules db' = schedules db ∪ list_to_map table.
Proof.
  intros Hall. revert db. induction Hall as [|[day row] table Hrow _ IH]; intros db.
  - exists db. split; [done|]. split; [done|].
    change (list_to_map []) with (∅ : gmap Z HelpdeskSchedule).
    by rewrite (right_id_L ∅ (∪)).
  - simpl in *. destruct (schedules db !! day) as [old|] eqn:Hold.
    + rewrite (get_or_create_existing _ _ _ _ Hold).
      destruct (IH db) as (db' & -> & Hov & Hs). exists db'. split; [done|]. split; [done|].
      rewrite Hs. apply map_eq. intros i. rewrite !lookup_union, lookup_insert.
      destruct (decide (day = i)) as [<-|]; [|done]. rewrite Hold.
      by destruct (list_to_map table !! day).
    + rewrite (get_or_create_missing _ _ _ Hold Hrow).
      destruct (IH (mk_schedule_db (<[day := row]> (schedules db)) (overrides db)))
        as (db' & -> & Hov & Hs).
      exists db'. split; [done|]. split; [done|]. rewrite Hs. simpl.
      apply map_eq. intros i. rewrite !lookup_union, !lookup_insert.
      destruct (decide (day = i)) as [<-|]; [|done]. rewrite Hold.
      by destruct (list_to_map table !! day).
Qed.

Lemma default_schedules_valid :
  Forall (fun p => HelpdeskSchedule_clean p.2 = Valid) default_schedules.
Proof. repeat constructor. Qed.

Lemma default_row_weekday d : 0 ≤ d < 7 → is_Some (default_row d).
Proof.
  intros Hd. assert (d = 0 ∨ d = 1 ∨ d = 2 ∨ d = 3 ∨ d = 4 ∨ d = 5 ∨ d = 6) as Hc by lia.
  destruct Hc as [->|[->|[->|[->|[->|[->| ->]]]]]]; by eexists.
Qed.

Lemma default_row_cases d :
  0 ≤ d < 7 →
  default_row d
  = Some (if d <=? 4 then mk_schedule true (Some (mk_time 9 0 0 0)) (Some (mk_time 17 0 0 0))
          else mk_schedule false None None).
Proof.
  intros Hd. assert (d = 0 ∨ d = 1 ∨ d = 2 ∨ d = 3 ∨ d = 4 ∨ d = 5 ∨ d = 6) as Hc by lia.
  destruct Hc as [->|[->|[->|[->|[->|[->| ->]]]]]]; by vm_compute.
Qed.

Lemma default_row_valid d row : default_row d = Some row → HelpdeskSchedule_clean row = Valid.
Proof.
  unfold default_row. intros Hrow. apply elem_of_list_to_map_2 in Hrow.
  pose proof default_schedules_valid as Hall. rewrite Forall_forall in Hall.
  apply (Hall (d, row) Hrow).
Qed.

(** X4. [initialize_default_schedule] never fails. It keeps every row
    that exists, gives each missing weekday its default row (Monday to
    Friday 09:00 to 17:00, Saturday and Sunday closed), so that
    afterwards every weekday has a row; it leaves the overrides alone,
    keeps a table of rows that pass [clean] such, and a second run
    changes nothing. *)
Theorem initialize_default_schedule_fills db :
  ∃ db',
    initialize_default_schedule db = inr db'
    ∧ overrides db' = overrides db
    ∧ (∀ d row, schedules db !! d = Some row → schedules db' !! d = Some row)
    ∧ (∀ d, schedules db !! d = None → schedules db' !! d = default_row d)
    ∧ (∀ d, 0 ≤ d < 7 → is_Some (schedules db' !! d))
    ∧ (valid_table db → valid_table db')
    ∧ initialize_default_schedule db' = inr db'.
Proof.
  destruct (initialize_from_union default_schedules db default_schedules_valid)
    as (db' & Hrun & Hov & Hs).
  exists db'. split; [done|]. split; [done|].
  assert (∀ d row, schedules db !! d = Some row → schedules db' !! d = Some row) as Hkeep.
  { intros d row Hrow. rewrite Hs, lookup_union, Hrow.
    by destruct (list_to_map default_schedules !! d). }
  assert (∀ d, schedules db !! d = None → schedules db' !! d = default_row d) as Hnew.
  { intros d Hnone. rewrite Hs, lookup_union, Hnone. unfold default_row.
    by destruct (list_to_map default_schedules !! d). }
  split; [done|]. split; [done|]. split; [|split].
  - intros d Hd. destruct (schedules db !! d) as [row|] eqn:Hrow.
    + rewrite (Hkeep _ _ Hrow). by eexists.
    + rewrite (Hnew _ Hrow). by apply default_row_weekday.
  - intros Hvalid d row Hrow. destruct (schedules db !! d) as [old|] eqn:Hold.
    + rewrite (Hkeep _ _ Hold) in Hrow. injection Hrow as <-. by eapply Hvalid.
    + rewrite (Hnew _ Hold) in Hrow. by eapply default_row_valid.
  - destruct (initialize_from_union default_schedules db' default_schedules_valid)
      as (db'' & Hrun' & Hov' & Hs').
    unfold initialize_default_schedule. rewrite Hrun'. f_equal.
    clear Hrun Hrun' Hkeep Hnew.
    destruct db'' as [s'' o''], db' as [s' o'].
    cbn [schedules overrides] in Hs', Hov', Hs, Hov. subst o''.
    f_equal. rewrite Hs', Hs. apply map_eq. intros i. rewrite !lookup_union.
    destruct (schedules db !! i), (list_to_map default_schedules !! i); done.
Qed.

(** X5. When the weekday of an instant has no row,
    [initialize_default_schedule] makes [is_currently_available] answer
    open at that instant exactly from Monday to Friday between 09:00 and
    17:00, bounds included. *)
Theorem default_schedule_hours db now :
  schedules db !! weekday (dt_date now) = None →
  ∃ db',
    initialize_default_schedule db = inr db'
    ∧ ((is_currently_available db' now).1 = true
       ↔ weekday (dt_date now) ≤ 4
         ∧ in_window (mk_time 9 0 0 0) (mk_time 17 0 0 0) (dt_time now) = true).
Proof.
  intros Hnone.
  destruct (initialize_from_union default_schedules db default_schedules_valid)
    as (db' & Hrun & Hov & Hs).
  exists db'. split; [done|].
  assert (schedules db' !! weekday (dt_date now) = default_row (weekday (dt_date now)))
    as Hrow.
  { rewrite Hs, lookup_union, Hnone. unfold default_row.
    by destruct (list_to_map default_schedules !! _). }
  unfold is_currently_available.
  rewrite Hrow, (default_row_cases _ (weekday_range _)). unfold in_window.
  destruct (Z.leb_spec (weekday (dt_date now)) 4) as [Hle|Hgt]; cbn -[time_le].
  - destruct (time_le _ _ && time_le _ _); simpl; [by split|].
    split; [done|by intros [_ ?]].
  - split; [done|]. intros [? _]. lia.
Qed.

Lemma default_schedule_hours_witness :
  ∃ db',
    initialize_default_schedule Sample.no_schedule = inr db'
    ∧ (is_currently_available db' (Fixture.at_ Fixture.wednesday 17 0)).1 = true.
Proof.
  destruct (default_schedule_hours Sample.no_schedule (Fixture.at_ Fixture.wednesday 17 0))
    as (db' & Hrun & Hopen).
  - reflexivity.
  - exists db'. split; [exact Hrun|]. apply Hopen. split; [by vm_compute|reflexivity].
Defined.

Lemma HelpdeskSchedule_save_valid day row db :
  HelpdeskSchedule_clean row = Valid →
  HelpdeskSchedule_save day row db
  = inr (mk_schedule_db (<[day := row]> (schedules db)) (overrides db)).
Proof. unfold HelpdeskSchedule_save. by intros ->. Qed.

Lemma preset_configs_valid preset config :
  preset_lookup preset_configs preset = Some config →
  HelpdeskSchedule_clean config = Valid ∧ preset ≠ EmptyString.
Proof.
  unfold preset_configs. simpl.
  repeat (case_bool_decide; [intros [= <-]; subst; by split|]). done.
Qed.

(** The loop of [apply_preset] for a configuration that passes [clean]:
    each selected day gets the configuration, the other days keep their
    row. *)
Lemma apply_preset_days_effect config days n db :
  HelpdeskSchedule_clean config = Valid →
  Forall (fun s => is_Some (day_choice s)) days →
  ∃ db', apply_preset_days (Some config) days n db = inr (n + Z.of_nat (length days), db')
         ∧ overrides db' = overrides db
         ∧ ∀ d, schedules db' !! d
                = if bool_decide (d ∈ omap day_choice days) then Some config
                  else schedules db !! d.
Proof.
  intros Hvalid Hall. revert n db.
  induction Hall as [|s days [d0 Hs] _ IH]; intros n db; simpl.
  - exists db. split; [do 2 f_equal; lia|done].
  - rewrite Hs. simpl.
    assert (∃ db1, (match get_or_create d0 config db with
                    | inl e => inl e
                    | inr (schedule, created, db1) =>
                        if created then apply_preset_days (Some config) days (n + 1) db1
                        else match HelpdeskSchedule_save d0 config db1 with
                             | inl e => inl e
                             | inr db2 => apply_preset_days (Some config) days (n + 1) db2
                             end
                    end) = apply_preset_days (Some config) days (n + 1) db1
                   ∧ overrides db1 = overrides db
                   ∧ schedules db1 = <[d0 := config]> (schedules db)) as (db1 & -> & Hov1 & Hs1).
    { destruct (schedules db !! d0) as [old|] eqn:Hold.
      - rewrite (get_or_create_existing _ _ _ _ Hold), (HelpdeskSchedule_save_valid _ _ _ Hvalid).
        by eexists.
      - rewrite (get_or_create_missing _ _ _ Hold Hvalid). by eexists. }
    destruct (IH (n + 1) db1) as (db' & -> & Hov & Hlook).
    exists db'. split; [do 2 f_equal; lia|]. split; [congruence|].
    intros d. rewrite Hlook, Hs1, lookup_insert.
    destruct (decide (d0 = d)) as [<-|Hne].
    + rewrite (bool_decide_eq_true_2 (d0 ∈ d0 :: _)) by left. by case_bool_decide.
    + case_bool_decide as Hin.
      * by rewrite bool_decide_eq_true_2 by by right.
      * rewrite bool_decide_eq_false_2; [done|]. by intros [->|?]%elem_of_cons.
Qed.

(** X6. [apply_preset] with a known preset and at least one selected
    day never fails and returns the number of selections; afterwards
    every selected day has exactly the configuration of the preset, every
    other day has the row it had, and the overrides are unchanged. With an
    empty preset or no day it returns 0 and changes nothing. *)
Theorem apply_preset_sets_selected_days preset config days db :
  preset_lookup preset_configs preset = Some config →
  days ≠ [] →
  Forall (fun s => is_Some (day_choice s)) days →
  (∃ db',
     apply_preset preset days db = inr (Z.of_nat (length days), db')
     ∧ overrides db' = overrides db
     ∧ (∀ s d, s ∈ days → day_choice s = Some d → schedules db' !! d = Some config)
     ∧ (∀ d, (∀ s, s ∈ days → day_choice s ≠ Some d) →
             schedules db' !! d = schedules db !! d))
  ∧ apply_preset EmptyString days db = inr (0, db)
  ∧ apply_preset preset [] db = inr (0, db).
Proof.
  intros Hpreset Hdays Hall.
  destruct (preset_configs_valid _ _ Hpreset) as [Hvalid Hne].
  split; [|split; [done|]].
  - destruct (apply_preset_days_effect config days 0 db Hvalid Hall) as (db' & Hrun & Hov & Hlook).
    exists db'. unfold apply_preset.
    rewrite !bool_decide_eq_false_2 by done. cbn [orb]. rewrite Hpreset, Hrun.
    split; [done|]. split; [done|]. split.
    + intros s d Hs Hd. rewrite Hlook, bool_decide_eq_true_2; [done|].
      apply list_elem_of_omap. by exists s.
    + intros d Hnot. rewrite Hlook, bool_decide_eq_false_2; [done|].
      intros (s & Hs & Hd)%list_elem_of_omap. by apply (Hnot s).
  - unfold apply_preset. by rewrite (bool_decide_eq_true_2 ([] = [])), orb_true_r.
Qed.

Lemma apply_preset_sets_selected_days_witness :
  ∃ db',
    apply_preset "all_closed" ["0"; "6"] Sample.holiday_db = inr (2, db')
    ∧ schedules db' !! 0 = Some (mk_schedule false None None).
Proof.
  destruct (apply_preset_sets_selected_days "all_closed" (mk_schedule false None None)
              ["0"; "6"] Sample.holiday_db)
    as ((db' & Hrun & _ & Hset & _) & _).
  - reflexivity.
  - discriminate.
  - repeat constructor; by eexists.
  - exists db'. split; [exact Hrun|]. apply (Hset "0"); [left|reflexivity].
Defined.

(** X7. After [apply_preset] with a known preset, at every instant whose
    weekday is selected [is_currently_available] answers open exactly when
    the preset is an open one and its window, bounds included, holds the
    time of day; whatever the table held for that day before. *)
Theorem preset_decides_selected_days preset config days db now s :
  preset_lookup preset_configs preset = Some config →
  Forall (fun s => is_Some (day_choice s)) days →
  s ∈ days → day_choice s = Some (weekday (dt_date now)) →
  ∃ n db',
    apply_preset preset days db = inr (n, db')
    ∧ ((is_currently_available db' now).1 = true
       ↔ ∃ st en, is_active config = true ∧ start_time config = Some st
                  ∧ end_time config = Some en ∧ in_window st en (dt_time now) = true).
Proof.
  intros Hpreset Hall Hs Hd.
  destruct (preset_configs_valid _ _ Hpreset) as [Hvalid Hne].
  destruct (apply_preset_days_effect config days 0 db Hvalid Hall) as (db' & Hrun & Hov & Hlook).
  exists (0 + Z.of_nat (length days)), db'. unfold apply_preset.
  rewrite bool_decide_eq_false_2 by done.
  rewrite (bool_decide_eq_false_2 (days = [])) by (intros ->; by apply elem_of_nil in Hs).
  cbn [orb]. rewrite Hpreset, Hrun. split; [done|].
  assert (schedules db' !! weekday (dt_date now) = Some config) as Hrow.
  { rewrite Hlook, bool_decide_eq_true_2; [done|]. apply list_elem_of_omap. by exists s. }
  unfold is_currently_available. rewrite Hrow.
  destruct (is_active config) eqn:Hactive; simpl.
  - destruct (HelpdeskSchedule_clean_active config Hvalid Hactive) as (st & en & Hst & Hen & _).
    rewrite Hst, Hen. fold (in_window st en (dt_time now)).
    destruct (in_window st en (dt_time now)) eqn:Hin; simpl.
    + split; [|done]. intros _. by exists st, en.
    + split; [done|]. intros (st' & en' & _ & [= <-] & [= <-] & ?). congruence.
  - split; [done|]. by intros (st' & en' & ? & _).
Qed.

Lemma preset_decides_selected_days_witness :
  ∃ n db',
    apply_preset "business_hours" ["0"] Sample.no_schedule = inr (n, db')
    ∧ (is_currently_available db' (Fixture.at_ Sample.monday 16 30)).1 = true.
Proof.
  destruct (preset_decides_selected_days "business_hours"
              (mk_schedule true (Some (mk_time 9 0 0 0)) (Some (mk_time 16 30 0 0)))
              ["0"] Sample.no_schedule (Fixture.at_ Sample.monday 16 30) "0")
    as (n & db' & Hrun & Hopen).
  - reflexivity.
  - repeat constructor; by eexists.
  - left.
  - reflexivity.
  - exists n, db'. split; [exact Hrun|]. apply Hopen.
    exists (mk_time 9 0 0 0), (mk_time 16 30 0 0). by repeat split.
Defined.

(** ** Creating overrides *)

Lemma CharField_clean_ok max_length raw v :
  CharField_clean max_length raw = CleanOk v → v = Str.strip raw ∧ v ≠ EmptyString.
Proof.
  unfold CharField_clean. case_bool_decide as Hempty; [done|].
  destruct max_length as [m|]; [destruct (m <? _); [done|]|]; by intros [= <-].
Qed.

(** What a valid override form guarantees. *)
Lemma ScheduleOverrideForm_Some today data db d o :
  ScheduleOverrideForm today data db = Some (d, o) →
  od_date data = Some d
  ∧ o = mk_override (od_is_active data) (od_start_time data) (od_end_time data)
          (Str.strip (od_reason data))
  ∧ ov_reason o ≠ EmptyString
  ∧ date_lt d today = false
  ∧ ScheduleOverride_clean o = Valid
  ∧ overrides db !! d = None.
Proof.
  unfold ScheduleOverrideForm.
  destruct (od_date data) as [d'|]; [|done].
  destruct (CharField_clean _ _) as [reason|] eqn:Hreason; [|done].
  apply CharField_clean_ok in Hreason as [-> Hne].
  destruct (is_valid (clean_date today d')) eqn:Hdate; [|done].
  destruct (is_valid (ScheduleOverrideForm_clean data)); [|done].
  destruct (is_valid (ScheduleOverride_clean _)) eqn:Hclean; [|done].
  case_bool_decide as Htaken; [done|]. simpl. intros [= <- <-].
  repeat split; try done.
  - unfold clean_date in Hdate. by destruct (date_lt d' today).
  - by destruct (ScheduleOverride_clean _).
  - destruct (overrides db !! d') eqn:Hd; [|done]. destruct Htaken. by eexists.
Qed.

(** X8. [manage_schedule_overrides] writes nothing for a caller who is
    not a system manager, never touches the weekly table, and never
    replaces or removes an override that exists. An override appears only
    on a [POST], for the submitted date, when that date is not in the past
    and had no override; the stored row holds the submitted values with
    the reason, an ASCII text, stripped and not empty, and passes
    [ScheduleOverride.clean]. *)
Theorem manage_schedule_overrides_only_adds today utc_today who how data db :
  ascii_text (od_reason data) = true →
  let r := manage_schedule_overrides today utc_today who how data db in
  (is_system_manager who = false → r = (ToLogin, db))
  ∧ schedules r.2 = schedules db
  ∧ (∀ d o, overrides db !! d = Some o → overrides r.2 !! d = Some o)
  ∧ (∀ d o, overrides db !! d = None → overrides r.2 !! d = Some o →
       is_system_manager who = true ∧ how = POST
       ∧ od_date data = Some d ∧ date_lt d today = false
       ∧ o = mk_override (od_is_active data) (od_start_time data) (od_end_time data)
               (Str.strip (od_reason data))
       ∧ ov_reason o ≠ EmptyString
       ∧ ScheduleOverride_clean o = Valid).
Proof.
  intros _. unfold manage_schedule_overrides.
  destruct (is_system_manager who) eqn:Hwho; simpl.
  2:{ split; [done|]. split; [done|]. split; [done|]. intros d o Hnone Hsome. congruence. }
  destruct how; simpl.
  { split; [done|]. split; [done|]. split; [done|]. intros d o Hnone Hsome. congruence. }
  destruct (ScheduleOverrideForm today data db) as [[d0 o0]|] eqn:Hform; simpl.
  2:{ split; [done|]. split; [done|]. split; [done|]. intros d o Hnone Hsome. congruence. }
  apply ScheduleOverrideForm_Some in Hform as (Hd & Ho & Hreason & Hdate & Hclean & Hfree).
  split; [done|]. split; [done|]. split.
  - intros d o Hold. rewrite lookup_insert_ne; [done|]. congruence.
  - intros d o Hnone. destruct (decide (d0 = d)) as [<-|Hne].
    + rewrite lookup_insert_eq. intros [= <-]. by repeat split.
    + rewrite lookup_insert_ne by done. congruence.
Qed.

Lemma manage_schedule_overrides_only_adds_witness :
  overrides
    (manage_schedule_overrides Sample.monday Sample.monday Fixture.manager POST
       Fixture.closed_christmas Sample.holiday_db).2 !! Sample.monday
  = Some Sample.holiday.
Proof.
  apply (manage_schedule_overrides_only_adds Sample.monday Sample.monday Fixture.manager POST
           Fixture.closed_christmas Sample.holiday_db).
  - reflexivity.
  - by vm_compute.
Defined.

(** X9. Once a system manager has created a closed override for a date,
    with an ASCII text as reason,
    [schedule_status_api] answers closed with its reason at every instant
    whose UTC date is that date, while [is_currently_available] and
    [get_next_available_time] answer as they did before. *)
Theorem created_override_reaches_api_only today utc_today who data db d o :
  ascii_text (od_reason data) = true →
  is_system_manager who = true →
  ScheduleOverrideForm today data db = Some (d, o) →
  ov_is_active o = false →
  let db' := (manage_schedule_overrides today utc_today who POST data db).2 in
  (∀ utc_now local1 local2 local3,
     dt_date utc_now = d →
     st_is_available (schedule_status_api db' utc_now local1 local2 local3) = false
     ∧ st_override_reason (schedule_status_api db' utc_now local1 local2 local3)
       = Some (Str.strip (od_reason data)))
  ∧ (∀ now, is_currently_available db' now = is_currently_available db now)
  ∧ (∀ now, get_next_available_time db' now = get_next_available_time db now).
Proof.
  intros _ Hwho Hform Hclosed db'.
  assert (db' = mk_schedule_db (schedules db) (<[d := o]> (overrides db))) as ->.
  { unfold db', manage_schedule_overrides. by rewrite Hwho, Hform. }
  split; [|done].
  intros utc_now local1 local2 local3 <-.
  unfold schedule_status_api, get_override_for_date. simpl.
  rewrite lookup_insert_eq, Hclosed. simpl.
  apply ScheduleOverrideForm_Some in Hform as (_ & -> & _). done.
Qed.

Lemma created_override_reaches_api_only_witness :
  let db' := (manage_schedule_overrides Sample.monday Sample.monday Fixture.manager POST
                Fixture.closed_christmas Sample.no_schedule).2 in
  st_override_reason
    (schedule_status_api db' (Fixture.at_ Sample.christmas 11 0)
       (Fixture.at_ Sample.christmas 6 0) (Fixture.at_ Sample.christmas 6 0)
       (Fixture.at_ Sample.christmas 6 0))
  = Some "Winter break".
Proof.
  intros db'.
  apply (created_override_reaches_api_only Sample.monday Sample.monday Fixture.manager
           Fixture.closed_christmas Sample.no_schedule Sample.christmas
           (mk_override false None None "Winter break"));
    by vm_compute.
Defined.

(** ** The management command init_schedule *)

(** One iteration of the loop writes the row of its day, when the row is
    missing or [--force] is given. *)
Lemma init_schedule_day_sets options start_t end_t active_days day st :
  time_ge start_t end_t = false →
  opt_force options = true ∨ schedules (il_db st) !! day = None →
  ∃ st',
    init_schedule_day options start_t end_t active_days day st = inr st'
    ∧ overrides (il_db st') = overrides (il_db st)
    ∧ schedules (il_db st')
      = <[day := mk_schedule (bool_decide (day ∈ active_days))
                   (if bool_decide (day ∈ active_days) then Some start_t else None)
                   (if bool_decide (day ∈ active_days) then Some end_t else None)]>
          (schedules (il_db st)).
Proof.
  intros Hhours Hwrite. unfold init_schedule_day, get_or_create, HelpdeskSchedule_save.
  set (row := mk_schedule _ _ _).
  assert (HelpdeskSchedule_clean row = Valid) as Hvalid.
  { unfold row, HelpdeskSchedule_clean. destruct (bool_decide _); simpl; [|done].
    by rewrite Hhours. }
  destruct (schedules (il_db st) !! day) as [old|] eqn:Hold.
  - destruct Hwrite as [Hforce|]; [|done]. rewrite Hforce. simpl. rewrite Hvalid.
    by eexists.
  - rewrite Hvalid. by eexists.
Qed.

Lemma init_schedule_loop_sets options start_t end_t active_days days st :
  time_ge start_t end_t = false →
  NoDup days →
  opt_force options = true ∨ (∀ d, d ∈ days → schedules (il_db st) !! d = None) →
  ∃ st',
    init_schedule_loop options start_t end_t active_days days st = inr st'
    ∧ overrides (il_db st') = overrides (il_db st)
    ∧ ∀ d, schedules (il_db st') !! d
           = if bool_decide (d ∈ days)
             then Some (mk_schedule (bool_decide (d ∈ active_days))
                          (if bool_decide (d ∈ active_days) then Some start_t else None)
                          (if bool_decide (d ∈ active_days) then Some end_t else None))
             else schedules (il_db st) !! d.
Proof.
  intros Hhours Hnodup. revert st.
  induction Hnodup as [|day rest Hfresh Hnodup IH]; intros st Hwrite.
  - exists st. by repeat split.
  - destruct (init_schedule_day_sets options start_t end_t active_days day st Hhours)
      as (st1 & Hday & Hov1 & Hs1).
    { destruct Hwrite as [|Hnone]; [by left|right]. apply Hnone. by left. }
    destruct (IH st1) as (st' & Hloop & Hov & Hs).
    { destruct Hwrite as [|Hnone]; [by left|right]. intros d Hd.
      rewrite Hs1, lookup_insert_ne; [apply Hnone; by right|]. by intros ->. }
    exists st'. simpl. rewrite Hday. split; [done|]. split; [congruence|].
    intros d. rewrite Hs. destruct (decide (d ∈ rest)) as [Hrest|Hrest].
    + rewrite (bool_decide_true (d ∈ rest)) by done.
      rewrite (bool_decide_true (d ∈ day :: rest)); [done|by right].
    + rewrite (bool_decide_false (d ∈ rest)) by done. rewrite Hs1. destruct (decide (day = d)) as [->|Hne].
      * rewrite lookup_insert_eq, (bool_decide_true (d ∈ d :: rest)); [done|by left].
      * rewrite lookup_insert_ne by done.
        rewrite (bool_decide_false (d ∈ day :: rest)); [done|].
        intros [->|?]%elem_of_cons; done.
Qed.

(** X10. The command [init_schedule] leaves a table that has rows alone
    unless [--force] is given, and writes only one line. With an empty
    table or with [--force] it ends without an exception, leaves the
    overrides alone and writes all seven days: Monday to Friday open from
    9:00 until 18:00 with [--extended-hours], else until 19:00 with
    [--finals-week], else until 16:30, and Saturday and Sunday closed.
    The option [--business-hours] changes nothing. *)
Theorem init_schedule_resets_week options now1 now2 db :
  (schedules db ≠ ∅ → opt_force options = false →
   ∃ line, init_schedule_handle options now1 now2 db = inr ([line], db))
  ∧ (schedules db = ∅ ∨ opt_force options = true →
     ∃ lines db',
       init_schedule_handle options now1 now2 db = inr (lines, db')
       ∧ overrides db' = overrides db
       ∧ ∀ d, schedules db' !! d
              = if bool_decide (0 ≤ d ≤ 4) then
                  Some (mk_schedule true (Some (mk_time 9 0 0 0))
                          (Some (if opt_extended_hours options then mk_time 18 0 0 0
                                 else if opt_finals_week options then mk_time 19 0 0 0
                                 else mk_time 16 30 0 0)))
                else if bool_decide (5 ≤ d ≤ 6) then Some (mk_schedule false None None)
                else schedules db !! d).
Proof.
  unfold init_schedule_handle. split.
  - intros Hrows ->.
    assert ((0 <? Z.of_nat (size (schedules db))) = true) as ->.
    { apply Z.ltb_lt. apply map_size_non_empty_iff in Hrows. lia. }
    by eexists.
  - intros Hrun.
    assert (((0 <? Z.of_nat (size (schedules db))) && negb (opt_force options)) = false) as ->.
    { destruct Hrun as [->| ->]; [by rewrite map_size_empty|apply andb_false_r]. }
    set (closing := if opt_extended_hours options then mk_time 18 0 0 0
                    else if opt_finals_week options then mk_time 19 0 0 0
                    else mk_time 16 30 0 0).
    assert (∃ banner, init_schedule_choice options
                      = (mk_time 9 0 0 0, closing, [0; 1; 2; 3; 4], banner)) as [banner ->].
    { unfold init_schedule_choice, closing.
      destruct (opt_extended_hours options), (opt_finals_week options); by eexists. }
    destruct (init_schedule_loop_sets options (mk_time 9 0 0 0) closing [0; 1; 2; 3; 4]
                (seqZ 0 7) (mk_init_loop db 0 0 [banner])) as (st & -> & Hov & Hs).
    { unfold closing.
      by destruct (opt_extended_hours options), (opt_finals_week options). }
    { apply NoDup_seqZ. }
    { destruct Hrun as [Hempty|]; [right|by left]. intros d _. simpl.
      by rewrite Hempty. }
    destruct (is_currently_available (il_db st) now1) as [is_available message].
    eexists _, _. split; [done|]. split; [done|].
    intros d. rewrite Hs. simpl.
    destruct (decide (0 ≤ d ≤ 4)) as [Hweek|Hweek].
    + rewrite (bool_decide_true (0 ≤ d ≤ 4)) by done.
      rewrite (bool_decide_true (d ∈ seqZ 0 7)) by (apply elem_of_seqZ; lia).
      assert (d = 0 ∨ d = 1 ∨ d = 2 ∨ d = 3 ∨ d = 4) as Hd by lia.
      by destruct Hd as [->|[->|[->|[->| ->]]]].
    + rewrite (bool_decide_false (0 ≤ d ≤ 4)) by done.
      destruct (decide (5 ≤ d ≤ 6)) as [Hend|Hend].
      * rewrite (bool_decide_true (5 ≤ d ≤ 6)) by done.
        rewrite (bool_decide_true (d ∈ seqZ 0 7)) by (apply elem_of_seqZ; lia).
        assert (d = 5 ∨ d = 6) as [->| ->] by lia; done.
      * rewrite (bool_decide_false (5 ≤ d ≤ 6)) by done.
        rewrite (bool_decide_false (d ∈ seqZ 0 7)); [done|].
        rewrite elem_of_seqZ. lia.
Qed.

Lemma init_schedule_resets_week_witness :
  ∃ lines db',
    init_schedule_handle (mk_init_options true false false true)
      (Sample.monday_at Sample.t1000) (Sample.monday_at Sample.t1000) Sample.holiday_db = inr (lines, db')
    ∧ schedules db' !! 0
      = Some (mk_schedule true (Some (mk_time 9 0 0 0)) (Some (mk_time 19 0 0 0)))
    ∧ schedules db' !! 6 = Some (mk_schedule false None None).
Proof.
  destruct (init_schedule_resets_week (mk_init_options true false false true)
              (Sample.monday_at Sample.t1000) (Sample.monday_at Sample.t1000) Sample.holiday_db)
    as [_ Hrun].
  destruct Hrun as (lines & db' & Hhandle & _ & Hs); [by right|].
  exists lines, db'. split; [done|]. by rewrite !Hs.
Defined.

(** ** The schedule page *)

(** On the cleaned data of a valid bulk form [apply_preset] never fails,
    and each row afterwards is the row before or the configuration of the
    preset on a selected day. *)
Lemma apply_preset_valid_form preset days db :
  BulkScheduleForm preset days = true →
  ∃ n db',
    apply_preset preset days db = inr (n, db')
    ∧ overrides db' = overrides db
    ∧ ∀ d, schedules db' !! d = schedules db !! d
           ∨ ∃ config s, preset_lookup preset_configs preset = Some config
                         ∧ HelpdeskSchedule_clean config = Valid
                         ∧ s ∈ days ∧ day_choice s = Some d
                         ∧ schedules db' !! d = Some config.
Proof.
  unfold BulkScheduleForm, apply_preset.
  intros [Hpreset Hdays]%andb_true_iff.
  destruct (decide (preset = EmptyString)) as [->|Hne].
  { exists 0, db. rewrite bool_decide_eq_true_2 by done. cbn [orb].
    split; [done|]. split; [done|]. by left. }
  destruct (decide (days = [])) as [->|Hsome].
  { exists 0, db. rewrite (bool_decide_eq_true_2 ([] = [])) by done. rewrite orb_true_r.
    split; [done|]. split; [done|]. by left. }
  rewrite (bool_decide_eq_false_2 (preset = EmptyString)) in * by done.
  rewrite (bool_decide_eq_false_2 (days = [])) by done. cbn [orb] in *.
  apply bool_decide_eq_true in Hpreset as [config Hconfig].
  destruct (preset_configs_valid _ _ Hconfig) as [Hvalid _].
  assert (Forall (fun s => is_Some (day_choice s)) days) as Hall.
  { apply Forall_forall. intros s Hs%list_elem_of_In.
    rewrite forallb_forall in Hdays. eapply bool_decide_eq_true_1, Hdays, Hs. }
  destruct (apply_preset_days_effect config days 0 db Hvalid Hall) as (db' & Hrun & Hov & Hlook).
  rewrite Hconfig, Hrun. eexists _, db'. split; [done|]. split; [done|].
  intros d. rewrite Hlook. case_bool_decide as Hin; [right|by left].
  apply list_elem_of_omap in Hin as (s & Hs & Hd). by exists config, s.
Qed.

(** X11. [manage_schedule] writes nothing for a caller who is not a
    system manager. For a system manager it never fails, leaves the
    overrides alone, and afterwards every weekday has a row, also on a
    plain visit of the page; rows that pass [clean] stay such; and a row
    that existed is changed only by a bulk [POST] that selects its day, to
    the configuration of the preset. *)
Theorem manage_schedule_keeps_week_complete utc_today now1 now2 who how bulk_action
    preset days db :
  let r := manage_schedule utc_today now1 now2 who how bulk_action preset days db in
  (is_system_manager who = false → r = (ToLogin, db))
  ∧ (is_system_manager who = true →
     (∀ e, r.1 ≠ ServerFault e)
     ∧ overrides r.2 = overrides db
     ∧ (∀ d, 0 ≤ d < 7 → is_Some (schedules r.2 !! d))
     ∧ (valid_table db → valid_table r.2)
     ∧ (∀ d row, schedules db !! d = Some row → schedules r.2 !! d ≠ Some row →
          how = POST ∧ bulk_action = true
          ∧ ∃ config s, preset_lookup preset_configs preset = Some config
                        ∧ s ∈ days ∧ day_choice s = Some d
                        ∧ schedules r.2 !! d = Some config)).
Proof.
  unfold manage_schedule.
  destruct (is_system_manager who); simpl; [split; [done|intros _]|by split].
  unfold initialize_default_schedule.
  destruct (initialize_from_union default_schedules db default_schedules_valid)
    as (db1 & -> & Hov1 & Hs1).
  assert (∀ d row, schedules db !! d = Some row → schedules db1 !! d = Some row) as Hkeep.
  { intros d row Hrow. rewrite Hs1, lookup_union, Hrow.
    by destruct (list_to_map default_schedules !! d). }
  assert (∀ d, 0 ≤ d < 7 → is_Some (schedules db1 !! d)) as Hfull.
  { intros d Hd. rewrite Hs1, lookup_union.
    destruct (default_row_weekday d Hd) as [row Hrow]. unfold default_row in Hrow.
    rewrite Hrow. by destruct (schedules db !! d); eexists. }
  assert (valid_table db → valid_table db1) as Hvalid1.
  { intros Hvalid d row. rewrite Hs1, lookup_union.
    destruct (schedules db !! d) as [old|] eqn:Hold.
    - destruct (list_to_map default_schedules !! d); intros [= <-]; by eapply Hvalid.
    - destruct (list_to_map default_schedules !! d) as [new|] eqn:Hnew; [|done].
      intros [= <-]. by apply (default_row_valid d). }
  assert (∀ page : ManagerResponse,
            (∀ e, page ≠ ServerFault e) →
            (∀ e, (page, db1).1 ≠ ServerFault e)
            ∧ overrides (page, db1).2 = overrides db
            ∧ (∀ d, 0 ≤ d < 7 → is_Some (schedules (page, db1).2 !! d))
            ∧ (valid_table db → valid_table (page, db1).2)
            ∧ (∀ d row, schedules db !! d = Some row →
                 schedules (page, db1).2 !! d ≠ Some row →
                 how = POST ∧ bulk_action = true
                 ∧ ∃ config s, preset_lookup preset_configs preset = Some config
                               ∧ s ∈ days ∧ day_choice s = Some d
                               ∧ schedules (page, db1).2 !! d = Some config)) as Hpage.
  { intros page Hok. simpl. split; [done|]. split; [done|]. split; [done|].
    split; [done|]. intros d row Hrow Hchanged. destruct Hchanged. by apply Hkeep. }
  destruct (is_currently_available db1 now1) as [is_available message].
  destruct (bool_decide (how = POST) && bulk_action) eqn:Hbulk; [|by apply Hpage].
  destruct (BulkScheduleForm preset days) eqn:Hform; [|by apply Hpage].
  apply andb_true_iff in Hbulk as [Hpost%bool_decide_eq_true ->].
  destruct (apply_preset_valid_form preset days db1 Hform) as (n & db2 & -> & Hov2 & Hs2).
  simpl. split; [done|]. split; [congruence|]. split; [|split].
  - intros d Hd. destruct (Hs2 d) as [->|(config & s & _ & _ & _ & _ & ->)]; [auto|by eexists].
  - intros Hvalid d row Hrow.
    destruct (Hs2 d) as [Hsame|(config & s & _ & Hclean & _ & _ & Hset)].
    + rewrite Hsame in Hrow. by eapply Hvalid1.
    + rewrite Hset in Hrow. by injection Hrow as <-.
  - intros d row Hrow Hchanged. split; [done|]. split; [done|].
    destruct (Hs2 d) as [Hsame|(config & s & Hconfig & _ & Hs & Hd & Hset)].
    + destruct Hchanged. rewrite Hsame. by apply Hkeep.
    + by exists config, s.
Qed.

Lemma manage_schedule_keeps_week_complete_witness :
  is_Some
    (schedules
       (manage_schedule Sample.monday (Sample.monday_at Sample.t1000)
          (Sample.monday_at Sample.t1000) Fixture.manager GET false EmptyString []
          Sample.no_schedule).2 !! 6).
Proof.
  apply (manage_schedule_keeps_week_complete Sample.monday (Sample.monday_at Sample.t1000)
           (Sample.monday_at Sample.t1000) Fixture.manager GET false EmptyString []
           Sample.no_schedule); [reflexivity|lia].
Defined.

(** ** What the chat views write *)

Lemma create_attachments_grows env chat_id message by_student files first db :
  message ∈ messages db → msg_chat message = chat_id →
  Grow chat_id db (create_attachments env chat_id message by_student files first db).
Proof.
  intros Hin Hchat. revert first db Hin.
  induction files as [|file files IH]; intros first db Hin; simpl.
  - constructor.
  - eapply grow_then; [|apply IH; simpl; exact Hin].
    by apply (grow_attachment chat_id db message).
Qed.

Lemma create_message_last chat_id sender sender_u body from_student kind now db :
  let r := create_message chat_id sender sender_u body from_student kind now db in
  r.2 ∈ messages r.1 ∧ msg_chat r.2 = chat_id.
Proof. simpl. split; [|done]. apply elem_of_app. right. by left. Qed.

Lemma chat_landing_effect env request db :
  Grow (generate_chat_id env (localtime env (timezone_now env 2))) db
    (chat_landing env request db).2.
Proof.
  unfold chat_landing.
  destruct (is_currently_available _ _) as [available notice].
  destruct (method request); [constructor|].
  destruct (ChatStartForm _ _) as [[name first_message]|]; [|constructor].
  destruct (sessions db !! generate_chat_id _ _) eqn:Hfree; [constructor|].
  set (chat_id := generate_chat_id _ _) in *.
  set (chat := mk_session name first_message (timezone_now env 3) WAITING _).
  assert (Grow chat_id db (save_session chat_id chat db)) as H1
    by by apply grow_new_session.
  set (db1 := save_session chat_id chat db) in *.
  assert (∀ db', sessions db' !! chat_id = Some chat →
            ∀ sender sender_u body from_student kind now,
              Grow chat_id db'
                (create_message chat_id sender sender_u body from_student kind now db').1
              ∧ sessions (create_message chat_id sender sender_u body from_student kind
                            now db').1 !! chat_id = Some chat) as Hmsg.
  { intros db' Hrow *. split; [|done]. apply grow_message. by eexists. }
  assert (sessions db1 !! chat_id = Some chat) as Hrow1 by apply lookup_insert_eq.
  cbv zeta.
  match goal with
  | |- Grow _ _ (_, if negb available then _ else ?d3).2 =>
      match d3 with
      | (create_message _ ?s3 ?u3 ?b3 ?f3 ?k3 ?n3 ?d2).1 =>
          match d2 with
          | (create_message _ ?s2 ?u2 ?b2 ?f2 ?k2 ?n2 _).1 =>
              destruct (Hmsg db1 Hrow1 s2 u2 b2 f2 k2 n2) as [H2 Hrow2];
              destruct (Hmsg d2 Hrow2 s3 u3 b3 f3 k3 n3) as [H3 Hrow3]
          end
      end
  end.
  destruct available; cbn [negb snd].
  - eapply grow_then; [exact H1|]. eapply grow_then; [exact H2|exact H3].
  - eapply grow_then; [exact H1|]. eapply grow_then; [exact H2|].
    eapply grow_then; [exact H3|]. by apply Hmsg.
Qed.

Lemma student_chat_effect env request chat_id db :
  Grow chat_id db (student_chat env request chat_id db).2.
Proof.
  unfold student_chat.
  destruct (sessions db !! chat_id) as [chat0|] eqn:Hrow; [|constructor].
  destruct (method request) eqn:Hmethod.
  - unfold student_access. rewrite Hmethod.
    destruct (bool_decide (student_session_key chat0 = _)); simpl.
    { destruct (is_currently_available _ _). constructor. }
    rewrite andb_true_r. case_bool_decide as Hempty; simpl.
    + destruct (is_currently_available _ _). simpl. by apply grow_bind_key.
    + constructor.
  - rewrite (student_access_post _ _ _ _ _ Hmethod).
    destruct (bool_decide (student_session_key chat0 = _)); cbn [negb]; [|constructor].
    destruct (is_currently_available _ _) as [available notice].
    case_bool_decide.
    + destruct (ChatMessageForm _ _) as [cleaned_content|]; [|constructor].
      case_bool_decide; [|constructor].
      pose proof (grow_message chat_id db (student_name chat0) None cleaned_content true text
                    (timezone_now env 1) (ex_intro _ chat0 Hrow)) as H1.
      pose proof (create_message_last chat_id (student_name chat0) None cleaned_content true
                    text (timezone_now env 1) db) as [Hlast Hchat].
      destruct (create_message chat_id (student_name chat0) None cleaned_content true text
                  (timezone_now env 1) db) as [db1 message] eqn:Hcreate.
      cbn [fst snd] in *.
      pose proof (create_attachments_grows env chat_id message true (FILES request) 2 db1
                    Hlast Hchat) as H2.
      destruct (create_attachments_rows env chat_id message true (FILES request) 2 db1)
        as (_ & Hs & _).
      set (db2 := create_attachments _ _ _ _ _ _ _) in *.
      assert (sessions db1 = sessions db) as Hs1 by by injection Hcreate as <- _.
      destruct (negb available && _); cbn [snd].
      * eapply grow_then; [exact H1|]. eapply grow_then; [exact H2|].
        apply grow_message. rewrite Hs, Hs1, Hrow. by eexists.
      * eapply grow_then; [exact H1|exact H2].
    + case_bool_decide; [|constructor]. cbn [snd].
      eapply grow_then; [apply (grow_status chat_id db chat0 STUDENT_LEFT Hrow); by right|].
      apply grow_message. simpl. rewrite lookup_insert_eq. by eexists.
Qed.

Lemma join_chat_effect env request chat_id db :
  Grow chat_id db (join_chat env request chat_id db).2.
Proof.
  unfold join_chat.
  destruct (user request) as [u|]; [|constructor].
  destruct (sessions db !! chat_id) as [chat|] eqn:Hrow; [|constructor].
  destruct (status chat) eqn:Hstatus; try constructor.
  - unfold add_technician. rewrite Hstatus.
    destruct (pk u) as [k|]; [|constructor].
    destruct (bool_decide (k ∈ auth_users db)); [|constructor].
    destruct (k =? 0); [constructor|].
    rewrite bool_decide_eq_true_2 by done. cbn [snd].
    eapply grow_then; [apply (grow_technician chat_id db k); by eexists|].
    eapply grow_then.
    { apply (grow_status chat_id _ chat ACTIVE); [exact Hrow|by left]. }
    apply grow_message. simpl. rewrite lookup_insert_eq. by eexists.
  - destruct (is_technician db chat_id u); [constructor|].
    destruct (pk u) as [k|]; [|constructor]. cbn [snd].
    eapply grow_then; [apply (grow_technician chat_id db k); by eexists|].
    apply grow_message. simpl. by eexists.
Qed.

Lemma technician_chat_effect env request chat_id db :
  Effect chat_id db (technician_chat env request chat_id db).2.
Proof.
  unfold technician_chat, Effect.
  destruct (user request) as [u|]; [|left; constructor].
  destruct (sessions db !! chat_id) as [chat|] eqn:Hrow; [|left; constructor].
  destruct (is_technician db chat_id u); [|left; constructor].
  cbn [negb]. cbv zeta. destruct (method request); [left; constructor|].
  case_bool_decide.
  - left. destruct (ChatMessageForm _ _) as [cleaned_content|]; [|constructor].
    case_bool_decide; [|constructor].
    pose proof (grow_message chat_id db (full_name u) (pk u) cleaned_content false text
                  (timezone_now env 0) (ex_intro _ chat Hrow)) as H1.
    pose proof (create_message_last chat_id (full_name u) (pk u) cleaned_content false
                  text (timezone_now env 0) db) as [Hlast Hchat].
    destruct (create_message chat_id (full_name u) (pk u) cleaned_content false text
                (timezone_now env 0) db) as [db1 message].
    cbn [fst snd] in *.
    eapply grow_then; [exact H1|]. by apply create_attachments_grows.
  - case_bool_decide; [|left; constructor]. right. by exists chat.
Qed.

(** Every operation writes for one chat, the one its URL names if it
    names one, or closes that chat. *)
Lemma run_effect env op db :
  ∃ chat_id, Effect chat_id db (run env op db) ∧ ∀ c, targets op c → c = chat_id.
Proof.
  destruct op as [request|request chat_id|request chat_id|request chat_id
                  |request chat_id|days dry_run]; simpl.
  - exists (generate_chat_id env (localtime env (timezone_now env 2))).
    split; [left; apply chat_landing_effect|done].
  - exists chat_id. split; [left; apply student_chat_effect|done].
  - exists chat_id. split; [left; apply join_chat_effect|done].
  - exists chat_id. split; [apply technician_chat_effect|done].
  - exists chat_id. split; [left|done]. unfold chat_messages_api.
    destruct (method request); [|constructor].
    destruct (sessions db !! chat_id); [|constructor]. destruct (negb _); constructor.
  - exists EmptyString. split; [left|done].
    destruct (handle_raises env days dry_run db) as [-> | ->]; constructor.
Qed.

(** ** What the writes keep *)

Lemma status_step_trans a b c : status_step a b → status_step b c → status_step a c.
Proof.
  unfold status_step. intros [->|[[-> ->]| ->]] [->|[[H ->]| ->]]; auto; try done.
Qed.

Lemma status_step_open a b : status_step a b → a ≠ CLOSED → b ≠ CLOSED.
Proof. unfold status_step. intros [->|[[-> ->]| ->]]; done. Qed.

Lemma is_Some_insert (m : gmap string ChatSession) i j x :
  is_Some (m !! i) → is_Some (<[j := x]> m !! i).
Proof.
  intros Hi. destruct (decide (j = i)) as [->|Hne].
  - rewrite lookup_insert_eq. by eexists.
  - by rewrite lookup_insert_ne.
Qed.

(** A saved row that keeps the fixed columns and steps the status. *)
Lemma save_session_step chat_id old new db :
  sessions db !! chat_id = Some old →
  student_name new = student_name old → initial_message new = initial_message old →
  created_at new = created_at old → status_step (status old) (status new) →
  (∀ c0 c, sessions db !! c0 = Some c →
     ∃ c', sessions (save_session chat_id new db) !! c0 = Some c'
           ∧ student_name c' = student_name c ∧ initial_message c' = initial_message c
           ∧ created_at c' = created_at c ∧ status_step (status c) (status c')
           ∧ (c0 ≠ chat_id → c' = c))
  ∧ (∀ c0 c', sessions db !! c0 = None →
       sessions (save_session chat_id new db) !! c0 = Some c' →
       c0 = chat_id ∧ status c' ≠ CLOSED).
Proof.
  intros Hold Hname Hfirst Hcreated Hstep. simpl. split.
  - intros c0 c Hc. destruct (decide (chat_id = c0)) as [<-|Hne].
    + rewrite lookup_insert_eq. exists new. rewrite Hold in Hc. injection Hc as <-.
      by repeat split.
    + rewrite lookup_insert_ne by done. exists c. repeat split; try done. by left.
  - intros c0 c' Hnone. destruct (decide (chat_id = c0)) as [<-|Hne]; [congruence|].
    rewrite lookup_insert_ne by done. congruence.
Qed.

Lemma same_sessions_step chat_id db db' :
  sessions db' = sessions db →
  (∀ c0 c, sessions db !! c0 = Some c →
     ∃ c', sessions db' !! c0 = Some c'
           ∧ student_name c' = student_name c ∧ initial_message c' = initial_message c
           ∧ created_at c' = created_at c ∧ status_step (status c) (status c')
           ∧ (c0 ≠ chat_id → c' = c))
  ∧ (∀ c0 c', sessions db !! c0 = None → sessions db' !! c0 = Some c' →
       c0 = chat_id ∧ status c' ≠ CLOSED).
Proof.
  intros ->. split; [|congruence].
  intros c0 c Hc. exists c. repeat split; try done. by left.
Qed.

(** The session rows across writes: no row goes, the fixed columns stay,
    the status moves by its steps, and a row that appears is the one of
    the chat written for and is not closed. *)
Lemma Grow_sessions chat_id db db' :
  Grow chat_id db db' →
  (∀ c0 c, sessions db !! c0 = Some c →
     ∃ c', sessions db' !! c0 = Some c'
           ∧ student_name c' = student_name c ∧ initial_message c' = initial_message c
           ∧ created_at c' = created_at c ∧ status_step (status c) (status c')
           ∧ (c0 ≠ chat_id → c' = c))
  ∧ (∀ c0 c', sessions db !! c0 = None → sessions db' !! c0 = Some c' →
       c0 = chat_id ∧ status c' ≠ CLOSED).
Proof.
  induction 1 as [db|db c Hfree Hwaiting|db c k Hrow Hkey|db c st Hrow Hst
                  |db sender sender_u body from_student kind now Hrow
                  |db m name uploaded by_student size mime Hm Hchat|db k Hrow
                  |db1 db2 db3 _ [IH1 IH1'] _ [IH2 IH2']].
  - by apply same_sessions_step.
  - simpl. split.
    + intros c0 c1 Hc. destruct (decide (chat_id = c0)) as [<-|Hne]; [congruence|].
      rewrite lookup_insert_ne by done. exists c1. repeat split; try done. by left.
    + intros c0 c' Hnone. destruct (decide (chat_id = c0)) as [<-|Hne].
      * rewrite lookup_insert_eq. intros [= <-]. split; [done|]. by rewrite Hwaiting.
      * rewrite lookup_insert_ne by done. congruence.
  - apply (save_session_step chat_id c); try done. by left.
  - apply (save_session_step chat_id c); try done. simpl. unfold status_step.
    destruct Hst as [[-> ->]| ->]; auto.
  - by apply same_sessions_step.
  - by apply same_sessions_step.
  - by apply same_sessions_step.
  - split.
    + intros c0 c Hc.
      destruct (IH1 c0 c Hc) as (c1 & Hc1 & Hn1 & Hf1 & Hd1 & Hs1 & He1).
      destruct (IH2 c0 c1 Hc1) as (c2 & Hc2 & Hn2 & Hf2 & Hd2 & Hs2 & He2).
      exists c2. split; [done|]. split; [congruence|]. split; [congruence|].
      split; [congruence|]. split; [by eapply status_step_trans|].
      intros Hne. rewrite (He2 Hne). by apply He1.
    + intros c0 c' Hnone Hc'. destruct (sessions db2 !! c0) as [c1|] eqn:Hc1.
      * destruct (IH1' c0 c1 Hnone Hc1) as [-> Hopen]. split; [done|].
        destruct (IH2 _ c1 Hc1) as (c2 & Hc2 & _ & _ & _ & Hstep & _).
        rewrite Hc2 in Hc'. injection Hc' as <-. by eapply status_step_open.
      * by apply IH2'.
Qed.

(** The other tables across writes: rows are added at the end, for the
    chat written for. *)
Lemma Grow_tables chat_id db db' :
  Grow chat_id db db' →
  sched db' = sched db ∧ auth_users db' = auth_users db
  ∧ next_message_id db ≤ next_message_id db'
  ∧ (∃ new, messages db' = messages db ++ new
            ∧ Forall (fun m => msg_chat m = chat_id) new)
  ∧ (∃ new, attachments db' = attachments db ++ new
            ∧ Forall (fun a => att_chat a = chat_id) new)
  ∧ (∀ p, p ∈ session_technicians db → p ∈ session_technicians db')
  ∧ (∀ p, p ∈ session_technicians db' → p ∈ session_technicians db ∨ p.1 = chat_id).
Proof.
  assert (∀ db db' : DB,
            sched db' = sched db → auth_users db' = auth_users db →
            next_message_id db' = next_message_id db → messages db' = messages db →
            attachments db' = attachments db →
            session_technicians db' = session_technicians db →
            sched db' = sched db ∧ auth_users db' = auth_users db
            ∧ next_message_id db ≤ next_message_id db'
            ∧ (∃ new, messages db' = messages db ++ new
                      ∧ Forall (fun m => msg_chat m = chat_id) new)
            ∧ (∃ new, attachments db' = attachments db ++ new
                      ∧ Forall (fun a => att_chat a = chat_id) new)
            ∧ (∀ p, p ∈ session_technicians db → p ∈ session_technicians db')
            ∧ (∀ p, p ∈ session_technicians db' →
                    p ∈ session_technicians db ∨ p.1 = chat_id)) as Hsame.
  { intros d d' -> -> Hn -> -> ->. split; [done|]. split; [done|]. split; [lia|].
    split; [exists []; by rewrite app_nil_r|]. split; [exists []; by rewrite app_nil_r|].
    split; auto. }
  induction 1 as [db|db c Hfree Hwaiting|db c k Hrow Hkey|db c st Hrow Hst
                  |db sender sender_u body from_student kind now Hrow
                  |db m name uploaded by_student size mime Hm Hchat|db k Hrow
                  |db1 db2 db3 _ IH1 _ IH2]; try by apply Hsame.
  - simpl. split; [done|]. split; [done|]. split; [lia|].
    split; [eexists; split; [done|by repeat constructor]|].
    split; [exists []; by rewrite app_nil_r|]. split; auto.
  - simpl. split; [done|]. split; [done|]. split; [lia|].
    split; [exists []; by rewrite app_nil_r|].
    split; [eexists; split; [done|by repeat constructor]|]. split; auto.
  - simpl. split; [done|]. split; [done|]. split; [lia|].
    split; [exists []; by rewrite app_nil_r|]. split; [exists []; by rewrite app_nil_r|].
    split.
    + intros p Hp. apply elem_of_union. by right.
    + intros p [->%elem_of_singleton|Hp]%elem_of_union; [by right|by left].
  - destruct IH1 as (Hsc1 & Hu1 & Hn1 & (m1 & Hm1 & Hf1) & (a1 & Ha1 & Hg1) & Ht1 & Ht1').
    destruct IH2 as (Hsc2 & Hu2 & Hn2 & (m2 & Hm2 & Hf2) & (a2 & Ha2 & Hg2) & Ht2 & Ht2').
    split; [congruence|]. split; [congruence|]. split; [lia|].
    split. { exists (m1 ++ m2). rewrite Hm2, Hm1, <- app_assoc. split; [done|].
             by apply Forall_app. }
    split. { exists (a1 ++ a2). rewrite Ha2, Ha1, <- app_assoc. split; [done|].
             by apply Forall_app. }
    split; [auto|]. intros p Hp. destruct (Ht2' p Hp); auto.
Qed.

Lemma consistent_save_session chat_id c db :
  consistent db → consistent (save_session chat_id c db).
Proof.
  intros (Hm & Hid & Ha & Ht). split; [|split; [done|split; [done|]]]; simpl.
  - intros m Hin. destruct (Hm m Hin). split; [by apply is_Some_insert|done].
  - intros c0 k Hin. apply is_Some_insert. by eapply Ht.
Qed.

Lemma Grow_consistent chat_id db db' : Grow chat_id db db' → consistent db → consistent db'.
Proof.
  induction 1 as [db|db c Hfree Hwaiting|db c k Hrow Hkey|db c st Hrow Hst
                  |db sender sender_u body from_student kind now Hrow
                  |db m name uploaded by_student size mime Hm Hchat|db k Hrow
                  |db1 db2 db3 _ IH1 _ IH2]; auto using consistent_save_session.
  - intros (Hm & Hid & Ha & Ht). split; [|split; [|split; [|done]]]; simpl.
    + intros m [Hin| ->%list_elem_of_singleton]%elem_of_app.
      * destruct (Hm m Hin). split; [done|lia].
      * simpl. split; [done|lia].
    + rewrite fmap_app. apply NoDup_app. split; [done|]. split; [|apply NoDup_singleton].
      intros x Hx Hnew. apply list_elem_of_fmap in Hx as [m [Heq Hin]].
      apply list_elem_of_singleton in Hnew. simpl in Hnew.
      destruct (Hm m Hin). lia.
    + intros a Hin. destruct (Ha a Hin) as (m & Hin' & Hlink). exists m.
      split; [|done]. apply elem_of_app. by left.
  - intros (Hmsg & Hid & Ha & Ht). split; [done|split; [done|split; [|done]]]; simpl.
    intros a [Hin| ->%list_elem_of_singleton]%elem_of_app; [by apply Ha|].
    by exists m.
  - intros (Hmsg & Hid & Ha & Ht). split; [done|split; [done|split; [done|]]]; simpl.
    intros c0 k0 [Hin%elem_of_singleton|Hin]%elem_of_union; [|by eapply Ht].
    by injection Hin as -> ->.
Qed.

(** ** What closing a chat removes *)

Lemma list_filter_absorb {A} (P Q : A → Prop) `{∀ x, Decision (P x)} `{∀ x, Decision (Q x)}
    (l : list A) :
  (∀ x, x ∈ l → P x → Q x) → filter P (filter Q l) = filter P l.
Proof.
  induction l as [|x l IH]; [done|]. intros Himp.
  assert (filter P (filter Q l) = filter P l) as IH'.
  { apply IH. intros y Hy. apply Himp. by right. }
  rewrite (filter_cons Q). destruct (decide (Q x)) as [Hq|Hq].
  - rewrite !filter_cons. by rewrite IH'.
  - rewrite IH', filter_cons. rewrite decide_False; [done|].
    intros Hp. apply Hq, Himp; [by left|done].
Qed.

Lemma list_filter_twice {A} (P : A → Prop) `{∀ x, Decision (P x)} (l : list A) :
  filter P (filter P l) = filter P l.
Proof. by apply list_filter_absorb. Qed.

Lemma close_chat_sessions chat_id chat db c0 :
  sessions (close_chat chat_id chat db) !! c0
  = if decide (c0 = chat_id) then None else sessions db !! c0.
Proof.
  simpl. destruct (decide (c0 = chat_id)) as [->|Hne].
  - apply lookup_delete_eq.
  - by rewrite lookup_delete_ne, lookup_insert_ne.
Qed.

Lemma close_chat_messages chat_id chat db :
  messages (close_chat chat_id chat db)
  = filter (fun m => msg_chat m ≠ chat_id) (messages db).
Proof. simpl. apply list_filter_twice. Qed.

Lemma close_chat_technicians chat_id chat db :
  session_technicians (close_chat chat_id chat db)
  = filter (fun p => p.1 ≠ chat_id) (session_technicians db).
Proof. done. Qed.

Lemma close_chat_frame chat_id chat db :
  sched (close_chat chat_id chat db) = sched db
  ∧ auth_users (close_chat chat_id chat db) = auth_users db
  ∧ next_message_id (close_chat chat_id chat db) = next_message_id db.
Proof. done. Qed.

(** The attachments left after a chat is closed were there before and
    are not of that chat. *)
Lemma close_chat_attachments_in chat_id chat db a :
  a ∈ attachments (close_chat chat_id chat db) →
  a ∈ attachments db ∧ att_chat a ≠ chat_id.
Proof.
  simpl. rewrite !list_elem_of_filter. tauto.
Qed.

Lemma NoDup_fmap_eq {A B} (f : A → B) (l : list A) x y :
  NoDup (f <$> l) → x ∈ l → y ∈ l → f x = f y → x = y.
Proof.
  induction l as [|z l IH]; [by intros _ ?%elem_of_nil|].
  rewrite fmap_cons, NoDup_cons. intros [Hz Hnd] Hx Hy Heq.
  apply elem_of_cons in Hx as [->|Hx]; apply elem_of_cons in Hy as [->|Hy]; auto.
  - destruct Hz. rewrite Heq. by apply list_elem_of_fmap_2.
  - destruct Hz. rewrite <- Heq. by apply list_elem_of_fmap_2.
Qed.

(** In a consistent database the attachments of the other chats stay, in
    their order. *)
Lemma close_chat_attachments_other chat_id chat db c0 :
  consistent db → c0 ≠ chat_id →
  chat_attachments (close_chat chat_id chat db) c0 = chat_attachments db c0.
Proof.
  intros (Hm & Hid & Ha & Ht) Hne. unfold chat_attachments. simpl.
  assert (∀ a, a ∈ attachments db → att_chat a = c0 →
               att_message a ∉ msg_id <$> filter (fun m => msg_chat m = chat_id) (messages db))
    as Hkept.
  { intros a Hin Hchat [m [Hidm [Hmc Hmin]%list_elem_of_filter]]%list_elem_of_fmap.
    destruct (Ha a Hin) as (m' & Hin' & Hid' & Hchat').
    assert (m' = m) as -> by (eapply (NoDup_fmap_eq msg_id); [done..|congruence]).
    congruence. }
  repeat (rewrite list_filter_absorb;
          [|intros a; rewrite ?list_elem_of_filter; intros Hin Hchat]).
  - done.
  - congruence.
  - apply Hkept; [tauto|done].
  - congruence.
  - congruence.
  - intros [m [Hidm [Hmc [Hne' _]%list_elem_of_filter]%list_elem_of_filter]]%list_elem_of_fmap.
    done.
  - congruence.
Qed.

Lemma close_chat_rows_other chat_id chat db c0 :
  c0 ≠ chat_id → chat_rows (close_chat chat_id chat db) c0 = chat_rows db c0.
Proof.
  intros Hne. unfold chat_rows. rewrite close_chat_messages.
  apply list_filter_absorb. intros m _. congruence.
Qed.

Lemma close_chat_technicians_other chat_id chat db c0 :
  c0 ≠ chat_id → technicians (close_chat chat_id chat db) c0 = technicians db c0.
Proof.
  intros Hne. unfold technicians. rewrite close_chat_technicians.
  apply set_eq. intros x. rewrite !elem_of_map. split.
  - intros [p [-> [Hc [_ Hin]%elem_of_filter]%elem_of_filter]]. exists p.
    split; [done|]. by apply elem_of_filter.
  - intros [p [-> [Hc Hin]%elem_of_filter]]. exists p. split; [done|].
    apply elem_of_filter. split; [done|]. apply elem_of_filter. split; [congruence|done].
Qed.

Lemma close_chat_consistent chat_id chat db :
  consistent db → consistent (close_chat chat_id chat db).
Proof.
  intros Hcons. pose proof Hcons as (Hm & Hid & Ha & Ht).
  split; [|split; [|split]].
  - intros m. rewrite close_chat_messages. intros [Hne Hin]%list_elem_of_filter.
    destruct (Hm m Hin) as [Hrow Hlt]. rewrite close_chat_sessions.
    rewrite decide_False by done. done.
  - rewrite close_chat_messages. eapply sublist_NoDup; [exact Hid|].
    apply fmap_sublist, sublist_filter.
  - intros a [Hin Hne]%close_chat_attachments_in.
    destruct (Ha a Hin) as (m & Hin' & Hidm & Hchat). exists m.
    rewrite close_chat_messages. split; [|done].
    apply list_elem_of_filter. split; [congruence|done].
  - intros c0 k. rewrite close_chat_technicians. intros [Hne Hin]%elem_of_filter.
    rewrite close_chat_sessions, decide_False by done. by eapply Ht.
Qed.

(** Every operation keeps the database consistent. *)
Lemma Effect_consistent chat_id db db' : Effect chat_id db db' → consistent db → consistent db'.
Proof.
  intros [Hgrow|(chat & _ & ->)]; [by eapply Grow_consistent|apply close_chat_consistent].
Qed.

Lemma filter_none {A} (P : A → Prop) `{∀ x, Decision (P x)} (l : list A) :
  (∀ x, x ∈ l → ¬ P x) → filter P l = [].
Proof.
  intros Hnone. destruct (filter P l) as [|x rest] eqn:Hfilter; [done|].
  assert (x ∈ filter P l) as [Hp Hin]%list_elem_of_filter by (rewrite Hfilter; left).
  by destruct (Hnone x Hin).
Qed.

(** Across writes for one chat every chat keeps its rows, with new rows
    at the end, and the other chats are as they were. *)
Lemma Grow_rows chat_id db db' c0 :
  Grow chat_id db db' →
  chat_rows db c0 `prefix_of` chat_rows db' c0
  ∧ chat_attachments db c0 `prefix_of` chat_attachments db' c0
  ∧ technicians db c0 ⊆ technicians db' c0
  ∧ (c0 ≠ chat_id →
     sessions db' !! c0 = sessions db !! c0
     ∧ chat_rows db' c0 = chat_rows db c0
     ∧ chat_attachments db' c0 = chat_attachments db c0
     ∧ technicians db' c0 = technicians db c0).
Proof.
  intros Hgrow.
  destruct (Grow_tables _ _ _ Hgrow)
    as (_ & _ & _ & (ms & Hms & Hmchat) & (ats & Hats & Hachat) & Hsub & Hsup).
  destruct (Grow_sessions _ _ _ Hgrow) as [Hkeep Hnew].
  unfold chat_rows, chat_attachments. rewrite Hms, Hats, !filter_app.
  assert (technicians db c0 ⊆ technicians db' c0) as Htech.
  { unfold technicians. intros k. rewrite !elem_of_map.
    intros [p [-> [Hc Hin]%elem_of_filter]]. exists p. split; [done|].
    apply elem_of_filter. auto. }
  split; [by apply prefix_app_r|]. split; [by apply prefix_app_r|]. split; [done|].
  intros Hne. split; [|split; [|split]].
  - destruct (sessions db !! c0) as [c|] eqn:Hc.
    + destruct (Hkeep c0 c Hc) as (c' & -> & _ & _ & _ & _ & Hsame). by rewrite Hsame.
    + destruct (sessions db' !! c0) as [c'|] eqn:Hc'; [|done].
      by destruct (Hnew c0 c' Hc Hc').
  - rewrite (filter_none _ ms), app_nil_r; [done|].
    rewrite Forall_forall in Hmchat. intros m Hin. rewrite (Hmchat m Hin). congruence.
  - rewrite (filter_none _ ats), app_nil_r; [done|].
    rewrite Forall_forall in Hachat. intros a Hin. rewrite (Hachat a Hin). congruence.
  - apply set_eq. intros k. split; [|apply Htech].
    unfold technicians. rewrite !elem_of_map.
    intros [p [-> [Hc Hin]%elem_of_filter]]. exists p. split; [done|].
    apply elem_of_filter. split; [done|]. destruct (Hsup p Hin) as [|Hp]; [done|congruence].
Qed.

(** The session rows across one operation. *)
Lemma Effect_sessions chat_id db db' c0 :
  Effect chat_id db db' →
  (∀ c c', sessions db !! c0 = Some c → sessions db' !! c0 = Some c' →
     student_name c' = student_name c ∧ initial_message c' = initial_message c
     ∧ created_at c' = created_at c ∧ status_step (status c) (status c'))
  ∧ (∀ c', sessions db !! c0 = None → sessions db' !! c0 = Some c' → status c' ≠ CLOSED).
Proof.
  intros [Hgrow|(chat & Hrow & ->)].
  - destruct (Grow_sessions _ _ _ Hgrow) as [Hkeep Hnew]. split.
    + intros c c' Hc Hc'. destruct (Hkeep c0 c Hc) as (c1 & Hc1 & Hrest).
      rewrite Hc1 in Hc'. injection Hc' as <-. tauto.
    + intros c' Hnone Hc'. by destruct (Hnew c0 c' Hnone Hc').
  - rewrite close_chat_sessions. destruct (decide (c0 = chat_id)); [done|]. split.
    + intros c c' -> [= <-]. repeat split. by left.
    + congruence.
Qed.

(** X12. Across any operation a session that stays in the table keeps
    its student name, first message and creation time, and its status
    stays, goes from [WAITING] to [ACTIVE], or becomes [STUDENT_LEFT]: a
    chat is never put back to waiting, and one the student has left is
    never made active again. *)
Theorem session_rows_evolve env op db chat_id c c' :
  sessions db !! chat_id = Some c →
  sessions (run env op db) !! chat_id = Some c' →
  student_name c' = student_name c ∧ initial_message c' = initial_message c
  ∧ created_at c' = created_at c ∧ status_step (status c) (status c').
Proof.
  destruct (run_effect env op db) as (target & Heffect & _).
  apply (Effect_sessions target db (run env op db) chat_id Heffect).
Qed.

Lemma session_rows_evolve_witness :
  ∃ c', sessions (run Sample.env (OpJoinChat Sample.alice_joins "CHAT-20251201090000-AB12")
                    Sample.one_chat_db) !! "CHAT-20251201090000-AB12" = Some c'
        ∧ status_step (status Sample.waiting_chat) (status c')
        ∧ status c' = ACTIVE.
Proof.
  eexists. split; [by vm_compute|]. split; [|reflexivity].
  eapply (session_rows_evolve Sample.env
            (OpJoinChat Sample.alice_joins "CHAT-20251201090000-AB12") Sample.one_chat_db
            "CHAT-20251201090000-AB12" Sample.waiting_chat); by vm_compute.
Defined.

Lemma run_all_cons eo ops db : run_all (eo :: ops) db = run_all ops (run eo.1 eo.2 db).
Proof. done. Qed.

(** X13. No sequence of operations leaves a session with status
    [CLOSED] in a table that had none, so the query of the cleanup
    command, sessions with status [CLOSED] created before a cutoff, finds
    nothing whatever the cutoff is. *)
Theorem closed_never_stored ops db :
  (∀ chat_id c, sessions db !! chat_id = Some c → status c ≠ CLOSED) →
  (∀ chat_id c, sessions (run_all ops db) !! chat_id = Some c → status c ≠ CLOSED)
  ∧ ∀ cutoff, old_chats_query CLOSED cutoff (run_all ops db) = [].
Proof.
  intros Hopen.
  assert (∀ chat_id c, sessions (run_all ops db) !! chat_id = Some c → status c ≠ CLOSED)
    as Hall.
  { revert db Hopen. induction ops as [|[env op] ops IH]; intros db Hopen; [done|].
    rewrite run_all_cons. apply IH. simpl. intros chat_id c' Hc'.
    destruct (run_effect env op db) as (target & Heffect & _).
    destruct (Effect_sessions target db (run env op db) chat_id Heffect) as [Hkeep Hnew].
    destruct (sessions db !! chat_id) as [c|] eqn:Hc.
    - destruct (Hkeep c c' eq_refl Hc') as (_ & _ & _ & Hstep).
      eapply status_step_open; [exact Hstep|by eapply Hopen].
    - by apply Hnew. }
  split; [done|]. intros cutoff. unfold old_chats_query. apply filter_none.
  intros [chat_id c] Hin%elem_of_map_to_list [Hclosed _]. by apply (Hall chat_id c).
Qed.

Lemma closed_never_stored_witness :
  old_chats_query CLOSED (Sample.monday_at Sample.t1000)
    (run_all [(Sample.env, OpJoinChat Sample.alice_joins "CHAT-20251201090000-AB12");
              (Sample.env, OpTechnicianChat Sample.alice_closes "CHAT-20251201090000-AB12")]
       Sample.one_chat_db) = [].
Proof.
  apply (closed_never_stored
           [(Sample.env, OpJoinChat Sample.alice_joins "CHAT-20251201090000-AB12");
            (Sample.env, OpTechnicianChat Sample.alice_closes "CHAT-20251201090000-AB12")]
           Sample.one_chat_db).
  intros chat_id c Hc. simpl in Hc.
  apply lookup_singleton_Some in Hc as [_ <-]. discriminate.
Defined.

Lemma consistent_one_chat : consistent Sample.one_chat_db.
Proof.
  split; [|split; [|split]]; simpl.
  - intros m Hin. repeat (apply elem_of_cons in Hin as [->|Hin]);
      [| |by apply elem_of_nil in Hin]; simpl; (split; [|lia]);
      rewrite lookup_singleton_eq; by eexists.
  - repeat (apply NoDup_cons; split; [rewrite ?elem_of_cons, ?elem_of_nil; intuition lia|]).
    apply NoDup_nil_2.
  - intros a Hin. apply list_elem_of_singleton in Hin as ->. eexists. split; [right; left|done].
  - intros chat_id k Hin. by apply elem_of_empty in Hin.
Qed.

(** X14. Every sequence of operations keeps the chat tables consistent:
    each message, attachment and technician link belongs to a session of
    the table, message ids stay distinct and below the next id, and each
    attachment hangs on a message of its own chat. *)
Theorem consistent_preserved ops db : consistent db → consistent (run_all ops db).
Proof.
  revert db. induction ops as [|[env op] ops IH]; intros db Hcons; [done|].
  rewrite run_all_cons. apply IH. simpl.
  destruct (run_effect env op db) as (target & Heffect & _).
  by eapply Effect_consistent.
Qed.

Lemma consistent_preserved_witness :
  consistent
    (run_all [(Sample.env, OpStudentChat (Sample.student_sends (Sample.files_of 2 "a.png" 10))
                             "CHAT-20251201090000-AB12");
              (Sample.env, OpJoinChat Sample.alice_joins "CHAT-20251201090000-AB12")]
       Sample.one_chat_db).
Proof.
  apply (consistent_preserved
           [(Sample.env, OpStudentChat (Sample.student_sends (Sample.files_of 2 "a.png" 10))
                           "CHAT-20251201090000-AB12");
            (Sample.env, OpJoinChat Sample.alice_joins "CHAT-20251201090000-AB12")]
           Sample.one_chat_db).
  exact consistent_one_chat.
Defined.

(** X15. While a chat has its session row, no operation removes or
    reorders what it holds: in a consistent database the message rows and
    the attachment rows of the chat before the operation are a prefix of
    those after it, and its technicians are still its technicians. *)
Theorem history_kept env op db chat_id :
  consistent db →
  is_Some (sessions (run env op db) !! chat_id) →
  chat_rows db chat_id `prefix_of` chat_rows (run env op db) chat_id
  ∧ chat_attachments db chat_id `prefix_of` chat_attachments (run env op db) chat_id
  ∧ technicians db chat_id ⊆ technicians (run env op db) chat_id.
Proof.
  intros Hcons Hrow.
  destruct (run_effect env op db) as (target & [Hgrow|(chat & Hchat & Hclose)] & _).
  - destruct (Grow_rows target db (run env op db) chat_id Hgrow) as (? & ? & ? & _). done.
  - rewrite Hclose in *. rewrite close_chat_sessions in Hrow.
    destruct (decide (chat_id = target)) as [->|Hne]; [by destruct Hrow|].
    rewrite close_chat_rows_other, close_chat_attachments_other,
      close_chat_technicians_other by done.
    done.
Qed.

Lemma history_kept_witness :
  chat_rows Sample.one_chat_db "CHAT-20251201090000-AB12"
  `prefix_of`
  chat_rows (run Sample.env
               (OpStudentChat (Sample.student_sends []) "CHAT-20251201090000-AB12")
               Sample.one_chat_db) "CHAT-20251201090000-AB12".
Proof.
  apply (history_kept Sample.env
           (OpStudentChat (Sample.student_sends []) "CHAT-20251201090000-AB12")
           Sample.one_chat_db "CHAT-20251201090000-AB12").
  - exact consistent_one_chat.
  - eexists. by vm_compute.
Defined.

(** Starting a chat writes nothing when the generated id is taken. *)
Lemma chat_landing_taken env request db :
  is_Some (sessions db !! generate_chat_id env (localtime env (timezone_now env 2))) →
  (chat_landing env request db).2 = db.
Proof.
  intros [c Hc]. unfold chat_landing.
  destruct (is_currently_available _ _) as [available notice].
  destruct (method request); [done|].
  destruct (ChatStartForm _ _) as [[name first_message]|]; [|done]. by rewrite Hc.
Qed.

(** X16. An operation on one chat leaves every other chat as it was, in
    a consistent database: the session row, the message rows, the
    attachment rows and the technicians of the other chat are unchanged,
    also when the operation closes its chat. Starting a chat leaves every
    chat that exists as it was. *)
Theorem other_chats_untouched env op db chat_id other :
  consistent db →
  targets op chat_id ∧ other ≠ chat_id
  ∨ (∃ request, op = OpChatLanding request) ∧ is_Some (sessions db !! other) →
  sessions (run env op db) !! other = sessions db !! other
  ∧ chat_rows (run env op db) other = chat_rows db other
  ∧ chat_attachments (run env op db) other = chat_attachments db other
  ∧ technicians (run env op db) other = technicians db other.
Proof.
  intros Hcons Hcase.
  assert (∀ target, Effect target db (run env op db) → other ≠ target →
            sessions (run env op db) !! other = sessions db !! other
            ∧ chat_rows (run env op db) other = chat_rows db other
            ∧ chat_attachments (run env op db) other = chat_attachments db other
            ∧ technicians (run env op db) other = technicians db other) as Hother.
  { intros target [Hgrow|(chat & Hchat & ->)] Hne.
    - destruct (Grow_rows target db (run env op db) other Hgrow) as (_ & _ & _ & Hsame).
      by apply Hsame.
    - rewrite close_chat_sessions, decide_False by done.
      by rewrite close_chat_rows_other, close_chat_attachments_other,
           close_chat_technicians_other. }
  destruct Hcase as [[Htarget Hne]|[[request ->] Hrow]].
  - destruct (run_effect env op db) as (target & Heffect & Hnamed).
    apply (Hother target Heffect). by rewrite <- (Hnamed chat_id Htarget).
  - destruct (decide (other = generate_chat_id env (localtime env (timezone_now env 2))))
      as [->|Hne].
    + simpl. by rewrite (chat_landing_taken env request db Hrow).
    + apply (Hother (generate_chat_id env (localtime env (timezone_now env 2)))); [|done].
      left. apply chat_landing_effect.
Qed.

Lemma other_chats_untouched_witness :
  chat_rows (run Sample.env (OpChatLanding Sample.start_request) Sample.one_chat_db)
    "CHAT-20251201090000-AB12"
  = chat_rows Sample.one_chat_db "CHAT-20251201090000-AB12".
Proof.
  apply (other_chats_untouched Sample.env (OpChatLanding Sample.start_request)
           Sample.one_chat_db EmptyString "CHAT-20251201090000-AB12").
  - exact consistent_one_chat.
  - right. split; [by eexists|]. eexists. by vm_compute.
Defined.

(** ** Who may write *)

(** X17. An operation whose request carries ASCII texts and file names
    changes the database only when its caller may write: starting a chat
    needs a valid form; [student_chat] writes only
    on a [GET] for a chat without student key, which it binds, or on a
    [POST] of the holder of the key, to leave or to send a valid message
    to a chat not left; [join_chat] writes only for a logged-in user with
    a pk on a waiting chat or an active one that the user has not joined;
    [technician_chat] writes only on a [POST] of a technician of the chat,
    to close it or to send a valid message to an active chat;
    [chat_messages_api] and the cleanup command never write. *)
Theorem writes_are_authorised env op db :
  ascii_operation op = true →
  run env op db ≠ db →
  match op with
  | OpChatLanding request =>
      method request = POST
      ∧ is_Some (ChatStartForm (post_student_name request) (post_initial_message request))
  | OpStudentChat request chat_id =>
      ∃ chat,
        sessions db !! chat_id = Some chat
        ∧ ((method request = GET ∧ student_session_key chat = EmptyString)
           ∨ (method request = POST
              ∧ student_session_key chat = ensure_session_key env request
              ∧ (post_action request = "leave_chat"
                 ∨ (post_action request = "send_message" ∧ status chat ≠ STUDENT_LEFT
                    ∧ is_Some (ChatMessageForm (post_content request) (FILES request))))))
  | OpJoinChat request chat_id =>
      ∃ u chat,
        user request = Some u ∧ is_Some (pk u) ∧ sessions db !! chat_id = Some chat
        ∧ (status chat = WAITING
           ∨ (status chat = ACTIVE ∧ is_technician db chat_id u = false))
  | OpTechnicianChat request chat_id =>
      ∃ u chat,
        user request = Some u ∧ sessions db !! chat_id = Some chat
        ∧ is_technician db chat_id u = true ∧ method request = POST
        ∧ (post_action request = "close_chat"
           ∨ (post_action request = "send_message" ∧ status chat = ACTIVE
              ∧ is_Some (ChatMessageForm (post_content request) (FILES request))))
  | OpChatMessagesApi _ _ | OpCleanupOldChats _ _ => False
  end.
Proof.
  intros _.
  destruct op as [request|request chat_id|request chat_id|request chat_id
                  |request chat_id|days dry_run]; simpl.
  - unfold chat_landing.
    destruct (is_currently_available _ _) as [available notice].
    destruct (method request); [unchanged|].
    destruct (ChatStartForm _ _) as [[name first_message]|]; [|unchanged].
    intros _. split; [done|by eexists].
  - unfold student_chat.
    destruct (sessions db !! chat_id) as [chat0|] eqn:Hrow; [|unchanged].
    destruct (method request) eqn:Hmethod.
    + unfold student_access. rewrite Hmethod.
      destruct (bool_decide (student_session_key chat0 = _)); simpl.
      { destruct (is_currently_available _ _). unchanged. }
      rewrite andb_true_r. case_bool_decide as Hempty; simpl.
      * destruct (is_currently_available _ _). intros _. exists chat0. split; [done|by left].
      * unchanged.
    + rewrite (student_access_post _ _ _ _ _ Hmethod).
      case_bool_decide as Hkey; cbn [negb]; [|unchanged].
      destruct (is_currently_available _ _) as [available notice].
      case_bool_decide as Hsend.
      * destruct (ChatMessageForm _ _) as [cleaned_content|] eqn:Hform; [|unchanged].
        case_bool_decide as Hleft; [|unchanged].
        intros _. exists chat0. split; [done|]. right. split; [done|]. split; [done|].
        right. split; [done|]. split; [done|]. by eexists.
      * case_bool_decide as Hleave; [|unchanged].
        intros _. exists chat0. split; [done|]. right. split; [done|]. split; [done|].
        by left.
  - unfold join_chat.
    destruct (user request) as [u|]; [|unchanged].
    destruct (sessions db !! chat_id) as [chat|] eqn:Hrow; [|unchanged].
    destruct (status chat) eqn:Hstatus; try unchanged.
    + unfold add_technician. destruct (pk u) as [k|] eqn:Hpk; [|unchanged].
      intros _. exists u, chat. split; [done|]. split; [by eexists|]. split; [done|].
      by left.
    + destruct (is_technician db chat_id u) eqn:Hin; [unchanged|].
      destruct (pk u) as [k|] eqn:Hpk; [|unchanged].
      intros _. exists u, chat. split; [done|]. split; [by eexists|]. split; [done|].
      by right.
  - unfold technician_chat.
    destruct (user request) as [u|]; [|unchanged].
    destruct (sessions db !! chat_id) as [chat|] eqn:Hrow; [|unchanged].
    destruct (is_technician db chat_id u) eqn:Hin; [|unchanged].
    cbn [negb]. cbv zeta. destruct (method request); [unchanged|].
    case_bool_decide as Hsend.
    + destruct (ChatMessageForm _ _) as [cleaned_content|] eqn:Hform; [|unchanged].
      case_bool_decide as Hactive; [|unchanged].
      intros _. exists u, chat. split; [done|]. split; [done|]. split; [done|].
      split; [done|]. right. split; [done|]. split; [done|]. by eexists.
    + case_bool_decide as Hclose; [|unchanged].
      intros _. exists u, chat. split; [done|]. split; [done|]. split; [done|].
      split; [done|]. by left.
  - unfold chat_messages_api. destruct (method request); [|unchanged].
    destruct (sessions db !! chat_id); [|unchanged]. destruct (negb _); unchanged.
  - destruct (handle_raises env days dry_run db) as [-> | ->]; unchanged.
Qed.

Lemma writes_are_authorised_witness :
  ∃ chat,
    sessions Sample.one_chat_db !! "CHAT-20251201090000-AB12" = Some chat
    ∧ ((method (Sample.student_sends []) = GET ∧ student_session_key chat = EmptyString)
       ∨ (method (Sample.student_sends []) = POST
          ∧ student_session_key chat
            = ensure_session_key Sample.env (Sample.student_sends [])
          ∧ (post_action (Sample.student_sends []) = "leave_chat"
             ∨ (post_action (Sample.student_sends []) = "send_message"
                ∧ status chat ≠ STUDENT_LEFT
                ∧ is_Some (ChatMessageForm (post_content (Sample.student_sends []))
                             (FILES (Sample.student_sends []))))))).
Proof.
  apply (writes_are_authorised Sample.env
           (OpStudentChat (Sample.student_sends []) "CHAT-20251201090000-AB12")
           Sample.one_chat_db); [reflexivity|].
  intros Heq. apply (f_equal next_message_id) in Heq. by vm_compute in Heq.
Defined.

(** X18. When the holder of the student key posts [leave_chat], the
    session is saved with status [STUDENT_LEFT]; from then on no request
    can join the chat, the student cannot post to it and no technician
    can post to it: the only writes left are leaving again and closing
    the chat. *)
Theorem after_student_leaves env request chat_id db chat :
  sessions db !! chat_id = Some chat →
  method request = POST → post_action request = "leave_chat" →
  student_session_key chat = ensure_session_key env request →
  let db' := (student_chat env request chat_id db).2 in
  (student_chat env request chat_id db).1 = Redirect "chat:landing"
  ∧ sessions db' !! chat_id = Some (set_status STUDENT_LEFT chat)
  ∧ (∀ env' r, (join_chat env' r chat_id db').2 = db'
               ∧ ∀ c, (join_chat env' r chat_id db').1 ≠ RedirectChat "chat:technician_chat" c)
  ∧ (∀ env' r, method r = POST → post_action r = "send_message" →
               (student_chat env' r chat_id db').2 = db')
  ∧ (∀ env' r, post_action r ≠ "close_chat" →
               (technician_chat env' r chat_id db').2 = db'
               ∧ (technician_chat env' r chat_id db').1 ≠ JsonSuccess).
Proof.
  intros Hrow Hpost Haction Hkey db'.
  assert (student_chat env request chat_id db
          = (Redirect "chat:landing",
             (create_message chat_id SYSTEM_SENDER None
                ("👋 " +:+ student_name chat +:+ " has left the chat") false system
                (timezone_now env 1)
                (save_session chat_id (set_status STUDENT_LEFT chat) db)).1)) as Hleave.
  { unfold student_chat. rewrite Hrow, (student_access_post _ _ _ _ _ Hpost).
    rewrite bool_decide_eq_true_2 by done. cbn [negb].
    destruct (is_currently_available _ _) as [available notice].
    rewrite Hpost, Haction.
    rewrite (bool_decide_eq_false_2 ("leave_chat" = "send_message")) by done.
    by rewrite (bool_decide_eq_true_2 ("leave_chat" = "leave_chat")) by done. }
  unfold db'. rewrite Hleave. cbn [fst snd]. split; [done|].
  set (left_chat := set_status STUDENT_LEFT chat).
  set (db1 := (create_message _ _ _ _ _ _ _ _).1).
  assert (sessions db1 !! chat_id = Some left_chat) as Hrow1 by apply lookup_insert_eq.
  split; [done|]. clearbody db1. split; [|split].
  - intros env' r. unfold join_chat. destruct (user r); [|done]. by rewrite Hrow1.
  - intros env' r Hpost' Haction'. unfold student_chat.
    rewrite Hrow1, (student_access_post _ _ _ _ _ Hpost').
    destruct (bool_decide (student_session_key left_chat = _)); cbn [negb]; [|done].
    destruct (is_currently_available _ _) as [available notice].
    rewrite Hpost', Haction'. rewrite bool_decide_eq_true_2 by done.
    by destruct (ChatMessageForm _ _).
  - intros env' r Haction'. unfold technician_chat. destruct (user r) as [u|]; [|done].
    rewrite Hrow1. destruct (is_technician db1 chat_id u); [|done]. cbn [negb]. cbv zeta.
    destruct (method r); [done|]. case_bool_decide.
    + by destruct (ChatMessageForm _ _).
    + by rewrite bool_decide_eq_false_2.
Qed.

Lemma after_student_leaves_witness :
  let leave := mk_request POST (Some "stu0000000000000000000000000000key") None
                 "leave_chat" EmptyString EmptyString EmptyString [] in
  let db' := (student_chat Sample.env leave "CHAT-20251201090000-AB12"
                Sample.one_chat_db).2 in
  (join_chat Sample.env Sample.alice_joins "CHAT-20251201090000-AB12" db').2 = db'.
Proof.
  intros leave db'.
  apply (after_student_leaves Sample.env leave "CHAT-20251201090000-AB12"
           Sample.one_chat_db Sample.waiting_chat); by vm_compute.
Defined.

(** X19. [chat_messages_api] never writes. It lists the messages of a
    chat only on a [GET] for a chat that exists, to a request that
    carries the student key of the chat or comes from a technician of the
    chat; the listing holds exactly the message rows of the chat, in
    ascending order of timestamp, with the status of the chat. Whoever
    passes [validate_chat_access] is served. *)
Theorem chat_messages_api_reads request chat_id db :
  (chat_messages_api request chat_id db).2 = db
  ∧ (∀ listing st c,
       (chat_messages_api request chat_id db).1 = JsonMessages listing st c →
       ∃ chat,
         sessions db !! chat_id = Some chat ∧ method request = GET
         ∧ (session_key request = Some (student_session_key chat)
            ∨ ∃ u, user request = Some u ∧ is_technician db chat_id u = true)
         ∧ st = status chat ∧ c = chat_id
         ∧ listing ≡ₚ chat_rows db chat_id ∧ Sorted timestamp_le listing)
  ∧ (∀ chat,
       sessions db !! chat_id = Some chat → method request = GET →
       validate_chat_access request chat_id chat db = true →
       (chat_messages_api request chat_id db).1
       = JsonMessages (chat_messages db chat_id) (status chat) chat_id).
Proof.
  unfold chat_messages_api. split; [|split].
  - destruct (method request); [|done]. destruct (sessions db !! chat_id); [|done].
    by destruct (negb _).
  - intros listing st c. destruct (method request); [|done].
    destruct (sessions db !! chat_id) as [chat|]; [|done].
    destruct (bool_decide (Some (student_session_key chat) = session_key request)) eqn:Hkey;
      simpl.
    + intros [= <- <- <-]. exists chat. apply bool_decide_eq_true in Hkey.
      split; [done|]. split; [done|]. split; [by left|]. split; [done|]. split; [done|].
      split; [apply order_by_timestamp_perm|apply order_by_timestamp_sorted].
    + destruct (user request) as [u|]; [|done].
      destruct (is_technician db chat_id u) eqn:Htech; [|done]. simpl.
      intros [= <- <- <-]. exists chat.
      split; [done|]. split; [done|]. split; [right; by exists u|].
      split; [done|]. split; [done|].
      split; [apply order_by_timestamp_perm|apply order_by_timestamp_sorted].
  - intros chat -> -> . unfold validate_chat_access.
    destruct (user request) as [u|].
    + intros ->. by rewrite orb_true_r.
    + by intros ->.
Qed.

Lemma chat_messages_api_reads_witness :
  (chat_messages_api
     (mk_request GET (Some "stu0000000000000000000000000000key") None EmptyString
        EmptyString EmptyString EmptyString [])
     "CHAT-20251201090000-AB12" Sample.one_chat_db).1
  = JsonMessages (chat_messages Sample.one_chat_db "CHAT-20251201090000-AB12") WAITING
      "CHAT-20251201090000-AB12".
Proof.
  destruct (chat_messages_api_reads
              (mk_request GET (Some "stu0000000000000000000000000000key") None EmptyString
                 EmptyString EmptyString EmptyString [])
              "CHAT-20251201090000-AB12" Sample.one_chat_db) as (_ & _ & Hserved).
  apply (Hserved Sample.waiting_chat); by vm_compute.
Defined.

(** ** The forms *)

Lemma rstrip_idem s : Str.rstrip (Str.rstrip s) = Str.rstrip s.
Proof.
  induction s as [|c s IH]; [done|]. simpl.
  destruct (Str.rstrip s) as [|d r] eqn:Hr.
  - destruct (Str.is_space c) eqn:Hc; [done|]. simpl. by rewrite Hc.
  - change (Str.rstrip (String c (String d r))) with
      (match Str.rstrip (String d r) with
       | EmptyString => if Str.is_space c then EmptyString else String c EmptyString
       | r' => String c r'
       end).
    by rewrite IH.
Qed.

Lemma lstrip_head s :
  Str.lstrip s = EmptyString
  ∨ ∃ c s', Str.lstrip s = String c s' ∧ Str.is_space c = false.
Proof.
  induction s as [|c s IH]; [by left|]. simpl.
  destruct (Str.is_space c) eqn:Hc; [done|]. right. by exists c, s.
Qed.

Lemma rstrip_head c s :
  Str.is_space c = false → ∃ r, Str.rstrip (String c s) = String c r.
Proof.
  intros Hc. simpl. destruct (Str.rstrip s); [|by eexists].
  rewrite Hc. by eexists.
Qed.

(** [strip] of a stripped string is the string. *)
Lemma strip_idem s : Str.strip (Str.strip s) = Str.strip s.
Proof.
  unfold Str.strip. destruct (lstrip_head s) as [->|(c & s' & -> & Hc)]; [done|].
  destruct (rstrip_head c s' Hc) as [r Hr]. rewrite Hr.
  assert (Str.lstrip (String c r) = String c r) as -> by (simpl; by rewrite Hc).
  rewrite <- Hr. apply rstrip_idem.
Qed.

(** The field [student_name] through [CharField.clean] and
    [clean_student_name]. *)
Lemma student_name_field raw name :
  match CharField_clean (Some 100) raw with
  | CleanOk v => clean_student_name v
  | CleanError e => CleanError e
  end = CleanOk name
  ↔ name = Str.strip raw ∧ 2 ≤ Str.len name ≤ 100 ∧ Str.lower name ∉ forbidden_names.
Proof.
  unfold CharField_clean. cbv zeta.
  destruct (decide (Str.strip raw = EmptyString)) as [Hempty|Hfull].
  - rewrite bool_decide_eq_true_2 by done. split; [done|].
    intros (-> & Hlen & _). rewrite Hempty in Hlen. change (Str.len EmptyString) with 0 in Hlen. lia.
  - rewrite bool_decide_eq_false_2 by done.
    destruct (Z.ltb_spec 100 (Str.len (Str.strip raw))) as [Hlong|Hshort].
    + split; [done|]. intros (-> & Hlen & _). lia.
    + unfold clean_student_name, Str.str_in. cbv zeta. rewrite strip_idem.
      destruct (Z.ltb_spec (Str.len (Str.strip raw)) 2) as [Hlt|Hge].
      * split; [done|]. intros (-> & Hlen & _). lia.
      * case_bool_decide as Hforbidden.
        -- split; [done|]. by intros (-> & _ & ?).
        -- split; [by intros [= <-]|by intros (-> & _)].
Qed.

(** The field [initial_message] through [CharField.clean] and
    [clean_initial_message]. *)
Lemma initial_message_field raw message :
  match CharField_clean None raw with
  | CleanOk v => clean_initial_message v
  | CleanError e => CleanError e
  end = CleanOk message
  ↔ message = Str.strip raw ∧ 10 ≤ Str.len message ≤ 1000.
Proof.
  unfold CharField_clean. cbv zeta.
  destruct (decide (Str.strip raw = EmptyString)) as [Hempty|Hfull].
  - rewrite bool_decide_eq_true_2 by done. split; [done|].
    intros (-> & Hlen). rewrite Hempty in Hlen. change (Str.len EmptyString) with 0 in Hlen. lia.
  - rewrite bool_decide_eq_false_2 by done.
    unfold clean_initial_message. cbv zeta. rewrite strip_idem.
    destruct (Z.ltb_spec (Str.len (Str.strip raw)) 10) as [Hlt|Hge].
    + split; [done|]. intros (-> & Hlen). lia.
    + destruct (Z.ltb_spec 1000 (Str.len (Str.strip raw))) as [Hlong|Hshort].
      * split; [done|]. intros (-> & Hlen). lia.
      * split; [by intros [= <-]|by intros (-> & _)].
Qed.

(** X20. On ASCII texts [ChatStartForm] is valid exactly when the
    stripped name has 2 to 100 characters and is not, in lower case, one
    of the six reserved names, and the stripped message has 10 to 1000
    characters; the cleaned data are the stripped name and the stripped
    message. *)
Theorem ChatStartForm_accepts_iff raw_name raw_message name message :
  ascii_text raw_name = true → ascii_text raw_message = true →
  ChatStartForm raw_name raw_message = Some (name, message)
  ↔ name = Str.strip raw_name ∧ message = Str.strip raw_message
    ∧ 2 ≤ Str.len name ≤ 100
    ∧ (Str.lower name ∉ forbidden_names)
    ∧ 10 ≤ Str.len message ≤ 1000.
Proof.
  intros _ _. unfold ChatStartForm. cbv zeta.
  pose proof (student_name_field raw_name) as Hname.
  pose proof (initial_message_field raw_message) as Hmessage.
  destruct (match CharField_clean (Some 100) raw_name with
            | CleanOk v => clean_student_name v
            | CleanError e => CleanError e
            end) as [n|e];
    destruct (match CharField_clean None raw_message with
              | CleanOk v => clean_initial_message v
              | CleanError e => CleanError e
              end) as [m|e'].
  - split.
    + intros [= <- <-]. destruct (proj1 (Hname n) eq_refl) as (? & ? & ?).
      destruct (proj1 (Hmessage m) eq_refl) as (? & ?). done.
    + intros (Hn & Hm & Hlen & Hallowed & Hlen').
      assert (CleanOk n = CleanOk name) as [= ->] by by apply Hname.
      assert (CleanOk m = CleanOk message) as [= ->] by by apply Hmessage.
      done.
  - split; [done|]. intros (Hn & Hm & Hlen & Hallowed & Hlen').
    assert (CleanError e' = CleanOk message) by by apply Hmessage. done.
  - split; [done|]. intros (Hn & Hm & Hlen & Hallowed & Hlen').
    assert (CleanError e = CleanOk name) by by apply Hname. done.
  - split; [done|]. intros (Hn & Hm & Hlen & Hallowed & Hlen').
    assert (CleanError e = CleanOk name) by by apply Hname. done.
Qed.

Lemma ChatStartForm_accepts_iff_witness :
  ChatStartForm "  Robin " "My assignment will not upload "
  = Some ("Robin", "My assignment will not upload").
Proof.
  apply (ChatStartForm_accepts_iff "  Robin " "My assignment will not upload "
           "Robin" "My assignment will not upload"); [reflexivity..|].
  split; [reflexivity|]. split; [reflexivity|]. split; [by vm_compute|].
  split; [|by vm_compute].
  unfold forbidden_names. rewrite !elem_of_cons, elem_of_nil.
  intros [H|[H|[H|[H|[H|[H|[]]]]]]]; by vm_compute in H.
Defined.

(** The text after the last dot of a stem, a dot and an extension
    without dot is the extension. *)
Lemma after_last_dot_app stem ext :
  Str.after_last_dot ext = None →
  Str.after_last_dot (stem +:+ String Str.dot ext) = Some ext.
Proof.
  intros Hext. induction stem as [|c stem IH].
  - change (EmptyString +:+ String Str.dot ext) with (String Str.dot ext).
    simpl. by rewrite Hext.
  - change (String c stem +:+ String Str.dot ext)
      with (String c (stem +:+ String Str.dot ext)).
    simpl. by rewrite IH.
Qed.

Lemma path_suffix_app stem ext :
  stem ≠ EmptyString → Str.after_last_dot ext = None →
  Str.path_suffix (stem +:+ "." +:+ ext) = ext.
Proof.
  intros Hstem Hext. destruct stem as [|c stem]; [done|].
  change (String c stem +:+ "." +:+ ext) with (String c (stem +:+ String Str.dot ext)).
  unfold Str.path_suffix. by rewrite after_last_dot_app.
Qed.

(** A message form with a file that the extension validator refuses has
    errors. *)
Lemma ChatMessageForm_refuses content files f :
  f ∈ files → FileExtensionValidator f = false → ChatMessageForm content files = None.
Proof.
  intros Hin Hext. unfold ChatMessageForm.
  assert (MultipleFileField_clean files = false) as ->.
  { unfold MultipleFileField_clean. apply not_true_is_false. intros Hall.
    rewrite forallb_forall in Hall. apply list_elem_of_In, Hall in Hin.
    unfold single_file_clean in Hin. rewrite Hext, andb_false_r in Hin. done. }
  cbn [andb]. by destruct (match CharField_clean _ _ with CleanOk v => _ | CleanError e => _ end).
Qed.

(** X21. For a file with an ASCII name made of a stem, a dot and an
    extension without dot, the extension validator looks only at the extension in lower
    case; a message form that carries a file with another extension has
    errors, whatever else it holds. The extensions [py] and [xlsx] are
    not in the list, which has [xlsxpy] in their place. *)
Theorem upload_extension_decides content files f stem ext :
  ascii_text (file_name f) = true →
  f ∈ files → stem ≠ EmptyString → Str.after_last_dot ext = None →
  file_name f = stem +:+ "." +:+ ext →
  (FileExtensionValidator f = true ↔ Str.lower ext ∈ allowed_extensions)
  ∧ (Str.lower ext ∉ allowed_extensions → ChatMessageForm content files = None)
  ∧ ("py" ∉ allowed_extensions) ∧ ("xlsx" ∉ allowed_extensions)
  ∧ "xlsxpy" ∈ allowed_extensions.
Proof.
  intros _ Hin Hstem Hext Hname.
  assert (FileExtensionValidator f = bool_decide (Str.lower ext ∈ allowed_extensions))
    as Hvalidator.
  { unfold FileExtensionValidator, Str.str_in. by rewrite Hname, path_suffix_app. }
  split; [by rewrite Hvalidator, bool_decide_eq_true|].
  split.
  { intros Hrefused. apply (ChatMessageForm_refuses content files f Hin).
    by rewrite Hvalidator, bool_decide_eq_false. }
  assert (∀ s, bool_decide (s ∈ allowed_extensions) = false → s ∉ allowed_extensions)
    as Hout by (intros s; apply bool_decide_eq_false).
  split; [by apply Hout|]. split; [by apply Hout|].
  by apply (bool_decide_eq_true_1 ("xlsxpy" ∈ allowed_extensions)).
Qed.

Lemma upload_extension_decides_witness :
  ChatMessageForm "Here is my code" [mk_file "homework.PY" 100] = None.
Proof.
  apply (upload_extension_decides "Here is my code" [mk_file "homework.PY" 100]
           (mk_file "homework.PY" 100) "homework" "PY").
  - reflexivity.
  - left.
  - discriminate.
  - reflexivity.
  - reflexivity.
  - apply (bool_decide_eq_false_1 (Str.lower "PY" ∈ allowed_extensions)). reflexivity.
Defined.

(** ** Helpers that read the status class through the session class *)

(** X22. [ChatPermissions.can_send_message] never answers yes: for a
    student, and for a technician of the chat, it raises
    [AttributeError] at [chat.ChatStatus], whatever the status of the
    chat; for anyone else it answers no. *)
Theorem can_send_message_never_grants db chat_id chat u is_student :
  can_send_message db chat_id chat u is_student ≠ inr true
  ∧ (is_student = true ∨ can_close_chat db chat_id u = true →
     can_send_message db chat_id chat u is_student = inl AttributeError)
  ∧ (is_student = false → can_close_chat db chat_id u = false →
     can_send_message db chat_id chat u is_student = inr false).
Proof.
  unfold can_send_message, can_close_chat.
  assert (status_is_active_attribute chat = inl AttributeError) as -> by done.
  destruct is_student; [by repeat split; intros|].
  destruct u as [who|]; [|by repeat split; intros; intuition].
  destruct (is_technician db chat_id who); by repeat split; intros; intuition.
Qed.

Lemma can_send_message_never_grants_witness :
  can_send_message Sample.one_chat_db "CHAT-20251201090000-AB12" Sample.waiting_chat None true
  = inl AttributeError.
Proof.
  apply (can_send_message_never_grants Sample.one_chat_db "CHAT-20251201090000-AB12"
           Sample.waiting_chat None true).
  by left.
Defined.

(** X23. [cleanup_old_chat_files] returns 0 and leaves every table as
    it is, for every age limit and every database, also one that holds
    closed chats older than the limit: the lookup of
    [ChatSession.ChatStatus] raises and the exception is caught. *)
Theorem cleanup_old_chat_files_cleans_nothing env isfile days_old db :
  cleanup_old_chat_files env isfile days_old db = (0, db).
Proof.
  unfold cleanup_old_chat_files. by destruct (minus_days _ _).
Qed.

(** ** Icons *)

(** X24. [get_file_icon] chooses by the family of the guessed MIME type:
    every type that starts with [image/], [video/], [audio/] or [text/]
    gets the icon of its family whatever follows the slash, and a name
    whose type cannot be guessed gets the plain file icon. *)
Theorem get_file_icon_by_family env filename :
  (guess_type env filename = None → get_file_icon env filename = "bi-file-earmark")
  ∧ ∀ family subtype icon,
      guess_type env filename = Some (family +:+ "/" +:+ subtype) →
      (family, icon) ∈ [("image", "bi-image"); ("video", "bi-camera-video");
                        ("audio", "bi-music-note"); ("text", "bi-file-earmark-text")] →
      get_file_icon env filename = icon.
Proof.
  unfold get_file_icon. split; [by intros ->|].
  intros family subtype icon -> Hfamily.
  repeat (apply elem_of_cons in Hfamily as [[= -> ->]|Hfamily];
          [by destruct subtype; vm_compute|]).
  by apply elem_of_nil in Hfamily.
Qed.

Lemma get_file_icon_by_family_witness :
  get_file_icon
    (mk_env (timezone_now Sample.env) (localtime Sample.env) (random_draw Sample.env)
       (new_session_key Sample.env) (fun _ => Some "image/png"))
    "shot.png"
  = "bi-image".
Proof.
  apply (get_file_icon_by_family
           (mk_env (timezone_now Sample.env) (localtime Sample.env) (random_draw Sample.env)
              (new_session_key Sample.env) (fun _ => Some "image/png"))
           "shot.png") with (family := "image") (subtype := "png").
  - reflexivity.
  - left.
Defined.

(** ** The dashboard *)

Lemma insert_by_created_head x l :
  ∀ y, HdRel latest_first y l → latest_first y x → HdRel latest_first y (insert_by_created x l).
Proof.
  intros y Hhd Hyx. destruct l as [|z l]; simpl; [by constructor|].
  destruct (datetime_le (created_at x.2) (created_at z.2)); constructor; [|done].
  by inversion Hhd.
Qed.

Lemma insert_by_created_sorted x l :
  Sorted latest_first l → Sorted latest_first (insert_by_created x l).
Proof.
  induction 1 as [|y l Hs IH Hhd]; simpl; [by repeat constructor|].
  destruct (datetime_le (created_at x.2) (created_at y.2)) eqn:Hle.
  - constructor; [done|]. by apply insert_by_created_head.
  - constructor; [by constructor|]. constructor. by apply datetime_le_total.
Qed.

Lemma insert_by_created_perm x l : insert_by_created x l ≡ₚ x :: l.
Proof.
  induction l as [|y l IH]; simpl; [done|].
  destruct (datetime_le (created_at x.2) (created_at y.2)); [|done].
  rewrite IH. apply Permutation_swap.
Qed.

Lemma order_by_created_desc_sorted rows : Sorted latest_first (order_by_created_desc rows).
Proof.
  unfold order_by_created_desc. generalize (Sorted_nil latest_first).
  generalize (@nil (string * ChatSession)).
  induction rows as [|x rows IH]; intros acc Hacc; [done|].
  simpl. by apply IH, insert_by_created_sorted.
Qed.

Lemma order_by_created_desc_perm rows : order_by_created_desc rows ≡ₚ rows.
Proof.
  unfold order_by_created_desc.
  assert (∀ acc, fold_left (fun acc x => insert_by_created x acc) rows acc ≡ₚ acc ++ rows)
    as Hfold.
  { induction rows as [|x rows IH]; intros acc; simpl; [by rewrite app_nil_r|].
    rewrite IH, insert_by_created_perm. simpl. apply Permutation_middle. }
  by rewrite Hfold.
Qed.

(** The rows of a filtered and ordered query. *)
Lemma ordered_query_rows (P : string * ChatSession → Prop) `{∀ p, Decision (P p)}
    (db : DB) chat_id c :
  (chat_id, c) ∈ order_by_created_desc (filter P (map_to_list (sessions db)))
  ↔ sessions db !! chat_id = Some c ∧ P (chat_id, c).
Proof.
  rewrite (order_by_created_desc_perm _), list_elem_of_filter, elem_of_map_to_list. tauto.
Qed.

(** X25. For a logged-in user the dashboard lists exactly the waiting
    sessions, and exactly the active sessions that the user has joined,
    each session once and each list with the latest creation time first;
    the three counts are the length of the waiting list, the number of
    active sessions of the table and the length of the user's list, so
    the user's count never exceeds the count of active sessions.
    Anonymous callers get no dashboard. *)
Theorem technician_dashboard_lists env request db :
  (user request = None → technician_dashboard env request db = None)
  ∧ ∀ who, user request = Some who →
      ∃ d, technician_dashboard env request db = Some d
        ∧ (∀ chat_id c, (chat_id, c) ∈ waiting_chats d
                        ↔ sessions db !! chat_id = Some c ∧ status c = WAITING)
        ∧ (∀ chat_id c, (chat_id, c) ∈ active_chats d
                        ↔ sessions db !! chat_id = Some c ∧ status c = ACTIVE
                          ∧ is_technician db chat_id who = true)
        ∧ Sorted latest_first (waiting_chats d) ∧ Sorted latest_first (active_chats d)
        ∧ NoDup (waiting_chats d) ∧ NoDup (active_chats d)
        ∧ total_waiting d = length (waiting_chats d)
        ∧ user_active d = length (active_chats d)
        ∧ (∃ all_active,
             NoDup all_active
             ∧ (∀ chat_id c, (chat_id, c) ∈ all_active
                             ↔ sessions db !! chat_id = Some c ∧ status c = ACTIVE)
             ∧ total_active d = length all_active)
        ∧ (user_active d ≤ total_active d)%nat.
Proof.
  unfold technician_dashboard. split; [by intros ->|]. intros who ->.
  destruct (is_currently_available _ _) as [is_available availability_message].
  eexists. split; [done|]. cbn [waiting_chats active_chats total_waiting user_active
                                 total_active].
  split; [|split; [|split; [|split; [|split; [|split; [|split; [|split; [|split]]]]]]]].
  - intros chat_id c. by rewrite ordered_query_rows.
  - intros chat_id c. rewrite ordered_query_rows. simpl. tauto.
  - apply order_by_created_desc_sorted.
  - apply order_by_created_desc_sorted.
  - rewrite (order_by_created_desc_perm _). apply NoDup_filter, NoDup_map_to_list.
  - rewrite (order_by_created_desc_perm _). apply NoDup_filter, NoDup_map_to_list.
  - done.
  - done.
  - exists (filter (fun p => status p.2 = ACTIVE) (map_to_list (sessions db))).
    split; [apply NoDup_filter, NoDup_map_to_list|]. split; [|done].
    intros chat_id c. rewrite list_elem_of_filter, elem_of_map_to_list. simpl. tauto.
  - rewrite (order_by_created_desc_perm _).
    set (rows := map_to_list (sessions db)). clearbody rows.
    induction rows as [|p rows IH]; [done|].
    rewrite !filter_cons.
    destruct (decide (status p.2 = ACTIVE ∧ is_technician db p.1 who = true)) as [[Ha _]|_].
    + rewrite decide_True by done. simpl. lia.
    + destruct (decide (status p.2 = ACTIVE)); simpl; lia.
Qed.

Lemma technician_dashboard_lists_witness :
  ∃ d, technician_dashboard Sample.env Sample.alice_joins Sample.one_chat_db = Some d
       ∧ ("CHAT-20251201090000-AB12", Sample.waiting_chat) ∈ waiting_chats d.
Proof.
  destruct (technician_dashboard_lists Sample.env Sample.alice_joins Sample.one_chat_db)
    as [_ Hlogged].
  destruct (Hlogged Sample.alice eq_refl) as (d & Hd & Hwaiting & _).
  exists d. split; [exact Hd|]. apply Hwaiting. split; [|reflexivity].
  apply lookup_singleton_eq.
Defined.

(** X26. A technician who joins a waiting chat finds it on the
    dashboard among the own active chats and no longer among the waiting
    chats. *)
Theorem joined_chat_on_dashboard env env' request chat_id db chat u k :
  user request = Some u → persisted db u k →
  sessions db !! chat_id = Some chat → status chat = WAITING →
  let db' := (join_chat env request chat_id db).2 in
  ∃ d c',
    technician_dashboard env' request db' = Some d
    ∧ (chat_id, c') ∈ active_chats d
    ∧ student_name c' = student_name chat
    ∧ ∀ c, (chat_id, c) ∉ waiting_chats d.
Proof.
  intros Hu Hp Hrow Hstatus db'.
  destruct (join_chat_again env env request chat_id db chat u k Hu Hp Hrow Hstatus)
    as (Hactive & Htech & _).
  fold db' in Hactive, Htech.
  destruct (sessions db' !! chat_id) as [c'|] eqn:Hrow'; [|done].
  injection Hactive as Hactive.
  assert (student_name c' = student_name chat) as Hname.
  { destruct (run_effect env (OpJoinChat request chat_id) db) as (target & Heffect & _).
    destruct (Effect_sessions target db db' chat_id Heffect) as [Hkeep _].
    by destruct (Hkeep chat c' Hrow Hrow'). }
  unfold technician_dashboard. rewrite Hu.
  destruct (is_currently_available _ _) as [is_available availability_message].
  eexists _, c'. split; [done|]. cbn [waiting_chats active_chats].
  split; [|split; [done|]].
  - apply ordered_query_rows. by repeat split.
  - intros c [Hc Hwaiting]%ordered_query_rows. simpl in Hwaiting.
    rewrite Hrow' in Hc. injection Hc as <-. congruence.
Qed.

Lemma joined_chat_on_dashboard_witness :
  let db' := (join_chat Sample.env Sample.alice_joins "CHAT-20251201090000-AB12"
                Sample.one_chat_db).2 in
  ∃ d c',
    technician_dashboard Sample.env Sample.alice_joins db' = Some d
    ∧ ("CHAT-20251201090000-AB12", c') ∈ active_chats d
    ∧ student_name c' = "Robin"
    ∧ ∀ c, ("CHAT-20251201090000-AB12", c) ∉ waiting_chats d.
Proof.
  apply (joined_chat_on_dashboard Sample.env Sample.env Sample.alice_joins
           "CHAT-20251201090000-AB12" Sample.one_chat_db Sample.waiting_chat
           Sample.alice 7).
  - reflexivity.
  - split; [reflexivity|]. split; [by vm_compute|lia].
  - apply lookup_singleton_eq.
  - reflexivity.
Defined.

(** ** The status API *)

(** X27. With overrides that pass [ScheduleOverride.clean],
    [schedule_status_api] answers open exactly when the UTC date has an
    active override whose window, bounds included, holds the local time
    of day, or has no override and the weekly table is open at the local
    instant; it reports an override exactly when the UTC date has one,
    with its reason; and the next opening it reports is the one of the
    weekly table, override or not. *)
Theorem schedule_status_api_decides db utc_now local1 local2 local3 :
  (∀ d ov, overrides db !! d = Some ov → ScheduleOverride_clean ov = Valid) →
  let r := schedule_status_api db utc_now local1 local2 local3 in
  (st_is_available r = true
   ↔ (∃ ov st en,
        overrides db !! dt_date utc_now = Some ov ∧ ov_is_active ov = true
        ∧ ov_start_time ov = Some st ∧ ov_end_time ov = Some en
        ∧ in_window st en (dt_time local1) = true)
     ∨ (overrides db !! dt_date utc_now = None
        ∧ (is_currently_available db local2).1 = true))
  ∧ (st_has_override r = true ↔ is_Some (overrides db !! dt_date utc_now))
  ∧ st_override_reason r = ov_reason <$> overrides db !! dt_date utc_now
  ∧ st_next_available r = get_next_available_time db local3.
Proof.
  intros Hclean. unfold schedule_status_api, get_override_for_date. cbv zeta.
  destruct (overrides db !! dt_date utc_now) as [ov|] eqn:Hov.
  - specialize (Hclean _ _ Hov). unfold ScheduleOverride_clean in Hclean.
    destruct (ov_is_active ov) eqn:Hactive.
    + destruct (ov_start_time ov) as [st|] eqn:Hst, (ov_end_time ov) as [en|] eqn:Hen;
        try done.
      unfold in_window. cbn -[time_le].
      split; [|split; [|done]].
      * split.
        -- intros Hin. left. exists ov, st, en. by repeat split.
        -- intros [(ov' & st' & en' & [= <-] & _ & Hst' & Hen' & Hin)|[? _]]; [|done].
           rewrite Hst in Hst'. rewrite Hen in Hen'. congruence.
      * rewrite ?bool_decide_eq_true. split; [by eexists|done].
    + cbn. destruct (ov_start_time ov), (ov_end_time ov); cbn;
        (split; [|split; [|done]]);
        try (rewrite ?bool_decide_eq_true; split; [by eexists|done]);
        (split; [done|]);
        intros [(ov' & st' & en' & [= <-] & Ha & _)|[? _]]; congruence.
  - destruct (is_currently_available db local2) as [available message] eqn:Hweekly.
    cbn. split; [|split; [|done]].
    + split; [by right|]. by intros [(ov' & st' & en' & ? & _)|[_ ?]].
    + rewrite ?bool_decide_eq_true. split; [done|]. by intros [? ?].
Qed.

Lemma schedule_status_api_decides_witness :
  st_has_override
    (schedule_status_api Sample.holiday_db (Sample.monday_at Sample.t1000)
       (Sample.monday_at Sample.t1000) (Sample.monday_at Sample.t1000)
       (Sample.monday_at Sample.t1000)) = true.
Proof.
  apply (schedule_status_api_decides Sample.holiday_db (Sample.monday_at Sample.t1000)
           (Sample.monday_at Sample.t1000) (Sample.monday_at Sample.t1000)
           (Sample.monday_at Sample.t1000)).
  - intros d ov Hov. simpl in Hov. apply lookup_singleton_Some in Hov as [_ <-].
    reflexivity.
  - eexists. apply lookup_singleton_eq.
Defined.

(** ** Message text *)

Lemma lstrip_chars s c :
  In c (String.list_ascii_of_string (Str.lstrip s)) → In c (String.list_ascii_of_string s).
Proof.
  induction s as [|a s IH]; [done|]. simpl.
  destruct (Str.is_space a); [by right; apply IH|done].
Qed.

Lemma rstrip_chars s c :
  In c (String.list_ascii_of_string (Str.rstrip s)) → In c (String.list_ascii_of_string s).
Proof.
  induction s as [|a s IH]; [done|]. simpl.
  destruct (Str.rstrip s) as [|b r].
  - destruct (Str.is_space a); [done|]. simpl. intros [->|[]]. by left.
  - intros [->|Hin]; [by left|right]. by apply IH.
Qed.

Lemma strip_chars s c :
  In c (String.list_ascii_of_string (Str.strip s)) → In c (String.list_ascii_of_string s).
Proof. unfold Str.strip. intros Hin. by apply lstrip_chars, rstrip_chars. Qed.

(** [replace] leaves a string that has no occurrence of the first
    character of [old]. *)
Lemma replace_absent old new s :
  old ≠ EmptyString →
  (∀ c, In c (String.list_ascii_of_string s) → String.get 0 old ≠ Some c) →
  Str.replace old new s = s.
Proof.
  intros Hold Habsent. destruct old as [|a old]; [done|]. unfold Str.replace.
  induction s as [|c s IH]; [done|].
  change (Str.replace_from (String a old) new 0 (String c s))
    with (if String.prefix (String a old) (String c s)
          then new +:+ Str.replace_from (String a old) new
                         (String.length (String a old) - 1) s
          else String c (Str.replace_from (String a old) new 0 s)).
  assert (String.prefix (String a old) (String c s) = false) as ->.
  { simpl. destruct (Ascii.ascii_dec a c) as [->|]; [|done].
    destruct (Habsent c); [by left|done]. }
  rewrite IH; [done|]. intros c' Hc'. apply Habsent. by right.
Qed.

Lemma replace_table_absent (table : list (string * string)) s :
  Forall (fun p => p.1 ≠ EmptyString) table →
  (∀ c, In c (String.list_ascii_of_string s) → ∀ p, p ∈ table → String.get 0 p.1 ≠ Some c) →
  fold_left (fun acc p => Str.replace p.1 p.2 acc) table s = s.
Proof.
  induction 1 as [|p table Hp _ IH]; intros Habsent; [done|]. simpl.
  rewrite replace_absent; [|done|].
  - apply IH. intros c Hc q Hq. apply Habsent; [done|by right].
  - intros c Hc. apply Habsent; [done|by left].
Qed.

(** X28. A message whose text is ASCII and has no character that starts
    an emoticon of the table is cleaned to its stripped text and nothing else: with
    a stripped text of 1 to 2000 characters and attachments that pass
    their checks, [ChatMessageForm] is valid and its content is the
    stripped text. *)
Theorem plain_text_kept text files :
  ascii_text text = true →
  (∀ c, In c (String.list_ascii_of_string text) →
        ∀ p, p ∈ emoji_replacements → String.get 0 p.1 ≠ Some c) →
  Str.strip text ≠ EmptyString → Str.len (Str.strip text) ≤ 2000 →
  MultipleFileField_clean files = true → cleaned_ok (clean_attachments files) = true →
  ChatMessageForm text files = Some (Str.strip text).
Proof.
  intros _ Hplain Hfull Hlen Hfiles Hlimits.
  unfold ChatMessageForm, CharField_clean. cbv zeta.
  rewrite Hfiles, Hlimits, (bool_decide_eq_false_2 (Str.strip text = EmptyString)) by done.
  destruct (Z.ltb_spec 2000 (Str.len (Str.strip text))) as [|_]; [lia|].
  unfold clean_content. cbv zeta. rewrite strip_idem.
  rewrite (bool_decide_eq_false_2 (Str.strip text = EmptyString)) by done.
  destruct (Z.ltb_spec (Str.len (Str.strip text)) 1) as [Hshort|_].
  { destruct (Str.strip text); [done|]. unfold Str.len in Hshort. simpl in Hshort. lia. }
  rewrite replace_table_absent; [done| |].
  - unfold emoji_replacements. by repeat constructor.
  - intros c Hc. apply Hplain. by apply strip_chars.
Qed.

Lemma plain_text_kept_witness :
  ChatMessageForm " thanks a lot " [] = Some "thanks a lot".
Proof.
  apply (plain_text_kept " thanks a lot " []); try by vm_compute.
  intros c Hc p Hp Hget. simpl in Hc.
  repeat (destruct Hc as [<-|Hc];
          [repeat (apply elem_of_cons in Hp as [->|Hp]; [by vm_compute in Hget|]);
           by apply elem_of_nil in Hp|]).
  done.
Defined.

(** ** One day of the schedule *)

(** The days that have a name are Monday to Sunday. *)
Lemma day_name_lookup_range d : is_Some (day_name_lookup d) → 0 ≤ d ≤ 6.
Proof.
  intros [name Hname]. unfold day_name_lookup, DAYS_OF_WEEK in Hname.
  cbn [dict_get] in Hname.
  repeat match type of Hname with
         | context [?k =? d] => destruct (Z.eqb_spec k d); [lia|]
         end.
  done.
Qed.

(** What a valid day form guarantees. *)
Lemma HelpdeskScheduleForm_Some url_day data db day row :
  HelpdeskScheduleForm url_day data db = Some (day, row) →
  dd_day_of_week data = Some day
  ∧ row = mk_schedule (dd_is_active data) (dd_start_time data) (dd_end_time data)
  ∧ 0 ≤ day ≤ 6
  ∧ HelpdeskSchedule_clean row = Valid
  ∧ (day = url_day ∨ schedules db !! day = None).
Proof.
  unfold HelpdeskScheduleForm. destruct (dd_day_of_week data) as [posted|]; [|done].
  case_bool_decide as Hchoice; [|done].
  destruct (is_valid (HelpdeskScheduleForm_clean data)); [|done].
  destruct (HelpdeskSchedule_clean _) eqn:Hclean; [|done]. cbn [is_valid andb].
  destruct (decide (posted = url_day)) as [Hsame|Hmoved].
  - rewrite (bool_decide_eq_true_2 (posted = url_day)) by done. cbn [orb].
    intros [= <- <-]. split; [done|]. split; [done|]. split; [|by auto].
    by apply day_name_lookup_range.
  - rewrite (bool_decide_eq_false_2 (posted = url_day)) by done. cbn [orb].
    case_bool_decide as Htaken; [done|]. cbn [negb].
    intros [= <- <-]. split; [done|]. split; [done|]. split.
    + by apply day_name_lookup_range.
    + split; [done|]. right. destruct (schedules db !! posted); [|done].
      destruct Htaken. by eexists.
Qed.

(** X29. [update_day_schedule] writes nothing for a caller who is not a
    system manager and nothing on a [GET]; it never touches the
    overrides, keeps a table of rows that pass [clean] such, and leaves
    every day other than the day of the URL and the day of the form as it
    was. When the two days agree, a change stores the submitted columns
    under that day, which is one of Monday to Sunday. When the form names
    another day, a change is possible only if that day had no row, and it
    moves the row: the day of the form gets the submitted columns and the
    day of the URL is left without a row. *)
Theorem update_day_schedule_effect who how url_day data db :
  let r := update_day_schedule who how url_day data db in
  let row := mk_schedule (dd_is_active data) (dd_start_time data) (dd_end_time data) in
  (is_system_manager who = false ∨ how = GET → r.2 = db)
  ∧ overrides r.2 = overrides db
  ∧ (valid_table db → valid_table r.2)
  ∧ (∀ d, d ≠ url_day → dd_day_of_week data ≠ Some d →
          schedules r.2 !! d = schedules db !! d)
  ∧ (∀ day, dd_day_of_week data = Some day → r.2 ≠ db →
       0 ≤ day ≤ 6 ∧ HelpdeskSchedule_clean row = Valid
       ∧ schedules r.2 !! day = Some row
       ∧ (day ≠ url_day → schedules db !! day = None ∧ schedules r.2 !! url_day = None)).
Proof.
  unfold update_day_schedule.
  assert (∀ answer : DayResponse,
            let r := (answer, db) in
            overrides r.2 = overrides db
            ∧ (valid_table db → valid_table r.2)
            ∧ (∀ d, d ≠ url_day → dd_day_of_week data ≠ Some d →
                    schedules r.2 !! d = schedules db !! d)
            ∧ (∀ day, dd_day_of_week data = Some day → r.2 ≠ db →
                 0 ≤ day ≤ 6
                 ∧ HelpdeskSchedule_clean
                     (mk_schedule (dd_is_active data) (dd_start_time data)
                        (dd_end_time data)) = Valid
                 ∧ schedules r.2 !! day
                   = Some (mk_schedule (dd_is_active data) (dd_start_time data)
                             (dd_end_time data))
                 ∧ (day ≠ url_day →
                    schedules db !! day = None ∧ schedules r.2 !! url_day = None)))
    as Hsame.
  { intros answer. simpl. split; [done|]. split; [done|]. split; [done|].
    intros day _ Hchanged. by destruct Hchanged. }
  destruct (is_system_manager who); cbn [negb]; [|split; [done|apply Hsame]].
  destruct how; [split; [done|apply Hsame]|].
  destruct (HelpdeskScheduleForm url_day data db) as [[day row]|] eqn:Hform;
    [|split; [by intros [|]|apply Hsame]].
  apply HelpdeskScheduleForm_Some in Hform as (Hday & -> & Hrange & Hclean & Hfree).
  rewrite (HelpdeskSchedule_save_valid _ _ _ Hclean). cbn [fst snd schedules overrides].
  split; [by intros [|]|]. split; [done|]. split; [|split].
  - unfold valid_table. cbn [schedules].
    intros Hvalid d row. destruct (decide (day = d)) as [<-|Hne].
    + rewrite lookup_insert_eq. by intros [= <-].
    + rewrite lookup_insert_ne by done. destruct (decide (url_day = d)) as [<-|Hne'].
      * by rewrite lookup_delete_eq.
      * rewrite lookup_delete_ne by done. apply Hvalid.
  - intros d Hurl Hposted. rewrite lookup_insert_ne by congruence.
    by rewrite lookup_delete_ne.
  - intros day' Hday' _. rewrite Hday in Hday'. injection Hday' as <-.
    split; [done|]. split; [done|]. split; [apply lookup_insert_eq|].
    intros Hmoved. destruct Hfree as [|Hfree]; [done|]. split; [done|].
    rewrite lookup_insert_ne by done. apply lookup_delete_eq.
Qed.

Lemma update_day_schedule_effect_witness :
  let data := mk_day_data (Some 3) false None None in
  let r := update_day_schedule Fixture.manager POST 0 data Sample.holiday_db in
  schedules r.2 !! 3 = Some (mk_schedule false None None) ∧ schedules r.2 !! 0 = None.
Proof.
  intros data r.
  destruct (update_day_schedule_effect Fixture.manager POST 0 data Sample.holiday_db)
    as (_ & _ & _ & _ & Hchange).
  destruct (Hchange 3) as (_ & _ & Hrow & Hmoved).
  - reflexivity.
  - intros Heq. apply (f_equal (fun d => schedules d !! 3)) in Heq. by vm_compute in Heq.
  - split; [exact Hrow|]. by apply Hmoved.
Defined.
